(** * digidice wallet provider: swap and deposit transaction lifecycle

    A shallow embedding of
    - [services/walletProvider/TransactionService.ts]
      (approval, transfer, allowance query, swap submission, conversion
      cache),
    - [hooks/walletProvider/deposit/useDepositTransaction.ts]
      (the allowance effect),
    - [useSwapTransaction.ts] (validation, submission, receipt polling,
      teardown) and
    - [useSwap.ts] (the orchestrating [executeSwap]),
    followed by the properties of the specification that concern them.

    JavaScript numbers are IEEE 754 binary64 values and are modelled by
    Rocq's primitive floats.  Asynchronous functions are modelled in a
    state-and-exception monad over an explicit world (call trace,
    [localStorage], clock); the React hook is modelled as a transition
    system whose events are timer ticks, settled promises and user
    actions. *)

From Stdlib Require Import ZArith Floats String List Bool Lia Ascii DecimalString.
From stdpp Require Import gmap strings.
Import ListNotations.

Local Open Scope string_scope.

(** ** JavaScript values *)

Module JS.

(** An [Error] object; [shortMessage] is the extra field that wallet
    libraries attach. *)
Record Error := { message : string; shortMessage : option string }.

(** [new Error(m)] *)
Definition newError (m : string) : Error :=
  {| message := m; shortMessage := None |}.

(** The way a call to a collaborator ends: it returns (a promise
    resolves) or it throws (the promise rejects). *)
Inductive outcome (A : Type) : Type :=
| Resolves (a : A)
| Rejects (e : Error).
Arguments Resolves {A} a.
Arguments Rejects {A} e.

(** Truthiness of a number: [0], [-0] and [NaN] are falsy. *)
Definition truthyNumber (x : float) : bool :=
  negb (PrimFloat.is_nan x) && negb (PrimFloat.eqb x 0%float).

(** Truthiness of a string: only the empty string is falsy. *)
Definition truthyString (s : string) : bool := negb (String.eqb s "").

(** Truthiness of [string | undefined | null]. *)
Definition truthy (o : option string) : bool :=
  match o with
  | Some s => truthyString s
  | None => false
  end.

(** [a || b] where [b] is a string *)
Definition orElse (a : option string) (b : string) : string :=
  match a with
  | Some s => if truthyString s then s else b
  | None => b
  end.

(** [x > y] and [x <= y] on numbers; both are false when an operand
    is [NaN]. *)
Definition gt (x y : float) : bool := PrimFloat.ltb y x.
Definition le (x y : float) : bool := PrimFloat.leb x y.

(** [s.includes(sub)] *)
Fixpoint includes (s sub : string) : bool :=
  String.prefix sub s
  || match s with
     | EmptyString => false
     | String _ rest => includes rest sub
     end.

(** [list.includes(x)] on an array of strings *)
Definition arrayIncludes (l : list string) (x : string) : bool :=
  existsb (String.eqb x) l.

(** [s.toLowerCase()], on the ASCII letters. *)
Definition lowerAscii (c : ascii) : ascii :=
  let n := nat_of_ascii c in
  if (65 <=? n)%nat && (n <=? 90)%nat then ascii_of_nat (n + 32) else c.

Fixpoint toLowerCase (s : string) : string :=
  match s with
  | EmptyString => EmptyString
  | String c rest => String (lowerAscii c) (toLowerCase rest)
  end.

(** The value of a string of decimal digits, as [BigInt(s)] reads it;
    [None] when a character is not a digit or the string is empty. *)
Definition digitValue (c : ascii) : option Z :=
  let n := nat_of_ascii c in
  if (48 <=? n)%nat && (n <=? 57)%nat then Some (Z.of_nat (n - 48)) else None.

Fixpoint decimalFrom (acc : Z) (s : string) : option Z :=
  match s with
  | EmptyString => Some acc
  | String c rest =>
      match digitValue c with
      | Some d => decimalFrom (10 * acc + d)%Z rest
      | None => None
      end
  end.

Definition decimalValue (s : string) : option Z :=
  match s with
  | EmptyString => None
  | _ => decimalFrom 0 s
  end.

End JS.

Export JS.

(** ** Shapes exchanged with the collaborators
    ([types/walletProvider/transaction-service.types.ts]) *)

Record ApiResponse (T : Type) : Type := {
  resp_error : bool;
  resp_message : string;
  resp_data : T;
}.
Arguments resp_error {T} _.
Arguments resp_message {T} _.
Arguments resp_data {T} _.

Record AllowanceData := {
  unit_ : string;
  allowance : string;
  contractAddress : string;
}.

Record ConversionData := {
  cd_fromToken : string;
  cd_toToken : string;
  cd_fromAmount : float;
  cd_toAmount : float;
}.

(** [CachedConversionData extends ConversionData] with a timestamp.  The
    stamp is a millisecond count as [Date.now()] yields it; [None] stands
    for an object that carries no [timestamp] property. *)
Record CachedConversionData := {
  quote : ConversionData;
  timestamp : option Z;
}.

(** The [data] of [/apiSwap/swap]: either unsigned transaction
    parameters, or an object with an [error] key and a description. *)
Inductive SwapTransactionData :=
| TxDetails (to data : string) (value : option string)
| TxError (description : option string).

(** The JSON bodies that the service posts. *)
Inductive body :=
| AllowanceBody (api_key network fromToken walletAddress : string)
    (username : option string) (spender : string)
| ConversionBody (api_key network fromToken toToken : string)
    (amount : float) (username : string)
| SwapBody (api_key network fromToken toToken amount walletAddress
    slippage username : string) (receiver : option string).

(** The endpoints, indexed by the type of the [data] they answer with
    ([makeRequest<T>]). *)
Inductive endpoint : Type -> Type :=
| apiSwap_getAllowance : endpoint AllowanceData
| apiSwap_getConvert : endpoint ConversionData
| apiSwap_swap : endpoint SwapTransactionData.

Definition path {T} (e : endpoint T) : string :=
  match e with
  | apiSwap_getAllowance => "/apiSwap/getAllowance"
  | apiSwap_getConvert => "/apiSwap/getConvert"
  | apiSwap_swap => "/apiSwap/swap"
  end.

(** Arguments of an ABI call: the approval passes its amount either as
    a decimal string or as a bigint. *)
Inductive abiArg :=
| ArgAddress (a : string)
| ArgString (s : string)
| ArgBigInt (z : Z).

Record WriteContractRequest := {
  wc_address : string;
  wc_abi : string;
  wc_functionName : string;
  wc_args : list abiArg;
}.

Record SendTransactionRequest := {
  st_to : string;
  st_data : option string;
  st_value : Z;
  st_account : option string;
}.

(** The wallet connector.  A hash of [None] is [undefined]. *)
Record WalletClient := {
  writeContract : WriteContractRequest -> outcome (option string);
  sendTransaction : SendTransactionRequest -> outcome (option string);
}.

Record PrimaryWalletWithClient := {
  address : option string;
  getWalletClient : outcome (option WalletClient);
}.

Module TransactionResult.
Record t := {
  success : bool;
  txHash : option string;
  error : option Error;
}.
End TransactionResult.

(** [SwapTransactionResult] of the hooks: the error is a message. *)
Module SwapTransactionResult.
Record t := {
  success : bool;
  txHash : option string;
  error : option string;
}.
End SwapTransactionResult.

(** A [localStorage] entry, by what the stored string is: [Text s] is a
    string that is not a JSON document ([JSON.parse] throws on it),
    [Document c] is the JSON text of the object [c]. *)
Inductive item :=
| Text (s : string)
| Document (c : CachedConversionData).

(** ** The host: built-ins, libraries and the backend

    Everything the repository calls but does not define. *)

Class Host := {
  (** ECMAScript [parseFloat], [Number] and [BigInt] on strings *)
  parseFloat : string -> float;
  Number : string -> float;
  BigInt : string -> outcome Z;
  (** [parseUnits] of viem and of ethers; both throw on malformed input *)
  parseUnits : string -> Z -> outcome Z;
  ethersParseUnits : string -> Z -> outcome Z;
  (** [s.replace(/\b\w/g, (char) => char.toUpperCase())] *)
  capitalizeWords : string -> string;
  (** [fetch] followed by [response.json()]; a network failure or a
      response that is not [ok] rejects *)
  fetch : forall T, endpoint T -> body -> outcome (ApiResponse T);
  (** [localStorage.setItem(key, value)] throws when the browser refuses
      the write (the quota is exceeded, or the storage is disabled): the
      error that it throws, if any, given the entries that are stored *)
  storageRefuses : gmap string item -> string -> item -> option Error;
}.

(** ** Tokens and the transaction ledger
    ([types/blockchain/swap.types.ts], [types/blockchain/transactions.types.ts]) *)

Record Token := {
  tk_address : string;
  symbol : string;
  decimals : Z;
  balance : string;
  tags : option (list string);
}.

Inductive TransactionType := SWAP | DEPOSIT.

Inductive TransactionStatus := PENDING | CONFIRMED | FAILED.

(** The argument of [addTransaction]: a record without id and status. *)
Record NewTransaction := {
  nt_hash : string;
  nt_type : TransactionType;
  nt_amount : string;
  nt_tokenSymbol : string;
  nt_network : option string;
  nt_fromToken : option string;
  nt_toToken : option string;
}.

Record Transaction := {
  id : nat;
  details : NewTransaction;
  status : TransactionStatus;
}.

Definition hash (tx : Transaction) : string := nt_hash (details tx).

(** ** The world and the monad of asynchronous code *)

Inductive toastKind := ToastError | ToastSuccess | ToastWarning.

(** What the code does to the outside, in the order it does it. *)
Inductive event :=
| Fetched (p : string) (b : body)
| WroteContract (r : WriteContractRequest)
| SentTransaction (r : SendTransactionRequest)
| Toasted (k : toastKind) (msg : string)
| RequestedReceipt (h : string)
| AddedTransaction (r : NewTransaction)
| UpdatedTransaction (i : nat) (st : TransactionStatus)
| FetchedTokens
| Confetti
| Completed
| Called (f : string).

Record world := {
  trace : list event;
  localStorage : gmap string item;
  clock : Z;
}.

Definition withTrace (t : list event) (w : world) : world :=
  {| trace := t; localStorage := localStorage w; clock := clock w |}.

Definition withStorage (s : gmap string item) (w : world) : world :=
  {| trace := trace w; localStorage := s; clock := clock w |}.

Inductive result (A : Type) : Type :=
| Ok (a : A)
| Thrown (e : Error).
Arguments Ok {A} a.
Arguments Thrown {A} e.

(** A computation runs from a world to a value or a thrown error, and a
    new world.  [console.*] output is left out of the world. *)
Definition js (A : Type) : Type := world -> result A * world.

#[global] Instance js_ret : MRet js := fun A a w => (Ok a, w).

#[global] Instance js_bind : MBind js := fun A B f m w =>
  match m w with
  | (Ok a, w') => f a w'
  | (Thrown e, w') => (Thrown e, w')
  end.

Definition throw {A} (e : Error) : js A := fun w => (Thrown e, w).

(** [try { m } catch (e) { h e }] *)
Definition tryCatch {A} (m : js A) (h : Error -> js A) : js A := fun w =>
  match m w with
  | (Ok a, w') => (Ok a, w')
  | (Thrown e, w') => h e w'
  end.

(** [await] of a collaborator's promise *)
Definition await {A} (o : outcome A) : js A :=
  match o with
  | Resolves a => mret a
  | Rejects e => throw e
  end.

Definition emit (e : event) : js unit := fun w =>
  (Ok tt, withTrace (trace w ++ [e]) w).

Definition toast (k : toastKind) (msg : string) : js unit := emit (Toasted k msg).

(** [Date.now()] *)
Definition dateNow : js Z := fun w => (Ok (clock w), w).

Definition getItem (key : string) : js (option item) := fun w =>
  (Ok (localStorage w !! key), w).

Definition setItem `{Host} (key : string) (v : item) : js unit := fun w =>
  match storageRefuses (localStorage w) key v with
  | Some e => (Thrown e, w)
  | None => (Ok tt, withStorage (<[key := v]> (localStorage w)) w)
  end.

Definition removeItem (key : string) : js unit := fun w =>
  (Ok tt, withStorage (delete key (localStorage w)) w).

(** [if (cached)] on the string that [getItem] returned *)
Definition truthyItem (i : item) : bool :=
  match i with
  | Text s => truthyString s
  | Document _ => true
  end.

(** [JSON.parse(cached)] *)
Definition JSON_parse (i : item) : js CachedConversionData :=
  match i with
  | Text _ => throw (newError "Unexpected token")
  | Document c => mret c
  end.

(** The plain text stored under a key, for [localStorage.getItem("username")]. *)
Definition getItemText (key : string) : js (option string) :=
  i ← getItem key;
  mret (match i with Some (Text s) => Some s | _ => None end).

Definition callWriteContract (c : WalletClient) (r : WriteContractRequest)
  : js (option string) :=
  emit (WroteContract r);; await (writeContract c r).

Definition callSendTransaction (c : WalletClient) (r : SendTransactionRequest)
  : js (option string) :=
  emit (SentTransaction r);; await (sendTransaction c r).

(** ** [TransactionService] *)

Module TransactionService.

Record t := {
  apiKey : string;
  jwtType : string;
  primaryWallet : option PrimaryWalletWithClient;
}.

Definition setPrimaryWallet (w : option PrimaryWalletWithClient) (this : t) : t :=
  {| apiKey := apiKey this; jwtType := jwtType this; primaryWallet := w |}.

Record ApproveTokenParams := {
  ap_tokenAddress : string;
  ap_spenderAddress : string;
  ap_unlimited : option bool;
}.

Record ExecuteTokenTransferParams := {
  tt_tokenAddress : string;
  tt_recipientAddress : string;
  tt_amount : string;
  tt_decimals : option Z;
  tt_isNative : option bool;
}.

Record CheckAllowanceParams := {
  ca_tokenAddress : string;
  ca_ownerAddress : string;
  ca_spenderAddress : string;
  ca_network : string;
  ca_username : string;
}.

Record CheckAllowanceResult := {
  hasAllowance : bool;
  allowanceAmount : string;
}.

Record ExecuteSwapParams := {
  es_network : string;
  es_fromToken : string;
  es_toToken : string;
  es_amount : string;
  es_walletAddress : string;
  es_receiver : option string;
  es_slippage : option string;
  es_username : string;
  es_primaryWallet : option PrimaryWalletWithClient;
}.

Record GetTokenConversionParams := {
  gc_network : string;
  gc_fromToken : string;
  gc_toToken : string;
  gc_amount : float;
  gc_username : string;
}.

Record GetTokenConversionResult := {
  gc_success : bool;
  conversion : option ConversionData;
  gc_error : option Error;
  fromCache : option bool;
}.

Definition failed (e : Error) : TransactionResult.t :=
  {| TransactionResult.success := false;
     TransactionResult.txHash := None;
     TransactionResult.error := Some e |}.

Section WithHost.
Context `{Host}.

Definition makeRequest {T} (e : endpoint T) (data : body) : js (ApiResponse T) :=
  emit (Fetched (path e) data);; await (fetch T e data).

(** [await this.primaryWallet?.getWalletClient()] *)
Definition optionalWalletClient (this : t) : js (option WalletClient) :=
  match primaryWallet this with
  | None => mret None
  | Some pw => await (getWalletClient pw)
  end.

(** The decimal string that stands for an unlimited approval. *)
Definition UNLIMITED : string :=
  "115792089237316195423570985008687907853269984665640564039457584007913129639935".

Definition approveToken (this : t) (params : ApproveTokenParams)
  : js TransactionResult.t :=
  let unlimited := default true (ap_unlimited params) in
  tryCatch
    (maxAmount ← (if unlimited then mret (ArgString UNLIMITED)
                  else z ← await (ethersParseUnits "1000000" 18); mret (ArgBigInt z));
     walletClient ← optionalWalletClient this;
     hash ← match walletClient with
            | None => mret None
            | Some c =>
                callWriteContract c
                  {| wc_address := ap_tokenAddress params;
                     wc_abi := "abiErc20";
                     wc_functionName := "approve";
                     wc_args := [ArgAddress (ap_spenderAddress params); maxAmount] |}
            end;
     mret {| TransactionResult.success := true;
             TransactionResult.txHash := Some (orElse hash "tempHash");
             TransactionResult.error := None |})
    (fun e => mret (failed e)).

Definition checkAllowance (this : t) (params : CheckAllowanceParams)
  : js CheckAllowanceResult :=
  tryCatch
    (stored ← getItemText "username";
     let username :=
       if truthyString (ca_username params) then Some (ca_username params)
       else stored in
     let data :=
       AllowanceBody (apiKey this) (ca_network params) (ca_tokenAddress params)
         (ca_ownerAddress params) username (ca_spenderAddress params) in
     response ← makeRequest apiSwap_getAllowance data;
     if resp_error response then
       throw (newError (orElse (Some (resp_message response))
                          "Failed to check allowance"))
     else
       let allowanceAmount := allowance (resp_data response) in
       mret {| hasAllowance := gt (Number allowanceAmount) 0%float;
               allowanceAmount := allowanceAmount |})
    (fun _ => mret {| hasAllowance := false; allowanceAmount := "0" |}).

Definition executeSwap (this : t) (params : ExecuteSwapParams)
  : js TransactionResult.t :=
  let slippage := default "Auto" (es_slippage params) in
  match (match es_primaryWallet params with
         | Some w => Some w
         | None => primaryWallet this
         end) with
  | None => throw (newError "Primary wallet is not set")
  | Some wallet =>
      tryCatch
        (let swapData :=
           SwapBody (apiKey this) (es_network params) (es_fromToken params)
             (es_toToken params) (es_amount params) (es_walletAddress params)
             slippage (es_username params)
             (if truthy (es_receiver params) then es_receiver params else None) in
         swapResponse ← makeRequest apiSwap_swap swapData;
         if resp_error swapResponse then
           throw (newError (orElse (Some (resp_message swapResponse))
                              "Swap preparation failed"))
         else
           match resp_data swapResponse with
           | TxError description =>
               throw (newError ("Transaction Failed: " ++
                                match description with
                                | Some d => capitalizeWords d
                                | None => "undefined"
                                end))
           | TxDetails to data value =>
               walletClient ← await (getWalletClient wallet);
               match walletClient with
               | None =>
                   throw (newError
                            "Failed to get wallet client from connected wallet")
               | Some c =>
                   v ← await (BigInt (orElse value "0"));
                   hash ← callSendTransaction c
                            {| st_to := to; st_data := Some data; st_value := v;
                               st_account := Some (es_walletAddress params) |};
                   mret {| TransactionResult.success := true;
                           TransactionResult.txHash := hash;
                           TransactionResult.error := None |}
               end
           end)
        (fun e => mret (failed e))
  end.

Definition executeTokenTransfer (this : t) (params : ExecuteTokenTransferParams)
  : js TransactionResult.t :=
  let decimals := default 6%Z (tt_decimals params) in
  let isNative := default false (tt_isNative params) in
  tryCatch
    (walletClient ← optionalWalletClient this;
     if negb isNative then
       hash ← match walletClient with
              | None => mret None
              | Some c =>
                  units ← await (parseUnits (tt_amount params) decimals);
                  callWriteContract c
                    {| wc_address := tt_tokenAddress params;
                       wc_abi := "function transfer(address to, uint256 amount) returns (bool)";
                       wc_functionName := "transfer";
                       wc_args := [ArgAddress (tt_recipientAddress params);
                                   ArgBigInt units] |}
              end;
       mret {| TransactionResult.success := true;
               TransactionResult.txHash := Some (orElse hash "tempHash");
               TransactionResult.error := None |}
     else
       hash ← match walletClient with
              | None => mret None
              | Some c =>
                  v ← await (parseUnits (tt_amount params) 18);
                  callSendTransaction c
                    {| st_to := tt_recipientAddress params; st_data := None;
                       st_value := v; st_account := None |}
              end;
       mret {| TransactionResult.success := true;
               TransactionResult.txHash := Some (orElse hash "tempHash");
               TransactionResult.error := None |})
    (fun e => mret (failed e)).

(** *** Conversion cache *)

Definition generateCacheKey (network fromToken toToken : string) : string :=
  "token_conversion_" ++ network ++ "_" ++ fromToken ++ "_" ++ toToken.

(** Two minutes, in milliseconds: the default of [expirationTimeMs]. *)
Definition expirationTimeMs : Z := 2 * 60 * 1000.

(** [!cachedData.timestamp]: a missing stamp and the stamp [0] are falsy. *)
Definition isCacheExpired (cachedData : CachedConversionData) : js bool :=
  match timestamp cachedData with
  | None => mret true
  | Some ts =>
      if (ts =? 0)%Z then mret true
      else now ← dateNow; mret (now - ts >? expirationTimeMs)%Z
  end.

Definition getCachedConversion (cacheKey : string)
  : js (option CachedConversionData) :=
  tryCatch
    (cached ← getItem cacheKey;
     match cached with
     | Some i =>
         if truthyItem i then
           parsedCache ← JSON_parse i;
           expired ← isCacheExpired parsedCache;
           if negb expired then mret (Some parsedCache)
           else removeItem cacheKey;; mret None
         else mret None
     | None => mret None
     end)
    (fun _ => mret None).

Definition setCachedConversion (cacheKey : string) (conversionData : ConversionData)
  : js unit :=
  tryCatch
    (now ← dateNow;
     setItem cacheKey
       (Document {| quote := conversionData; timestamp := Some now |}))
    (fun _ => mret tt).

(** The conversion that both paths of [getTokenConversion] return:
    the request's tokens and amount, and the amount times the rate of
    the quote. *)
Definition converted (params : GetTokenConversionParams)
    (calculatedToAmount : float) : ConversionData :=
  {| cd_fromToken := gc_fromToken params;
     cd_toToken := gc_toToken params;
     cd_fromAmount := gc_amount params;
     cd_toAmount := calculatedToAmount |}.

Definition getTokenConversion (this : t) (params : GetTokenConversionParams)
  : js GetTokenConversionResult :=
  let amount := gc_amount params in
  if negb (truthyNumber amount) then
    mret {| gc_success := false; conversion := None;
            gc_error := Some (newError "Amount is required for conversion");
            fromCache := None |}
  else
    tryCatch
      (let cacheKey :=
         generateCacheKey (gc_network params) (gc_fromToken params)
           (gc_toToken params) in
       cachedConversion ← getCachedConversion cacheKey;
       match cachedConversion with
       | Some cached =>
           let rate := (cd_toAmount (quote cached) / cd_fromAmount (quote cached))%float in
           let calculatedToAmount := (amount * rate)%float in
           mret {| gc_success := true;
                   conversion := Some (converted params calculatedToAmount);
                   gc_error := None; fromCache := Some true |}
       | None =>
           let data :=
             ConversionBody (apiKey this) (gc_network params) (gc_fromToken params)
               (gc_toToken params) amount (gc_username params) in
           response ← makeRequest apiSwap_getConvert data;
           if resp_error response then
             throw (newError (orElse (Some (resp_message response))
                                "Failed to get token conversion"))
           else
             let baseConversion := resp_data response in
             setCachedConversion cacheKey baseConversion;;
             let rate := (cd_toAmount baseConversion / cd_fromAmount baseConversion)%float in
             let calculatedToAmount := (amount * rate)%float in
             mret {| gc_success := true;
                     conversion := Some (converted params calculatedToAmount);
                     gc_error := None; fromCache := Some false |}
       end)
      (fun e =>
         (if includes (toLowerCase (message e)) "not supported"
          then toast ToastError (message e) else mret tt);;
         mret {| gc_success := false; conversion := None;
                 gc_error := Some e; fromCache := None |}).

End WithHost.

End TransactionService.

(** ** [useDepositTransaction]: the allowance effect *)

Record User := {
  username : string;
  walletAddress : option string;
}.

(** [String(n)] on an integer *)
Definition String_of (n : Z) : string := NilZero.string_of_int (Z.to_int n).

Module UseDepositTransaction.

(** [process.env.NEXT_PUBLIC_ALLOWANCE_ADDRESS || "0x1111..."] *)
Definition spenderAddress (env : option string) : string :=
  orElse env "0x111111125421ca6dc452d289314280a0f8842a65".

(** The symbols that are transferred directly. *)
Definition directSymbols : list string :=
  ["USDT"; "USDC"; "55Swap"; "USD₮0"; "USDT0"].

(** [selectedToken.tags?.includes("native")] *)
Definition taggedNative (tk : Token) : bool :=
  match tags tk with
  | Some l => arrayIncludes l "native"
  | None => false
  end.

Section WithHost.
Context `{Host}.

(** The effect that runs when the token, the user or the network
    changes.  Its value is the one it hands to [setIsApproved]. *)
Definition checkAllowanceEffect (service : TransactionService.t)
    (env : option string) (selectedToken : option Token) (user : option User)
    (chainId : Z) (networkName : option string) : js bool :=
  match selectedToken, user with
  | Some tk, Some u =>
      if negb (truthy (walletAddress u)) || taggedNative tk then mret true
      else
        let isDirect := arrayIncludes directSymbols (symbol tk) in
        if isDirect then mret true
        else
          r ← TransactionService.checkAllowance service
                {| TransactionService.ca_tokenAddress := tk_address tk;
                   TransactionService.ca_ownerAddress := default "" (walletAddress u);
                   TransactionService.ca_spenderAddress := spenderAddress env;
                   TransactionService.ca_network :=
                     orElse networkName (String_of chainId);
                   TransactionService.ca_username := username u |};
          mret (TransactionService.hasAllowance r)
  | _, _ => mret true
  end.

End WithHost.

End UseDepositTransaction.

(** ** The transaction ledger store *)

Module Ledger.

Definition freshId (l : list Transaction) : nat := S (list_max (map id l)).

(** Modelled from the spec: the store slice [blockchain.transaction]
    is not among the sources.  [addTransaction] creates the entry of a
    submitted hash with status PENDING, at the end of the ordered
    collection and under an id of its own. *)
Definition addTransaction (r : NewTransaction) (l : list Transaction)
  : list Transaction :=
  l ++ [{| id := freshId l; details := r; status := PENDING |}].

(** Modelled from the spec: [updateTransaction(id, patch)] of the absent
    store, for the patch [{ status }] that the hooks pass: the entries
    with that id take the status, the others stay as they are. *)
Definition _updateTransaction (i : nat) (st : TransactionStatus)
    (l : list Transaction) : list Transaction :=
  map (fun tx => if Nat.eqb (id tx) i
                 then {| id := id tx; details := details tx; status := st |}
                 else tx) l.

(** [transactions.find((t) => t.hash === hash)] *)
Definition findByHash (h : string) (l : list Transaction) : option Transaction :=
  List.find (fun tx => String.eqb (hash tx) h) l.

End Ledger.

(** ** [useSwapTransaction] *)

Module UseSwapTransaction.

(** What the component passes to the hook.  [onTransactionComplete] is
    optional; the field tells whether it was given. *)
Record props := {
  fromToken : option Token;
  toToken : option Token;
  exchangeAmount : string;
  receivedAmount : string;
  slippage : string;
  onTransactionComplete : bool;
}.

(** What the hook takes from the other hooks and the store. *)
Record deps := {
  userName : string;
  primaryWallet : option PrimaryWalletWithClient;
  publicClient : bool;
  chainId : option Z;
  networkName : option string;
  service : TransactionService.t;
}.

(** The [useState] cells and the two refs. *)
Record state := {
  isLoading : bool;
  checkSuccess : bool;
  transactionSuccess : bool;
  successPop : bool;
  txHash : string;
  isPending : bool;
  timeLeft : Z;
  completedExchangeAmount : string;
  completedReceivedAmount : string;
  completedFromToken : option Token;
  completedToToken : option Token;
  pollingIntervalRef : option nat;
  retryCountRef : nat;
}.

Definition initial : state :=
  {| isLoading := false; checkSuccess := false; transactionSuccess := false;
     successPop := false; txHash := ""; isPending := false; timeLeft := 0;
     completedExchangeAmount := ""; completedReceivedAmount := "";
     completedFromToken := None; completedToToken := None;
     pollingIntervalRef := None; retryCountRef := 0 |}.

Definition setIsLoading (b : bool) (s : state) : state :=
  {| isLoading := b; checkSuccess := checkSuccess s;
     transactionSuccess := transactionSuccess s; successPop := successPop s;
     txHash := txHash s; isPending := isPending s; timeLeft := timeLeft s;
     completedExchangeAmount := completedExchangeAmount s;
     completedReceivedAmount := completedReceivedAmount s;
     completedFromToken := completedFromToken s;
     completedToToken := completedToToken s;
     pollingIntervalRef := pollingIntervalRef s; retryCountRef := retryCountRef s |}.

Definition setCheckSuccess (b : bool) (s : state) : state :=
  {| isLoading := isLoading s; checkSuccess := b;
     transactionSuccess := transactionSuccess s; successPop := successPop s;
     txHash := txHash s; isPending := isPending s; timeLeft := timeLeft s;
     completedExchangeAmount := completedExchangeAmount s;
     completedReceivedAmount := completedReceivedAmount s;
     completedFromToken := completedFromToken s;
     completedToToken := completedToToken s;
     pollingIntervalRef := pollingIntervalRef s; retryCountRef := retryCountRef s |}.

Definition setTransactionSuccess (b : bool) (s : state) : state :=
  {| isLoading := isLoading s; checkSuccess := checkSuccess s;
     transactionSuccess := b; successPop := successPop s;
     txHash := txHash s; isPending := isPending s; timeLeft := timeLeft s;
     completedExchangeAmount := completedExchangeAmount s;
     completedReceivedAmount := completedReceivedAmount s;
     completedFromToken := completedFromToken s;
     completedToToken := completedToToken s;
     pollingIntervalRef := pollingIntervalRef s; retryCountRef := retryCountRef s |}.

Definition setSuccessPop (b : bool) (s : state) : state :=
  {| isLoading := isLoading s; checkSuccess := checkSuccess s;
     transactionSuccess := transactionSuccess s; successPop := b;
     txHash := txHash s; isPending := isPending s; timeLeft := timeLeft s;
     completedExchangeAmount := completedExchangeAmount s;
     completedReceivedAmount := completedReceivedAmount s;
     completedFromToken := completedFromToken s;
     completedToToken := completedToToken s;
     pollingIntervalRef := pollingIntervalRef s; retryCountRef := retryCountRef s |}.

Definition setTxHash (h : string) (s : state) : state :=
  {| isLoading := isLoading s; checkSuccess := checkSuccess s;
     transactionSuccess := transactionSuccess s; successPop := successPop s;
     txHash := h; isPending := isPending s; timeLeft := timeLeft s;
     completedExchangeAmount := completedExchangeAmount s;
     completedReceivedAmount := completedReceivedAmount s;
     completedFromToken := completedFromToken s;
     completedToToken := completedToToken s;
     pollingIntervalRef := pollingIntervalRef s; retryCountRef := retryCountRef s |}.

Definition setIsPending (b : bool) (s : state) : state :=
  {| isLoading := isLoading s; checkSuccess := checkSuccess s;
     transactionSuccess := transactionSuccess s; successPop := successPop s;
     txHash := txHash s; isPending := b; timeLeft := timeLeft s;
     completedExchangeAmount := completedExchangeAmount s;
     completedReceivedAmount := completedReceivedAmount s;
     completedFromToken := completedFromToken s;
     completedToToken := completedToToken s;
     pollingIntervalRef := pollingIntervalRef s; retryCountRef := retryCountRef s |}.

Definition setTimeLeft (n : Z) (s : state) : state :=
  {| isLoading := isLoading s; checkSuccess := checkSuccess s;
     transactionSuccess := transactionSuccess s; successPop := successPop s;
     txHash := txHash s; isPending := isPending s; timeLeft := n;
     completedExchangeAmount := completedExchangeAmount s;
     completedReceivedAmount := completedReceivedAmount s;
     completedFromToken := completedFromToken s;
     completedToToken := completedToToken s;
     pollingIntervalRef := pollingIntervalRef s; retryCountRef := retryCountRef s |}.

(** The four [setCompleted...] calls, which the code always makes
    together. *)
Definition setCompleted (ex re : string) (f t : option Token) (s : state) : state :=
  {| isLoading := isLoading s; checkSuccess := checkSuccess s;
     transactionSuccess := transactionSuccess s; successPop := successPop s;
     txHash := txHash s; isPending := isPending s; timeLeft := timeLeft s;
     completedExchangeAmount := ex; completedReceivedAmount := re;
     completedFromToken := f; completedToToken := t;
     pollingIntervalRef := pollingIntervalRef s; retryCountRef := retryCountRef s |}.

Definition setPollingIntervalRef (h : option nat) (s : state) : state :=
  {| isLoading := isLoading s; checkSuccess := checkSuccess s;
     transactionSuccess := transactionSuccess s; successPop := successPop s;
     txHash := txHash s; isPending := isPending s; timeLeft := timeLeft s;
     completedExchangeAmount := completedExchangeAmount s;
     completedReceivedAmount := completedReceivedAmount s;
     completedFromToken := completedFromToken s;
     completedToToken := completedToToken s;
     pollingIntervalRef := h; retryCountRef := retryCountRef s |}.

Definition setRetryCountRef (n : nat) (s : state) : state :=
  {| isLoading := isLoading s; checkSuccess := checkSuccess s;
     transactionSuccess := transactionSuccess s; successPop := successPop s;
     txHash := txHash s; isPending := isPending s; timeLeft := timeLeft s;
     completedExchangeAmount := completedExchangeAmount s;
     completedReceivedAmount := completedReceivedAmount s;
     completedFromToken := completedFromToken s;
     completedToToken := completedToToken s;
     pollingIntervalRef := pollingIntervalRef s; retryCountRef := n |}.

(** A call of [pollTransactionReceipt] that is suspended at an [await]:
    on the receipt query, with the hash and the retry count it was
    called with, or on the token refresh of the success branch. *)
Inductive suspended :=
| AwaitingReceipt (h : string) (retryCount : nat)
| AwaitingRefresh.

(** The hook together with what it acts on: the outside world, the
    shared ledger, the live polling intervals (handle and the hash
    their callback closed over), the suspended polls and the
    dependencies of the polling effect as React last saw them. *)
Record session := {
  hook : state;
  outside : world;
  transactions : list Transaction;
  intervals : list (nat * string);
  nextHandle : nat;
  inflight : list (nat * suspended);
  nextPoll : nat;
  effectDeps : option (bool * string);
}.

Definition idle (w : world) (l : list Transaction) : session :=
  {| hook := initial; outside := w; transactions := l; intervals := [];
     nextHandle := 1; inflight := []; nextPoll := 0; effectDeps := None |}.

Definition onHook (f : state -> state) (s : session) : session :=
  {| hook := f (hook s); outside := outside s; transactions := transactions s;
     intervals := intervals s; nextHandle := nextHandle s;
     inflight := inflight s; nextPoll := nextPoll s; effectDeps := effectDeps s |}.

Definition onOutside (f : world -> world) (s : session) : session :=
  {| hook := hook s; outside := f (outside s); transactions := transactions s;
     intervals := intervals s; nextHandle := nextHandle s;
     inflight := inflight s; nextPoll := nextPoll s; effectDeps := effectDeps s |}.

Definition onTransactions (f : list Transaction -> list Transaction) (s : session)
  : session :=
  {| hook := hook s; outside := outside s; transactions := f (transactions s);
     intervals := intervals s; nextHandle := nextHandle s;
     inflight := inflight s; nextPoll := nextPoll s; effectDeps := effectDeps s |}.

Definition withIntervals (l : list (nat * string)) (n : nat) (s : session) : session :=
  {| hook := hook s; outside := outside s; transactions := transactions s;
     intervals := l; nextHandle := n;
     inflight := inflight s; nextPoll := nextPoll s; effectDeps := effectDeps s |}.

Definition withInflight (l : list (nat * suspended)) (n : nat) (s : session) : session :=
  {| hook := hook s; outside := outside s; transactions := transactions s;
     intervals := intervals s; nextHandle := nextHandle s;
     inflight := l; nextPoll := n; effectDeps := effectDeps s |}.

Definition withEffectDeps (d : option (bool * string)) (s : session) : session :=
  {| hook := hook s; outside := outside s; transactions := transactions s;
     intervals := intervals s; nextHandle := nextHandle s;
     inflight := inflight s; nextPoll := nextPoll s; effectDeps := d |}.

Definition log (e : event) : session -> session :=
  onOutside (fun w => withTrace (trace w ++ [e]) w).

(** *** Timers *)

(** [clearInterval(h)] *)
Definition clearInterval (h : nat) (s : session) : session :=
  withIntervals (List.filter (fun i => negb (Nat.eqb (fst i) h)) (intervals s))
    (nextHandle s) s.

(** [if (pollingIntervalRef.current) clearInterval(pollingIntervalRef.current)];
    the ref keeps the handle. *)
Definition clearPolling (s : session) : session :=
  match pollingIntervalRef (hook s) with
  | Some h => clearInterval h s
  | None => s
  end.

(** [pollingIntervalRef.current = setInterval(callback, 3000)], the
    callback closing over the hash [h] *)
Definition startPolling (h : string) (s : session) : session :=
  let handle := nextHandle s in
  onHook (setPollingIntervalRef (Some handle))
    (withIntervals (intervals s ++ [(handle, h)]) (S handle) s).

(** *** Polling for the receipt *)

Definition MAX_RETRIES : nat := 30.

Inductive receiptStatus := StatusSuccess | StatusReverted.

(** How [publicClient.getTransactionReceipt] settles: with a receipt,
    with a falsy value, or by throwing (not yet mined). *)
Inductive settled :=
| WithReceipt (st : receiptStatus)
| WithoutReceipt
| Threw.

Section Poll.
Variable p : props.
Variable d : deps.

(** [if (onTransactionComplete) onTransactionComplete()] *)
Definition complete (s : session) : session :=
  if onTransactionComplete p then log Completed s else s.

(** The body shared by the two branches taken at the retry limit. *)
Definition giveUp (msg : string) (s : session) : session :=
  complete (log (Toasted ToastError msg) (onHook (setIsPending false) (clearPolling s))).

(** "Receipt not available yet — check retry limit" *)
Definition checkRetryLimit (retryCount : nat) (s : session) : session :=
  if (MAX_RETRIES <=? retryCount)%nat then
    giveUp "Transaction confirmation timeout. Please check your wallet or try again." s
  else s.

(** The [catch] block. *)
Definition caught (retryCount : nat) (s : session) : session :=
  if (MAX_RETRIES <=? retryCount)%nat then
    giveUp "Unable to confirm transaction. Please check manually." s
  else s.

(** Find the ledger entry of the hash and set its status. *)
Definition markTransaction (h : string) (st : TransactionStatus) (s : session)
  : session :=
  match Ledger.findByHash h (transactions s) with
  | Some tx =>
      log (UpdatedTransaction (id tx) st)
        (onTransactions (Ledger._updateTransaction (id tx) st) s)
  | None => s
  end.

(** The call [pollTransactionReceipt(hash, retryCount)] up to its
    first [await]: with a public client the receipt query is issued
    and the call is suspended on it; without one the retry limit is
    checked at once. *)
Definition pollTransactionReceipt (h : string) (retryCount : nat) (s : session)
  : session :=
  if publicClient d then
    withInflight (inflight s ++ [(nextPoll s, AwaitingReceipt h retryCount)])
      (S (nextPoll s)) (log (RequestedReceipt h) s)
  else checkRetryLimit retryCount s.

(** The same call from the moment the receipt query settles. *)
Definition resumeWithReceipt (poll : nat) (h : string) (retryCount : nat)
    (r : settled) (s : session) : session :=
  match r with
  | WithReceipt st =>
      let s := clearPolling s in
      match st with
      | StatusSuccess =>
          let s := onHook (fun x => setSuccessPop true (setCheckSuccess true
                             (setTransactionSuccess true (setIsPending false x)))) s in
          let s := markTransaction h CONFIRMED s in
          let s := log (Toasted ToastSuccess "Swap Confirmed!") s in
          let s := log Confetti s in
          let s := log FetchedTokens s in
          withInflight (inflight s ++ [(poll, AwaitingRefresh)]) (nextPoll s) s
      | StatusReverted =>
          let s := onHook (setIsPending false) s in
          let s := markTransaction h FAILED s in
          let s := log (Toasted ToastError
                          "Swap transaction reverted on-chain. Please try again.") s in
          complete s
      end
  | WithoutReceipt => checkRetryLimit retryCount s
  | Threw => caught retryCount s
  end.

Definition lookupPoll (poll : nat) (s : session) : option suspended :=
  snd <$> List.find (fun i => Nat.eqb (fst i) poll) (inflight s).

Definition dropPoll (poll : nat) (s : session) : session :=
  withInflight (List.filter (fun i => negb (Nat.eqb (fst i) poll)) (inflight s))
    (nextPoll s) s.

(** The receipt query of a suspended poll settles. *)
Definition receiptSettles (poll : nat) (r : settled) (s : session) : session :=
  match lookupPoll poll s with
  | Some (AwaitingReceipt h retryCount) =>
      resumeWithReceipt poll h retryCount r (dropPoll poll s)
  | _ => s
  end.

(** [await fetchTokens(...)] settles; a failure is only logged, so
    both ways lead to the completion callback. *)
Definition refreshSettles (poll : nat) (s : session) : session :=
  match lookupPoll poll s with
  | Some AwaitingRefresh => complete (dropPoll poll s)
  | _ => s
  end.

(** The interval callback:
    [pollTransactionReceipt(txHash, retryCountRef.current);
     retryCountRef.current += 1]. *)
Definition intervalFires (handle : nat) (s : session) : session :=
  match List.find (fun i => Nat.eqb (fst i) handle) (intervals s) with
  | Some (_, h) =>
      let retryCount := retryCountRef (hook s) in
      let s := pollTransactionReceipt h retryCount s in
      onHook (fun x => setRetryCountRef (S (retryCountRef x)) x) s
  | None => s
  end.

(** The countdown: [setTimeLeft((prev) => (prev > 0 ? prev - 1 : 0))]
    every second while pending with time left. *)
Definition countdownTick (s : session) : session :=
  if isPending (hook s) && (0 <? timeLeft (hook s))%Z then
    onHook (fun x => setTimeLeft (if (0 <? timeLeft x)%Z then timeLeft x - 1 else 0)%Z x) s
  else s.

(** The polling effect, [useEffect(..., [isPending, txHash,
    pollTransactionReceipt])], as React applies it after a render: when
    a dependency changed, the previous cleanup runs and then the body. *)
Definition cleanup (s : session) : session := clearPolling s.

Definition pollingEffect (s : session) : session :=
  let now := (isPending (hook s), txHash (hook s)) in
  if bool_decide (effectDeps s = Some now) then s
  else
    let s := match effectDeps s with
             | Some _ => cleanup s
             | None => s
             end in
    let s := if isPending (hook s) && truthyString (txHash (hook s)) then
               startPolling (txHash (hook s)) (onHook (setRetryCountRef 0) s)
             else s in
    withEffectDeps (Some now) s.

Definition resetSwapState (s : session) : session :=
  let s := onHook (fun x =>
             setRetryCountRef 0
               (setIsLoading false
                  (setCompleted "" "" None None
                     (setTimeLeft 0
                        (setIsPending false
                           (setTxHash ""
                              (setSuccessPop false
                                 (setTransactionSuccess false
                                    (setCheckSuccess false x))))))))) s in
  clearPolling s.

End Poll.

(** *** Validation and submission *)

Section Submit.
Context `{Host}.
Variable p : props.
Variable d : deps.

Definition validateSwap : bool :=
  match fromToken p, toToken p with
  | Some f, Some t =>
      if negb (truthyString (exchangeAmount p))
         || le (parseFloat (exchangeAmount p)) 0%float then false
      else if gt (parseFloat (exchangeAmount p)) (parseFloat (balance f)) then false
      else if String.eqb (tk_address f) (tk_address t) then false
      else true
  | _, _ => false
  end.

Definition refused (msg : string) : SwapTransactionResult.t :=
  {| SwapTransactionResult.success := false;
     SwapTransactionResult.txHash := None;
     SwapTransactionResult.error := Some msg |}.

(** The [try] block of [executeSwap]. *)
Definition trySwap (s : session) : result SwapTransactionResult.t * session :=
  let userWalletAddress := orElse (primaryWallet d ≫= address) "" in
  if negb (truthyString userWalletAddress) then
    (Thrown (newError "Wallet address not found"), s)
  else
    match fromToken p, toToken p with
    | Some f, Some t =>
        let swapParams :=
          {| TransactionService.es_network := orElse (String_of <$> chainId d) "1";
             TransactionService.es_fromToken := tk_address f;
             TransactionService.es_toToken := tk_address t;
             TransactionService.es_amount := exchangeAmount p;
             TransactionService.es_walletAddress := userWalletAddress;
             TransactionService.es_receiver := None;
             TransactionService.es_slippage :=
               Some (if String.eqb (slippage p) "Auto" then "1" else slippage p);
             TransactionService.es_username := userName d;
             TransactionService.es_primaryWallet := primaryWallet d |} in
        match TransactionService.executeSwap (service d) swapParams (outside s) with
        | (Thrown e, w) => (Thrown e, onOutside (fun _ => w) s)
        | (Ok r, w) =>
            let s := onOutside (fun _ => w) s in
            if TransactionResult.success r && truthy (TransactionResult.txHash r) then
              let h := default "" (TransactionResult.txHash r) in
              let s := onHook (fun x =>
                         setCheckSuccess true
                           (setTxHash h
                              (setCompleted (exchangeAmount p) (receivedAmount p)
                                 (fromToken p) (toToken p) x))) s in
              let record :=
                {| nt_hash := h; nt_type := SWAP; nt_amount := exchangeAmount p;
                   nt_tokenSymbol := symbol f; nt_network := networkName d;
                   nt_fromToken := Some (symbol f); nt_toToken := Some (symbol t) |} in
              let s := log (AddedTransaction record)
                         (onTransactions (Ledger.addTransaction record) s) in
              let s := onHook (fun x => setTimeLeft 90 (setIsPending true x)) s in
              (Ok {| SwapTransactionResult.success := true;
                     SwapTransactionResult.txHash := Some h;
                     SwapTransactionResult.error := None |}, s)
            else
              match TransactionResult.error r with
              | Some e =>
                  if includes (message e) "User rejected the request" then
                    (Thrown (newError "Transaction rejected by user."), s)
                  else
                    (Thrown (newError (orElse (Some (message e))
                                         "Swap transaction failed")), s)
              | None => (Thrown (newError "Swap transaction failed"), s)
              end
        end
    | _, _ => (Thrown (newError "Cannot read properties of null"), s)
    end.

(** [executeSwap] of the hook: validation, then the [try] block, its
    [catch] and its [finally]. *)
Definition executeSwap (s : session) : SwapTransactionResult.t * session :=
  if negb validateSwap then (refused "Invalid swap parameters", s)
  else
    let s := onHook (fun x =>
               setTransactionSuccess false (setCheckSuccess false (setIsLoading true x))) s in
    let '(r, s) :=
      match trySwap s with
      | (Ok r, s) => (r, s)
      | (Thrown e, s) =>
          let s := onHook (fun x =>
                     setTransactionSuccess false (setCheckSuccess false x)) s in
          let msg := match shortMessage e with
                     | Some m => m
                     | None => message e
                     end in
          (refused (message e), log (Toasted ToastError msg) s)
      end in
    (r, onHook (setIsLoading false) s).

(** *** The hook as a transition system *)

Inductive action :=
| ExecuteSwap
| IntervalFires (handle : nat)
| ReceiptSettles (poll : nat) (r : settled)
| RefreshSettles (poll : nat)
| CountdownTick
| ResetSwapState
| Unmount.

(** One handler runs to its end, then React renders and applies the
    polling effect.  Unmounting runs the cleanup alone. *)
Definition step (a : action) (s : session) : session :=
  match a with
  | ExecuteSwap => pollingEffect (snd (executeSwap s))
  | IntervalFires handle => pollingEffect (intervalFires p d handle s)
  | ReceiptSettles poll r => pollingEffect (receiptSettles p poll r s)
  | RefreshSettles poll => pollingEffect (refreshSettles p poll s)
  | CountdownTick => pollingEffect (countdownTick s)
  | ResetSwapState => pollingEffect (resetSwapState s)
  | Unmount => cleanup s
  end.

Definition run (l : list action) (s : session) : session :=
  fold_left (fun s a => step a s) l s.

(** The first render of the hook. *)
Definition mount (w : world) (l : list Transaction) : session :=
  pollingEffect (idle w l).

(** A tick of the polling interval whose receipt query settles with
    [r] before the next tick. *)
Definition pollOnce (handle : nat) (r : settled) (s : session) : session :=
  let poll := nextPoll s in
  step (ReceiptSettles poll r) (step (IntervalFires handle) s).

Definition pollAll (handle : nat) (rs : list settled) (s : session) : session :=
  fold_left (fun s r => pollOnce handle r s) rs s.

End Submit.

End UseSwapTransaction.

(** ** [useSwap]: the orchestrating [executeSwap] *)

Module UseSwap.

Import UseSwapTransaction.

(** What [useSwapAllowance] and [useSwapGasManager] hand over: the
    allowance flag, the native-currency test and the approval action,
    which resolves to a boolean or rejects. *)
Record allowance := {
  isTokenAllowed : bool;
  isNativeCurrency : bool;
  approveToken : js bool;
}.

Section WithHost.
Context `{Host}.
Variable p : props.
Variable d : deps.
Variable a : allowance.

Definition executeSwap (s : session) : result SwapTransactionResult.t * session :=
  if negb (validateSwap p) then (Ok (refused "Validation failed"), s)
  else if negb (isTokenAllowed a) && negb (isNativeCurrency a) then
    let s := log (Called "approveToken") s in
    match approveToken a (outside s) with
    | (Thrown e, w) => (Thrown e, onOutside (fun _ => w) s)
    | (Ok approvalResult, w) =>
        let s := onOutside (fun _ => w) s in
        if negb approvalResult then (Ok (refused "Token approval failed"), s)
        else
          let '(r, s) := UseSwapTransaction.executeSwap p d
                           (log (Called "executeSwapTransaction") s) in
          (Ok r, s)
    end
  else
    let '(r, s) := UseSwapTransaction.executeSwap p d
                     (log (Called "executeSwapTransaction") s) in
    (Ok r, s).

(** [resetPage], and the effect on a change of [chainId]. *)
Definition resetPage (s : session) : session := resetSwapState s.

End WithHost.

End UseSwap.

(** ** An executable host

    An instance of the host for evaluating the definitions on concrete
    inputs: decimal literals without exponent for the number parsers, and
    a backend given as a function. *)

Module Demo.

(** Digits before and after the point of the longest decimal prefix:
    the digits read so far as an integer, and the number of them that
    followed the point; the rest of the string is returned too. *)
Fixpoint scanDigits (s : string) (acc : Z) (n : nat) : Z * nat * string :=
  match s with
  | EmptyString => (acc, n, s)
  | String c rest =>
      match digitValue c with
      | Some dgt => scanDigits rest (10 * acc + dgt)%Z (S n)
      | None => (acc, n, s)
      end
  end.

Record literal := {
  negative : bool;
  digits : Z;        (* all the digits, as one integer *)
  scale : nat;       (* how many of them follow the point *)
  count : nat;       (* how many digits there are *)
  rest : string;     (* what follows the literal *)
}.

Definition scanLiteral (s : string) : literal :=
  let '(neg, s) :=
    match s with
    | String "-"%char r => (true, r)
    | String "+"%char r => (false, r)
    | _ => (false, s)
    end in
  let '(i, ni, s) := scanDigits s 0 0 in
  match s with
  | String "."%char r =>
      let '(f, nf, s') := scanDigits r i 0 in
      {| negative := neg; digits := f; scale := nf; count := ni + nf;
         rest := if (ni + nf =? 0)%nat then s else s' |}
  | _ => {| negative := neg; digits := i; scale := 0; count := ni; rest := s |}
  end.

(** The binary64 value nearest to [n / 10^k], by the division of the
    floating-point specification. *)
Definition nearest (neg : bool) (n : Z) (k : nat) : float :=
  match n with
  | Zpos m =>
      SF2Prim (SFdiv prec emax (S754_finite neg m 0)
                 (S754_finite false (Pos.pow 10 (Pos.of_nat k)) 0))
  | _ => if neg then (-0)%float else 0%float
  end.

Definition nearestLiteral (l : literal) : float :=
  match scale l with
  | O => match digits l with
         | Zpos m => SF2Prim (SFdiv prec emax (S754_finite (negative l) m 0)
                                (S754_finite false 1 0))
         | _ => if negative l then (-0)%float else 0%float
         end
  | S _ => nearest (negative l) (digits l) (scale l)
  end.

(** [parseFloat]: the value of the longest decimal prefix, else [NaN]. *)
Definition parseFloat (s : string) : float :=
  let l := scanLiteral s in
  if (count l =? 0)%nat then nan else nearestLiteral l.

(** [Number]: the value of the whole string, [0] for the empty string,
    else [NaN]. *)
Definition Number (s : string) : float :=
  let l := scanLiteral s in
  if String.eqb s "" then 0%float
  else if (count l =? 0)%nat || negb (String.eqb (rest l) "") then nan
  else nearestLiteral l.

Definition BigInt (s : string) : outcome Z :=
  match decimalValue s with
  | Some z => Resolves z
  | None =>
      if String.eqb s "" then Resolves 0%Z
      else Rejects (newError "Cannot convert to a BigInt")
  end.

(** [parseUnits(value, decimals)] for an unsigned literal with at most
    [decimals] digits after the point. *)
Definition parseUnits (s : string) (decimals : Z) : outcome Z :=
  let l := scanLiteral s in
  if (count l =? 0)%nat || negb (String.eqb (rest l) "") || negative l
     || (decimals <? Z.of_nat (scale l))%Z
  then Rejects (newError "Invalid decimal number")
  else Resolves (digits l * 10 ^ (decimals - Z.of_nat (scale l)))%Z.

Definition upperAscii (c : ascii) : ascii :=
  let n := nat_of_ascii c in
  if (97 <=? n)%nat && (n <=? 122)%nat then ascii_of_nat (n - 32) else c.

Definition isWordChar (c : ascii) : bool :=
  let n := nat_of_ascii c in
  ((48 <=? n)%nat && (n <=? 57)%nat) || ((65 <=? n)%nat && (n <=? 90)%nat)
  || ((97 <=? n)%nat && (n <=? 122)%nat) || (n =? 95)%nat.

Fixpoint capitalizeFrom (boundary : bool) (s : string) : string :=
  match s with
  | EmptyString => EmptyString
  | String c r =>
      String (if boundary && isWordChar c then upperAscii c else c)
        (capitalizeFrom (negb (isWordChar c)) r)
  end.

Definition capitalizeWords (s : string) : string := capitalizeFrom true s.

(** Concrete collaborators. *)

Definition quoteAB : ConversionData :=
  {| cd_fromToken := "0xaaa"; cd_toToken := "0xbbb";
     cd_fromAmount := 4%float; cd_toAmount := 10%float |}.

Definition answer {T} (x : T) : outcome (ApiResponse T) :=
  Resolves {| resp_error := false; resp_message := ""; resp_data := x |}.

(** A backend that reports the given allowance, quotes [quoteAB] and
    prepares a swap. *)
Definition backend (allowanceText : string) (T : Type) (e : endpoint T) (_ : body)
  : outcome (ApiResponse T) :=
  match e in endpoint T return outcome (ApiResponse T) with
  | apiSwap_getAllowance =>
      answer {| unit_ := "wei"; allowance := allowanceText; contractAddress := "0xccc" |}
  | apiSwap_getConvert => answer quoteAB
  | apiSwap_swap => answer (TxDetails "0xrouter" "0xcalldata" (Some "0"))
  end.

(** A wallet client whose calls resolve with the given hash. *)
Definition client (h : option string) : WalletClient :=
  {| writeContract := fun _ => Resolves h; sendTransaction := fun _ => Resolves h |}.

Definition wallet (c : option WalletClient) : PrimaryWalletWithClient :=
  {| address := Some "0xuser"; getWalletClient := Resolves c |}.

Definition serviceWith (w : option PrimaryWalletWithClient) : TransactionService.t :=
  {| TransactionService.apiKey := "key"; TransactionService.jwtType := "jwt";
     TransactionService.primaryWallet := w |}.

(** A connected wallet that returns a hash, one that returns none,
    and no wallet at all. *)
Definition connected : TransactionService.t :=
  serviceWith (Some (wallet (Some (client (Some "0xhash"))))).

Definition silent : TransactionService.t :=
  serviceWith (Some (wallet (Some (client None)))).

Definition disconnected : TransactionService.t := serviceWith None.

Definition transferOf (amount : string) (native : bool)
  : TransactionService.ExecuteTokenTransferParams :=
  {| TransactionService.tt_tokenAddress := "0xaaa";
     TransactionService.tt_recipientAddress := "0xdest";
     TransactionService.tt_amount := amount;
     TransactionService.tt_decimals := Some 18%Z;
     TransactionService.tt_isNative := Some native |}.

Definition emptyWorld (now : Z) : world :=
  {| trace := []; localStorage := ∅; clock := now |}.

Definition tokenA : Token :=
  {| tk_address := "0xaaa"; symbol := "AAA"; decimals := 18; balance := "50"; tags := None |}.

Definition tokenB : Token :=
  {| tk_address := "0xbbb"; symbol := "BBB"; decimals := 18; balance := "0"; tags := None |}.

Definition host (backend : forall T, endpoint T -> body -> outcome (ApiResponse T))
  : Host :=
  Build_Host parseFloat Number BigInt parseUnits parseUnits capitalizeWords backend
    (fun _ _ _ => None).

End Demo.

(** ** Vocabulary of the properties *)

(** The amount that the wallet encodes for a [uint256] argument. *)
Definition amountValue (a : abiArg) : option Z :=
  match a with
  | ArgString s => decimalValue s
  | ArgBigInt z => Some z
  | ArgAddress _ => None
  end.

(** [approveToken({ tokenAddress, spenderAddress })]: no [unlimited]. *)
Definition defaultApproval (tokenAddress spenderAddress : string)
  : TransactionService.ApproveTokenParams :=
  {| TransactionService.ap_tokenAddress := tokenAddress;
     TransactionService.ap_spenderAddress := spenderAddress;
     TransactionService.ap_unlimited := None |}.

(** The service holds a wallet whose [getWalletClient] resolves to [c]. *)
Definition clientOf (this : TransactionService.t) (c : WalletClient) : Prop :=
  exists pw, TransactionService.primaryWallet this = Some pw
             /\ getWalletClient pw = Resolves (Some c).

(** No wallet is set, or its [getWalletClient] resolves to nothing. *)
Definition walletUnavailable (this : TransactionService.t) : Prop :=
  TransactionService.primaryWallet this = None
  \/ exists pw, TransactionService.primaryWallet this = Some pw
                /\ getWalletClient pw = Resolves None.

(** A call that resolves without a hash: [undefined] or the empty string. *)
Definition hashless (o : outcome (option string)) : Prop :=
  exists h, o = Resolves h /\ truthy h = false.

(** The result that carries the placeholder hash. *)
Definition placeholder : TransactionResult.t :=
  {| TransactionResult.success := true;
     TransactionResult.txHash := Some "tempHash";
     TransactionResult.error := None |}.

(** The amount of the approval can be computed: it is the unlimited
    one, or [ethersParseUnits] returns. *)
Definition amountAvailable `{Host} (ap : TransactionService.ApproveTokenParams) : Prop :=
  default true (TransactionService.ap_unlimited ap) = true
  \/ exists z, ethersParseUnits "1000000" 18 = Resolves z.

(** The amount of the transfer can be computed: [parseUnits] returns. *)
Definition unitsAvailable `{Host} (tp : TransactionService.ExecuteTokenTransferParams)
  : Prop :=
  exists z,
    parseUnits (TransactionService.tt_amount tp)
      (if default false (TransactionService.tt_isNative tp) then 18%Z
       else default 6%Z (TransactionService.tt_decimals tp)) = Resolves z.

(** The case of the placeholder: there is no wallet client, or there is
    one and its calls resolve without a hash. *)
Definition withoutHash `{Host} (this : TransactionService.t)
    (tp : TransactionService.ExecuteTokenTransferParams) : Prop :=
  walletUnavailable this
  \/ exists c, clientOf this c
               /\ (forall r, hashless (writeContract c r))
               /\ (forall r, hashless (sendTransaction c r))
               /\ unitsAvailable tp.

(** The key under which the quote of a request is cached. *)
Definition cacheKeyOf (p : TransactionService.GetTokenConversionParams) : string :=
  TransactionService.generateCacheKey (TransactionService.gc_network p)
    (TransactionService.gc_fromToken p) (TransactionService.gc_toToken p).

(** The body of the conversion query of a request. *)
Definition conversionQuery (this : TransactionService.t)
    (p : TransactionService.GetTokenConversionParams) : body :=
  ConversionBody (TransactionService.apiKey this) (TransactionService.gc_network p)
    (TransactionService.gc_fromToken p) (TransactionService.gc_toToken p)
    (TransactionService.gc_amount p) (TransactionService.gc_username p).




(** An entry lacks a timestamp when it has none or a falsy one. *)
Definition lacksTimestamp (c : CachedConversionData) : Prop :=
  timestamp c = None \/ timestamp c = Some 0%Z.

(** An entry is older than 120 seconds at the time [now] (milliseconds). *)
Definition olderThan120s (now : Z) (c : CachedConversionData) : Prop :=
  exists ts, timestamp c = Some ts /\ ts <> 0%Z /\ (now - ts > 120 * 1000)%Z.

(** An entry is at most 120 seconds old at the time [now]. *)
Definition atMost120sOld (now : Z) (c : CachedConversionData) : Prop :=
  exists ts, timestamp c = Some ts /\ ts <> 0%Z /\ (now - ts <= 120 * 1000)%Z.

(** A token that needs no allowance check: tagged native, or with a
    symbol of the direct-transfer set. *)
Definition exempt (tk : Token) : bool :=
  UseDepositTransaction.taggedNative tk
  || arrayIncludes UseDepositTransaction.directSymbols (symbol tk).

(** The wallet address of the user, if there is a user. *)
Definition ownerOf (u : option User) : option string := u ≫= walletAddress.

(** The allowance query that the effect posts for a token and a user. *)
Definition allowanceQuery (this : TransactionService.t) (env : option string)
    (tk : Token) (u : User) (chainId : Z) (networkName : option string) (w : world)
  : body :=
  AllowanceBody (TransactionService.apiKey this)
    (orElse networkName (String_of chainId)) (tk_address tk)
    (default "" (walletAddress u))
    (if truthyString (username u) then Some (username u)
     else match localStorage w !! "username" with
          | Some (Text s) => Some s
          | _ => None
          end)
    (UseDepositTransaction.spenderAddress env).

(** The backend answers the query, without error, with an allowance
    that is strictly greater than zero. *)
Definition positiveAllowance `{Host} (q : body) : bool :=
  match fetch _ apiSwap_getAllowance q with
  | Resolves r => negb (resp_error r) && gt (Number (allowance (resp_data r))) 0%float
  | Rejects _ => false
  end.

(** Comparisons of amounts, as numbers. *)
Definition positive (x : float) : Prop := PrimFloat.ltb 0%float x = true.
Definition nonPositive (x : float) : Prop := PrimFloat.leb x 0%float = true.
Definition sameNumber (x y : float) : Prop := PrimFloat.eqb x y = true.
Definition exceeds (x y : float) : Prop := PrimFloat.ltb y x = true.

(** Comparison of amounts as decimal strings: both strings are decimal
    literals, and the value [digits / 10^scale] of the first is greater
    than that of the second, compared exactly. *)
Definition decimalExceeds (a b : string) : bool :=
  let la := Demo.scanLiteral a in
  let lb := Demo.scanLiteral b in
  let value l := if Demo.negative l then (- Demo.digits l)%Z else Demo.digits l in
  let whole l := (0 <? Demo.count l)%nat && String.eqb (Demo.rest l) "" in
  whole la && whole lb
  && (value lb * 10 ^ Z.of_nat (Demo.scale la)
      <? value la * 10 ^ Z.of_nat (Demo.scale lb))%Z.

(** *** The confirmation tracker *)

(** A poll result in which no receipt is available. *)
Definition noReceipt (r : UseSwapTransaction.settled) : Prop :=
  r = UseSwapTransaction.WithoutReceipt \/ r = UseSwapTransaction.Threw.

(** The tracker is polling for the hash [h] through the interval
    [handle], has made [n] attempts, and none of them is in flight. *)
Record polling (h : string) (handle n : nat) (s : UseSwapTransaction.session)
  : Prop := {
  polling_pending : UseSwapTransaction.isPending (UseSwapTransaction.hook s) = true;
  polling_hash : UseSwapTransaction.txHash (UseSwapTransaction.hook s) = h;
  polling_nonempty : truthyString h = true;
  polling_ref :
    UseSwapTransaction.pollingIntervalRef (UseSwapTransaction.hook s) = Some handle;
  polling_live : UseSwapTransaction.intervals s = [(handle, h)];
  polling_retry : UseSwapTransaction.retryCountRef (UseSwapTransaction.hook s) = n;
  polling_deps : UseSwapTransaction.effectDeps s = Some (true, h);
  polling_quiet : UseSwapTransaction.inflight s = [];
}.

(** The tracker has stopped: it is not pending, no interval is live and
    the polling effect is up to date. *)
Record stopped (s : UseSwapTransaction.session) : Prop := {
  stopped_pending : UseSwapTransaction.isPending (UseSwapTransaction.hook s) = false;
  stopped_intervals : UseSwapTransaction.intervals s = [];
  stopped_deps :
    UseSwapTransaction.effectDeps s
    = Some (false, UseSwapTransaction.txHash (UseSwapTransaction.hook s));
}.

(** The receipt queries that one attempt issues. *)
Definition requests (d : UseSwapTransaction.deps) (h : string) : list event :=
  if UseSwapTransaction.publicClient d then [RequestedReceipt h] else [].

(** The invocations of the completion callback at one completion. *)
Definition completions (p : UseSwapTransaction.props) : list event :=
  if UseSwapTransaction.onTransactionComplete p then [Completed] else [].

(** The notification of the attempt that gives up. *)
Definition timeoutMessage (d : UseSwapTransaction.deps) (r : UseSwapTransaction.settled)
  : string :=
  if UseSwapTransaction.publicClient d then
    match r with
    | UseSwapTransaction.Threw => "Unable to confirm transaction. Please check manually."
    | _ => "Transaction confirmation timeout. Please check your wallet or try again."
    end
  else "Transaction confirmation timeout. Please check your wallet or try again.".

Definition isTimeoutMessage (msg : string) : bool :=
  String.eqb msg "Unable to confirm transaction. Please check manually."
  || String.eqb msg
       "Transaction confirmation timeout. Please check your wallet or try again.".

(** Kinds of events, for counting them in a trace. *)
Definition isLedgerWrite (e : event) : bool :=
  match e with
  | AddedTransaction _ | UpdatedTransaction _ _ => true
  | _ => false
  end.


Definition isRequest (e : event) : bool :=
  match e with
  | RequestedReceipt _ => true
  | _ => false
  end.

Definition isTimeoutToast (e : event) : bool :=
  match e with
  | Toasted ToastError msg => isTimeoutMessage msg
  | _ => false
  end.

Definition count (f : event -> bool) (t : list event) : nat := length (List.filter f t).

(** The status that a receipt gives to the ledger entry. *)
Definition statusOf (st : UseSwapTransaction.receiptStatus) : TransactionStatus :=
  match st with
  | UseSwapTransaction.StatusSuccess => CONFIRMED
  | UseSwapTransaction.StatusReverted => FAILED
  end.

(** The ledger record that [executeSwap] adds for the hash [h]. *)
Definition swapRecord (p : UseSwapTransaction.props) (d : UseSwapTransaction.deps)
    (h : string) (f t : Token) : NewTransaction :=
  {| nt_hash := h; nt_type := SWAP;
     nt_amount := UseSwapTransaction.exchangeAmount p;
     nt_tokenSymbol := symbol f;
     nt_network := UseSwapTransaction.networkName d;
     nt_fromToken := Some (symbol f); nt_toToken := Some (symbol t) |}.


(** Every live interval is the one that the ref holds, and the polling
    effect has run. *)
Definition owned (s : UseSwapTransaction.session) : Prop :=
  (forall i, In i (UseSwapTransaction.intervals s) ->
             UseSwapTransaction.pollingIntervalRef (UseSwapTransaction.hook s)
             = Some (fst i))
  /\ UseSwapTransaction.effectDeps s <> None.

Definition isAdd (e : event) : bool :=
  match e with
  | AddedTransaction _ => true
  | _ => false
  end.

(** A handler keeps the timers: it leaves the ref of the interval and
    the dependencies of the effect as they are, and starts no interval. *)
Definition keepsTimers (f : UseSwapTransaction.session -> UseSwapTransaction.session)
  : Prop :=
  forall s,
    UseSwapTransaction.pollingIntervalRef (UseSwapTransaction.hook (f s))
    = UseSwapTransaction.pollingIntervalRef (UseSwapTransaction.hook s)
    /\ UseSwapTransaction.effectDeps (f s) = UseSwapTransaction.effectDeps s
    /\ (forall i, In i (UseSwapTransaction.intervals (f s)) ->
                  In i (UseSwapTransaction.intervals s)).

(** The sessions that the hook can be in: the first render followed by
    any actions. *)
Definition reachable `{Host} (p : UseSwapTransaction.props) (d : UseSwapTransaction.deps)
    (s : UseSwapTransaction.session) : Prop :=
  exists w l acts,
    s = UseSwapTransaction.run p d acts (UseSwapTransaction.mount w l).

(** ** Concrete requests and worlds *)

Module Examples.

Definition request (amount : float) : TransactionService.GetTokenConversionParams :=
  {| TransactionService.gc_network := "1";
     TransactionService.gc_fromToken := "0xaaa";
     TransactionService.gc_toToken := "0xbbb";
     TransactionService.gc_amount := amount;
     TransactionService.gc_username := "alice" |}.

Definition entry (ts : option Z) : CachedConversionData :=
  {| quote := Demo.quoteAB; timestamp := ts |}.

(** A world whose cache holds the quote [(4, 10)] for the request,
    stamped [ts], read at the time [now]. *)
Definition cachedAt (ts : option Z) (now : Z) : world :=
  {| trace := [];
     localStorage := {[ cacheKeyOf (request 8) := Document (entry ts) ]};
     clock := now |}.

Definition host : Host := Demo.host (Demo.backend "0").

End Examples.

Module Examples2.

Definition guest : User := {| username := "alice"; walletAddress := None |}.

Definition member : User := {| username := "alice"; walletAddress := Some "0xuser" |}.

Definition nativeToken : Token :=
  {| tk_address := "0xeee"; symbol := "ETH"; decimals := 18; balance := "1";
     tags := Some ["native"] |}.

Definition stableToken : Token :=
  {| tk_address := "0xddd"; symbol := "USD₮0"; decimals := 6; balance := "1";
     tags := Some ["stable"] |}.

(** The swap of an amount of token A (balance 50) for token B. *)
Definition swapOf (amount : string) : UseSwapTransaction.props :=
  {| UseSwapTransaction.fromToken := Some Demo.tokenA;
     UseSwapTransaction.toToken := Some Demo.tokenB;
     UseSwapTransaction.exchangeAmount := amount;
     UseSwapTransaction.receivedAmount := "25";
     UseSwapTransaction.slippage := "Auto";
     UseSwapTransaction.onTransactionComplete := true |}.

(** The swap of token A for itself. *)
Definition selfSwap (amount : string) : UseSwapTransaction.props :=
  {| UseSwapTransaction.fromToken := Some Demo.tokenA;
     UseSwapTransaction.toToken := Some Demo.tokenA;
     UseSwapTransaction.exchangeAmount := amount;
     UseSwapTransaction.receivedAmount := amount;
     UseSwapTransaction.slippage := "Auto";
     UseSwapTransaction.onTransactionComplete := true |}.

Definition depsOf (client : bool) : UseSwapTransaction.deps :=
  {| UseSwapTransaction.userName := "alice";
     UseSwapTransaction.primaryWallet :=
       Some (Demo.wallet (Some (Demo.client (Some "0xhash"))));
     UseSwapTransaction.publicClient := client;
     UseSwapTransaction.chainId := Some 1%Z;
     UseSwapTransaction.networkName := Some "Ethereum";
     UseSwapTransaction.service := Demo.connected |}.


(** The hook after its first render, with an empty ledger. *)
Definition fresh : UseSwapTransaction.session :=
  UseSwapTransaction.mount (Demo.emptyWorld 0) [].

(** The swap of 10 A submitted from the fresh hook: the wallet returns
    the hash "0xhash" and the tracker starts on the interval 1. *)
Definition started : UseSwapTransaction.session :=
  @UseSwapTransaction.step Examples.host (swapOf "10") (depsOf true)
    UseSwapTransaction.ExecuteSwap fresh.

(** The same session after the first tick: the receipt query of poll 0
    is in flight. *)
Definition inFlight : UseSwapTransaction.session :=
  @UseSwapTransaction.run Examples.host (swapOf "10") (depsOf true)
    [UseSwapTransaction.ExecuteSwap; UseSwapTransaction.IntervalFires 1] fresh.

End Examples2.

(** * The rest of the code *)
(** ** The rest of [TransactionService]: cache maintenance *)

Module CacheMaintenance.

(** [keysToRemove.forEach((key) => ...)] and the like *)
Fixpoint forEach {A} (f : A -> js unit) (l : list A) : js unit :=
  match l with
  | [] => mret tt
  | x :: rest => f x;; forEach f rest
  end.

(** The keys [localStorage.key(0)], ..., [localStorage.key(length - 1)],
    in the order of the store. *)
Definition storageKeys : js (list string) := fun w =>
  (Ok (map fst (map_to_list (localStorage w))), w).

(** [key && key.startsWith("token_conversion_")] *)
Definition isConversionKey (key : string) : bool :=
  truthyString key && String.prefix "token_conversion_" key.

Definition clearConversionCache (cacheKey : option string) : js unit :=
  tryCatch
    (if truthy cacheKey then removeItem (default "" cacheKey)
     else
       keys ← storageKeys;
       let keysToRemove := List.filter isConversionKey keys in
       forEach removeItem keysToRemove)
    (fun _ => mret tt).

End CacheMaintenance.

(** ** More vocabulary *)



(** The wallet that [executeSwap] of the service uses: the one it is
    passed, else the stored one. *)
Definition chosenWallet (this : TransactionService.t)
    (params : TransactionService.ExecuteSwapParams) : option PrimaryWalletWithClient :=
  match TransactionService.es_primaryWallet params with
  | Some w => Some w
  | None => TransactionService.primaryWallet this
  end.

(** The body that [executeSwap] of the service posts. *)
Definition swapQuery (this : TransactionService.t)
    (params : TransactionService.ExecuteSwapParams) : body :=
  SwapBody (TransactionService.apiKey this) (TransactionService.es_network params)
    (TransactionService.es_fromToken params) (TransactionService.es_toToken params)
    (TransactionService.es_amount params) (TransactionService.es_walletAddress params)
    (default "Auto" (TransactionService.es_slippage params))
    (TransactionService.es_username params)
    (if truthy (TransactionService.es_receiver params)
     then TransactionService.es_receiver params else None).

(** The transaction that the wallet is asked to send for the prepared
    parameters [(to, data, value)] of the backend. *)
Definition forwarded (params : TransactionService.ExecuteSwapParams)
    (to data : string) (v : Z) : SendTransactionRequest :=
  {| st_to := to; st_data := Some data; st_value := v;
     st_account := Some (TransactionService.es_walletAddress params) |}.

(** A result is well formed: a success carries no error, a failure
    carries an error and no hash. *)
Definition wellFormed (r : TransactionResult.t) : Prop :=
  if TransactionResult.success r
  then TransactionResult.error r = None
  else TransactionResult.txHash r = None /\ TransactionResult.error r <> None.

Definition isWalletCall (e : event) : bool :=
  match e with
  | WroteContract _ | SentTransaction _ => true
  | _ => false
  end.


(** The failure that [getTokenConversion] returns for the error [e]. *)
Definition conversionFailure (e : Error) : TransactionService.GetTokenConversionResult :=
  {| TransactionService.gc_success := false;
     TransactionService.conversion := None;
     TransactionService.gc_error := Some e;
     TransactionService.fromCache := None |}.

(** The notification of the [catch] block: shown when the message of
    the error contains "not supported", in any case of letters. *)
Definition unsupportedNotice (e : Error) : list event :=
  if includes (toLowerCase (message e)) "not supported"
  then [Toasted ToastError (message e)] else [].

(** The error with which a conversion query fails, if it does: the
    rejection of the request, or the message of a flagged response. *)
Definition quoteError (o : outcome (ApiResponse ConversionData)) : option Error :=
  match o with
  | Rejects e => Some e
  | Resolves r =>
      if resp_error r
      then Some (newError (orElse (Some (resp_message r)) "Failed to get token conversion"))
      else None
  end.

(** ** More concrete backends *)

Module Examples3.

(** A backend that cannot be reached. *)
Definition offline (T : Type) (_ : endpoint T) (_ : body) : outcome (ApiResponse T) :=
  Rejects (newError "Failed to fetch").

Definition offlineHost : Host := Demo.host offline.


End Examples3.

(** The ledger writes that a receipt with status [st] makes for the
    hash [h]: one update of the entry that has the hash, if there is one. *)
Definition ledgerUpdates (h : string) (st : UseSwapTransaction.receiptStatus)
    (l : list Transaction) : list event :=
  match Ledger.findByHash h l with
  | Some tx => [UpdatedTransaction (id tx) (statusOf st)]
  | None => []
  end.

Definition ledgerAfter (h : string) (st : UseSwapTransaction.receiptStatus)
    (l : list Transaction) : list Transaction :=
  match Ledger.findByHash h l with
  | Some tx => Ledger._updateTransaction (id tx) (statusOf st) l
  | None => l
  end.


(** What a handler leaves of the tracker when it leaves it alone. *)
Definition sameTracker (s s' : UseSwapTransaction.session) : Prop :=
  UseSwapTransaction.isPending (UseSwapTransaction.hook s')
  = UseSwapTransaction.isPending (UseSwapTransaction.hook s)
  /\ UseSwapTransaction.txHash (UseSwapTransaction.hook s')
     = UseSwapTransaction.txHash (UseSwapTransaction.hook s)
  /\ UseSwapTransaction.timeLeft (UseSwapTransaction.hook s')
     = UseSwapTransaction.timeLeft (UseSwapTransaction.hook s)
  /\ UseSwapTransaction.pollingIntervalRef (UseSwapTransaction.hook s')
     = UseSwapTransaction.pollingIntervalRef (UseSwapTransaction.hook s)
  /\ UseSwapTransaction.retryCountRef (UseSwapTransaction.hook s')
     = UseSwapTransaction.retryCountRef (UseSwapTransaction.hook s)
  /\ UseSwapTransaction.intervals s' = UseSwapTransaction.intervals s
  /\ UseSwapTransaction.inflight s' = UseSwapTransaction.inflight s
  /\ UseSwapTransaction.effectDeps s' = UseSwapTransaction.effectDeps s
  /\ UseSwapTransaction.transactions s' = UseSwapTransaction.transactions s.

(** The hash that the hook tracks is on record: it is not empty, the
    ledger has an entry with it, and the trace shows that the hook added
    one. *)
Definition recorded (s : UseSwapTransaction.session) : Prop :=
  UseSwapTransaction.isPending (UseSwapTransaction.hook s) = true ->
  truthyString (UseSwapTransaction.txHash (UseSwapTransaction.hook s)) = true
  /\ (exists tx, In tx (UseSwapTransaction.transactions s)
                 /\ hash tx = UseSwapTransaction.txHash (UseSwapTransaction.hook s))
  /\ (exists r, In (AddedTransaction r) (trace (UseSwapTransaction.outside s))
                /\ nt_hash r = UseSwapTransaction.txHash (UseSwapTransaction.hook s)).

(** The timers of the hook are in order: the polling effect is up to
    date; at most one interval is live, and then the hook is pending, the
    interval polls the hash of the hook and the ref holds its handle; the
    countdown is within its range. *)
Record tidy (s : UseSwapTransaction.session) : Prop := {
  tidy_deps :
    UseSwapTransaction.effectDeps s
    = Some (UseSwapTransaction.isPending (UseSwapTransaction.hook s),
            UseSwapTransaction.txHash (UseSwapTransaction.hook s));
  tidy_timers :
    UseSwapTransaction.intervals s = []
    \/ (UseSwapTransaction.isPending (UseSwapTransaction.hook s) = true
        /\ exists handle,
             UseSwapTransaction.intervals s
             = [(handle, UseSwapTransaction.txHash (UseSwapTransaction.hook s))]
             /\ UseSwapTransaction.pollingIntervalRef (UseSwapTransaction.hook s)
                = Some handle);
  tidy_time :
    (0 <= UseSwapTransaction.timeLeft (UseSwapTransaction.hook s) <= 90)%Z;
  tidy_recorded : recorded s;
}.

(** A handler that does not submit: it leaves the ref and the
    dependencies of the effect as they are, clears the interval of the ref
    or leaves the intervals alone, only appends to the trace, only updates
    statuses in the ledger, never raises the pending flag nor changes the
    hash of a pending hook, and moves the countdown down by one, to 0, or
    not at all. *)
Definition quiet (f : UseSwapTransaction.session -> UseSwapTransaction.session) : Prop :=
  forall s,
    UseSwapTransaction.pollingIntervalRef (UseSwapTransaction.hook (f s))
    = UseSwapTransaction.pollingIntervalRef (UseSwapTransaction.hook s)
    /\ UseSwapTransaction.effectDeps (f s) = UseSwapTransaction.effectDeps s
    /\ (UseSwapTransaction.intervals (f s) = UseSwapTransaction.intervals s
        \/ UseSwapTransaction.intervals (f s)
           = UseSwapTransaction.intervals (UseSwapTransaction.clearPolling s))
    /\ (exists new, trace (UseSwapTransaction.outside (f s))
                    = (trace (UseSwapTransaction.outside s) ++ new)%list)
    /\ (UseSwapTransaction.transactions (f s) = UseSwapTransaction.transactions s
        \/ exists i st,
             UseSwapTransaction.transactions (f s)
             = Ledger._updateTransaction i st (UseSwapTransaction.transactions s))
    /\ (UseSwapTransaction.isPending (UseSwapTransaction.hook (f s)) = true ->
        UseSwapTransaction.isPending (UseSwapTransaction.hook s) = true
        /\ UseSwapTransaction.txHash (UseSwapTransaction.hook (f s))
           = UseSwapTransaction.txHash (UseSwapTransaction.hook s))
    /\ (UseSwapTransaction.timeLeft (UseSwapTransaction.hook (f s))
        = UseSwapTransaction.timeLeft (UseSwapTransaction.hook s)
        \/ UseSwapTransaction.timeLeft (UseSwapTransaction.hook (f s)) = 0%Z
        \/ ((0 < UseSwapTransaction.timeLeft (UseSwapTransaction.hook s))%Z
            /\ UseSwapTransaction.timeLeft (UseSwapTransaction.hook (f s))
               = (UseSwapTransaction.timeLeft (UseSwapTransaction.hook s) - 1)%Z)).

(** ** The swap panel: the button and its handler *)

Module SwapPanel.

Import UseSwapTransaction.

Section WithHost.
Context `{Host}.
Variable p : props.
Variable d : deps.
Variable a : UseSwap.allowance.

(** The two loading flags that the panel takes from [useSwapQuote] and
    [useSwapAllowance]. *)
Variable isFetching : bool.
Variable isApproveLoading : bool.

Definition isSwapDisabled (s : session) : bool :=
  negb (bool_decide (is_Some (fromToken p)))
  || negb (bool_decide (is_Some (toToken p)))
  || (negb (truthyString (exchangeAmount p)) && negb (truthyString (receivedAmount p)))
  || isFetching
  || isLoading (hook s)
  || isApproveLoading
  || negb (validateSwap p).

(** [handleSwapExecution]: the results of the two awaited calls are
    dropped; a rejection of either rejects the handler. *)
Definition handleSwapExecution (s : session) : result unit * session :=
  if negb (UseSwap.isTokenAllowed a) then
    let s := log (Called "approveToken") s in
    match UseSwap.approveToken a (outside s) with
    | (Thrown e, w) => (Thrown e, onOutside (fun _ => w) s)
    | (Ok _, w) => (Ok tt, onOutside (fun _ => w) s)
    end
  else
    match UseSwap.executeSwap p d a s with
    | (Thrown e, s) => (Thrown e, s)
    | (Ok _, s) => (Ok tt, s)
    end.

End WithHost.

End SwapPanel.

(** ** [useSwap]: the helpers of the interface *)

Module UseSwapView.

Import UseSwapTransaction.

(** The keys of the messages that [useSwapI18n] translates. *)
Inductive label :=
| selectTokens | enterAmount | gettingQuote | confirming | approving
| approveAndSwap | swap | insufficientBalance | sameToken.

Section WithHost.
Context `{Host}.
Variable p : props.
Variable a : UseSwap.allowance.
Variable isFetching : bool.
Variable isApproveLoading : bool.

Definition getSwapButtonText (s : session) : label :=
  match fromToken p, toToken p with
  | Some f, Some t =>
      if negb (truthyString (exchangeAmount p)) && negb (truthyString (receivedAmount p))
      then enterAmount
      else if isFetching then gettingQuote
      else if isLoading (hook s) then confirming
      else if isApproveLoading then approving
      else if negb (UseSwap.isTokenAllowed a) then approveAndSwap
      else if validateSwap p then swap
      else if gt (parseFloat (exchangeAmount p)) (parseFloat (balance f))
      then insufficientBalance
      else if String.eqb (tk_address f) (tk_address t) then sameToken
      else enterAmount
  | _, _ => selectTokens
  end.

(** [Boolean(exchangeAmount && receivedAmount && fromToken && toToken
     && parseFloat(exchangeAmount) > 0)] *)
Definition showGasFee : bool :=
  truthyString (exchangeAmount p) && truthyString (receivedAmount p)
  && bool_decide (is_Some (fromToken p)) && bool_decide (is_Some (toToken p))
  && gt (parseFloat (exchangeAmount p)) 0%float.

End WithHost.

(** The selection of tokens.  [useSwapFormState] is not among the
    sources: [form] is its state, of which the hook reads the two tokens
    and which it changes through the two setters only. *)
Section Selection.
Variable form : Type.
Variable setFromToken : option Token -> form -> form.
Variable setToToken : option Token -> form -> form.

(** [updateFromToken(token)], for the tokens [fromToken] and [toToken]
    that the callback closed over. *)
Definition updateFromToken (fromToken toToken : option Token) (token : option Token)
  : form -> form :=
  match toToken, token with
  | Some t, Some tok =>
      if String.eqb (tk_address t) (tk_address tok) then
        let temp := fromToken in
        fun f => setToToken temp (setFromToken token f)
      else setFromToken token
  | _, _ => setFromToken token
  end.

Definition updateToToken (fromToken toToken : option Token) (token : option Token)
  : form -> form :=
  match fromToken, token with
  | Some t, Some tok =>
      if String.eqb (tk_address t) (tk_address tok) then
        let temp := toToken in
        fun f => setFromToken temp (setToToken token f)
      else setToToken token
  | _, _ => setToToken token
  end.

(** [tokens.find((token) => token.address?.toLowerCase()
                            === selected.address?.toLowerCase())] *)
Definition refreshed (tokens : list Token) (selected : Token) : option Token :=
  List.find (fun token => String.eqb (toLowerCase (tk_address token))
                            (toLowerCase (tk_address selected))) tokens.

(** One side of the body of the synchronisation effect. *)
Definition syncSide (set : option Token -> form -> form) (tokens : list Token)
    (selected : option Token) : form -> form :=
  match selected with
  | Some tk =>
      if truthyString (tk_address tk) then
        match refreshed tokens tk with
        | Some updated =>
            if negb (String.eqb (balance updated) (balance tk)) then set (Some updated)
            else fun f => f
        | None => fun f => f
        end
      else fun f => f
  | None => fun f => f
  end.

(** The body of the synchronisation effect when its timeout of 500 ms
    fires, for the tokens that the effect closed over. *)
Definition syncTokens (tokens : list Token) (fromToken toToken : option Token)
  : form -> form :=
  fun f => syncSide setToToken tokens toToken (syncSide setFromToken tokens fromToken f).

End Selection.

End UseSwapView.

(** The two tokens of a selection have different addresses, when both
    are set. *)
Definition distinctTokens (a b : option Token) : Prop :=
  match a, b with
  | Some x, Some y => tk_address x <> tk_address y
  | _, _ => True
  end.

(** The token chosen for one side is the one on the other side: both
    are set and have the same address. *)
Definition onOtherSide (other token : option Token) : bool :=
  match other, token with
  | Some t, Some tok => String.eqb (tk_address t) (tk_address tok)
  | _, _ => false
  end.

(** The same token up to the case of the letters of its address. *)
Definition sameAddress (a b : option Token) : Prop :=
  match a, b with
  | Some x, Some y => toLowerCase (tk_address x) = toLowerCase (tk_address y)
  | None, None => True
  | _, _ => False
  end.

(** The setters and getters of a form state behave as those of two
    [useState] cells. *)
Record cells (form : Type) (fromTokenOf toTokenOf : form -> option Token)
    (setFromToken setToToken : option Token -> form -> form) : Prop := {
  from_set : forall t f, fromTokenOf (setFromToken t f) = t;
  from_kept : forall t f, fromTokenOf (setToToken t f) = fromTokenOf f;
  to_set : forall t f, toTokenOf (setToToken t f) = t;
  to_kept : forall t f, toTokenOf (setFromToken t f) = toTokenOf f;
}.

(** ** [TransactionService]: the methods that the deposit hook calls *)

Module DepositApi.

Inductive transaction_status := CONFIRMED_ | PENDING_ | REJECTED_ | FAILED_.

Record CheckTransactionStatusResponse := {
  cts_error : bool;
  cts_transaction_status : transaction_status;
}.

Record GetDestinationWalletResult := {
  dw_success : bool;
  dw_walletAddress : option string;
  dw_error : option Error;
}.

Record RecordManualDepositResult := {
  rm_success : bool;
  rm_error : option Error;
}.

(** [getDestinationWallet(networkId)].  The endpoint is not one that
    [fetch] of [Host] answers: [walletAgent] is the way the request
    "/api/getWalletAgent" for a network ends, with the [wallet_address] of
    its data.  The request is recorded by its endpoint. *)
Definition getDestinationWallet (walletAgent : Z -> outcome (ApiResponse string))
    (networkId : Z) : js GetDestinationWalletResult :=
  tryCatch
    (emit (Called "/api/getWalletAgent");;
     response ← await (walletAgent networkId);
     if resp_error response then
       throw (newError (orElse (Some (resp_message response))
                          "Failed to get destination wallet"))
     else
       mret {| dw_success := true;
               dw_walletAddress := Some (resp_data response);
               dw_error := None |})
    (fun e => mret {| dw_success := false; dw_walletAddress := None;
                      dw_error := Some e |}).

(** [recordManualDeposit]: the request is commented out in the source. *)
Definition recordManualDeposit : js RecordManualDepositResult :=
  tryCatch (mret {| rm_success := true; rm_error := None |})
    (fun e => mret {| rm_success := false; rm_error := Some e |}).

(** [checkTransactionStatus], from the moment its request settles: the
    response is handed over as it is, and a failed request becomes the
    response [{ error: true, transaction_status: "FAILED" }]. *)
Definition checkTransactionStatus (o : outcome CheckTransactionStatusResponse)
  : outcome CheckTransactionStatusResponse :=
  match o with
  | Resolves response => Resolves response
  | Rejects _ => Resolves {| cts_error := true; cts_transaction_status := FAILED_ |}
  end.

End DepositApi.

(** ** [useDepositTransaction]: the transaction and its tracking *)

Module DepositTransaction.

Import DepositApi.

Inductive depositKind := direct | swap.

Record DstSwapInfo := {
  token_address : string;
  wallet_address : string;
}.

(** The fields of the user that the hook reads. *)
Record DepositUser := {
  du_username : string;
  du_walletAddress : option string;
  du_pendingDepo : bool;
  du_autodepo : option string;
}.

(** What the component passes to the hook.  [onTransactionComplete] is
    optional; the field tells whether it was given. *)
Record props := {
  selectedToken : option Token;
  depositAmount : string;
  depositType : depositKind;
  dstSwapInfo : option DstSwapInfo;
  onTransactionComplete : bool;
}.

(** What the hook takes from the store, the other hooks and the
    environment.  [networkName] is [network.name] of a network that is
    set. *)
Record deps := {
  user : option DepositUser;
  chainId : option Z;
  networkName : option string;
  primaryWallet : option PrimaryWalletWithClient;
  service : TransactionService.t;
  walletAgent : Z -> outcome (ApiResponse string);
  allowanceAddress : option string;
}.

(** The [useState] cells and the two refs. *)
Record state := {
  isLoading : bool;
  isApproving : bool;
  isApproved : bool;
  isPending : bool;
  transactionHash : option string;
  timeLeft : Z;
  pollingIntervalRef : option nat;
  retryCountRef : nat;
}.

Definition initial : state :=
  {| isLoading := false; isApproving := false; isApproved := false;
     isPending := false; transactionHash := None; timeLeft := 0;
     pollingIntervalRef := None; retryCountRef := 0 |}.

Definition setIsLoading (b : bool) (s : state) : state :=
  {| isLoading := b; isApproving := isApproving s; isApproved := isApproved s;
     isPending := isPending s; transactionHash := transactionHash s;
     timeLeft := timeLeft s; pollingIntervalRef := pollingIntervalRef s;
     retryCountRef := retryCountRef s |}.

Definition setIsApproving (b : bool) (s : state) : state :=
  {| isLoading := isLoading s; isApproving := b; isApproved := isApproved s;
     isPending := isPending s; transactionHash := transactionHash s;
     timeLeft := timeLeft s; pollingIntervalRef := pollingIntervalRef s;
     retryCountRef := retryCountRef s |}.

Definition setIsApproved (b : bool) (s : state) : state :=
  {| isLoading := isLoading s; isApproving := isApproving s; isApproved := b;
     isPending := isPending s; transactionHash := transactionHash s;
     timeLeft := timeLeft s; pollingIntervalRef := pollingIntervalRef s;
     retryCountRef := retryCountRef s |}.

Definition setIsPending (b : bool) (s : state) : state :=
  {| isLoading := isLoading s; isApproving := isApproving s; isApproved := isApproved s;
     isPending := b; transactionHash := transactionHash s;
     timeLeft := timeLeft s; pollingIntervalRef := pollingIntervalRef s;
     retryCountRef := retryCountRef s |}.

Definition setTransactionHash (h : option string) (s : state) : state :=
  {| isLoading := isLoading s; isApproving := isApproving s; isApproved := isApproved s;
     isPending := isPending s; transactionHash := h;
     timeLeft := timeLeft s; pollingIntervalRef := pollingIntervalRef s;
     retryCountRef := retryCountRef s |}.

Definition setTimeLeft (n : Z) (s : state) : state :=
  {| isLoading := isLoading s; isApproving := isApproving s; isApproved := isApproved s;
     isPending := isPending s; transactionHash := transactionHash s;
     timeLeft := n; pollingIntervalRef := pollingIntervalRef s;
     retryCountRef := retryCountRef s |}.

Definition setPollingIntervalRef (h : option nat) (s : state) : state :=
  {| isLoading := isLoading s; isApproving := isApproving s; isApproved := isApproved s;
     isPending := isPending s; transactionHash := transactionHash s;
     timeLeft := timeLeft s; pollingIntervalRef := h;
     retryCountRef := retryCountRef s |}.

Definition setRetryCountRef (n : nat) (s : state) : state :=
  {| isLoading := isLoading s; isApproving := isApproving s; isApproved := isApproved s;
     isPending := isPending s; transactionHash := transactionHash s;
     timeLeft := timeLeft s; pollingIntervalRef := pollingIntervalRef s;
     retryCountRef := n |}.

(** A call of [pollTransactionStatus] that is suspended at an [await]:
    on the status request, with the hash and the retry count it was called
    with, or on the token refresh after a confirmation. *)
Inductive suspended :=
| AwaitingStatus (h : string) (retryCount : nat)
| AwaitingRefresh.

(** The hook together with what it acts on: the outside world, the
    shared ledger, the live polling intervals (handle and the hash their
    callback closed over), the suspended polls, and the dependencies of
    the countdown effect and of the polling effect as React last saw
    them. *)
Record session := {
  hook : state;
  outside : world;
  transactions : list Transaction;
  intervals : list (nat * string);
  nextHandle : nat;
  inflight : list (nat * suspended);
  nextPoll : nat;
  countdownDeps : option (bool * Z);
  pollingDeps : option (bool * option string);
}.

Definition idle (w : world) (l : list Transaction) : session :=
  {| hook := initial; outside := w; transactions := l; intervals := [];
     nextHandle := 1; inflight := []; nextPoll := 0;
     countdownDeps := None; pollingDeps := None |}.

Definition onHook (f : state -> state) (s : session) : session :=
  {| hook := f (hook s); outside := outside s; transactions := transactions s;
     intervals := intervals s; nextHandle := nextHandle s;
     inflight := inflight s; nextPoll := nextPoll s;
     countdownDeps := countdownDeps s; pollingDeps := pollingDeps s |}.

Definition onOutside (f : world -> world) (s : session) : session :=
  {| hook := hook s; outside := f (outside s); transactions := transactions s;
     intervals := intervals s; nextHandle := nextHandle s;
     inflight := inflight s; nextPoll := nextPoll s;
     countdownDeps := countdownDeps s; pollingDeps := pollingDeps s |}.

Definition onTransactions (f : list Transaction -> list Transaction) (s : session)
  : session :=
  {| hook := hook s; outside := outside s; transactions := f (transactions s);
     intervals := intervals s; nextHandle := nextHandle s;
     inflight := inflight s; nextPoll := nextPoll s;
     countdownDeps := countdownDeps s; pollingDeps := pollingDeps s |}.

Definition withIntervals (l : list (nat * string)) (n : nat) (s : session) : session :=
  {| hook := hook s; outside := outside s; transactions := transactions s;
     intervals := l; nextHandle := n;
     inflight := inflight s; nextPoll := nextPoll s;
     countdownDeps := countdownDeps s; pollingDeps := pollingDeps s |}.

Definition withInflight (l : list (nat * suspended)) (n : nat) (s : session) : session :=
  {| hook := hook s; outside := outside s; transactions := transactions s;
     intervals := intervals s; nextHandle := nextHandle s;
     inflight := l; nextPoll := n;
     countdownDeps := countdownDeps s; pollingDeps := pollingDeps s |}.

Definition withDeps (c : option (bool * Z)) (q : option (bool * option string))
    (s : session) : session :=
  {| hook := hook s; outside := outside s; transactions := transactions s;
     intervals := intervals s; nextHandle := nextHandle s;
     inflight := inflight s; nextPoll := nextPoll s;
     countdownDeps := c; pollingDeps := q |}.

Definition log (e : event) : session -> session :=
  onOutside (fun w => withTrace (trace w ++ [e]) w).

(** *** The code of a handler: it runs on the session and may throw *)

Definition handler (A : Type) : Type := session -> result A * session.

#[global] Instance handler_ret : MRet handler := fun A a s => (Ok a, s).

#[global] Instance handler_bind : MBind handler := fun A B f m s =>
  match m s with
  | (Ok a, s') => f a s'
  | (Thrown e, s') => (Thrown e, s')
  end.

Definition raise {A} (e : Error) : handler A := fun s => (Thrown e, s).

(** [try { m } catch (e) { h e }] and [try { m } finally { f }] *)
Definition catching {A} (m : handler A) (h : Error -> handler A) : handler A := fun s =>
  match m s with
  | (Ok a, s') => (Ok a, s')
  | (Thrown e, s') => h e s'
  end.

Definition finally {A} (m : handler A) (f : session -> session) : handler A := fun s =>
  match m s with
  | (r, s') => (r, f s')
  end.

(** A state setter, and an awaited call of a collaborator on the
    outside world. *)
Definition set (f : state -> state) : handler unit := fun s => (Ok tt, onHook f s).

Definition call {A} (m : js A) : handler A := fun s =>
  match m (outside s) with
  | (r, w) => (r, onOutside (fun _ => w) s)
  end.

(** [addTransaction(r)] of the store *)
Definition addTransaction (r : NewTransaction) : handler unit := fun s =>
  (Ok tt, log (AddedTransaction r) (onTransactions (Ledger.addTransaction r) s)).

(** *** Timers *)

Definition clearInterval (h : nat) (s : session) : session :=
  withIntervals (List.filter (fun i => negb (Nat.eqb (fst i) h)) (intervals s))
    (nextHandle s) s.

(** [if (pollingIntervalRef.current) clearInterval(pollingIntervalRef.current)];
    the ref keeps the handle. *)
Definition clearPolling (s : session) : session :=
  match pollingIntervalRef (hook s) with
  | Some h => clearInterval h s
  | None => s
  end.

(** [pollingIntervalRef.current = setInterval(callback, 3000)], the
    callback closing over the hash [h] *)
Definition startPolling (h : string) (s : session) : session :=
  let handle := nextHandle s in
  onHook (setPollingIntervalRef (Some handle))
    (withIntervals (intervals s ++ [(handle, h)]) (S handle) s).

(** *** Polling for the status *)

Definition MAX_RETRIES : nat := 30.

Section Poll.
Variable p : props.
Variable d : deps.

(** [if (onTransactionComplete) onTransactionComplete()] *)
Definition complete (s : session) : session :=
  if onTransactionComplete p then log Completed s else s.

(** The body shared by the two branches taken at the retry limit. *)
Definition giveUp (msg : string) (s : session) : session :=
  complete (log (Toasted ToastError msg) (onHook (setIsPending false) (clearPolling s))).

(** The call [pollTransactionStatus(hash, retryCount)] up to its first
    [await]: the status request is issued. *)
Definition pollTransactionStatus (h : string) (retryCount : nat) (s : session)
  : session :=
  withInflight (inflight s ++ [(nextPoll s, AwaitingStatus h retryCount)])
    (S (nextPoll s)) (log (Called "/dynamic/checkTransactionStatus") s).

(** The same call from the moment [checkTransactionStatus] settles. *)
Definition resumeWithStatus (poll : nat) (h : string) (retryCount : nat)
    (o : outcome CheckTransactionStatusResponse) (s : session) : session :=
  match o with
  | Resolves response =>
      if cts_error response then
        if (retryCount <? MAX_RETRIES)%nat then s
        else
          giveUp "Transaction confirmation timeout. Please check your wallet or try again." s
      else
        match Ledger.findByHash h (transactions s), cts_transaction_status response with
        | Some tx, CONFIRMED_ =>
            let s := clearPolling s in
            let s := onHook (setIsPending false) s in
            let s := log (UpdatedTransaction (id tx) CONFIRMED)
                       (onTransactions (Ledger._updateTransaction (id tx) CONFIRMED) s) in
            let s := log (Toasted ToastSuccess "Deposit Confirmed!") s in
            let s := log Confetti s in
            let s := log (Called "refreshUserData") s in
            let s := log FetchedTokens s in
            withInflight (inflight s ++ [(poll, AwaitingRefresh)]) (nextPoll s) s
        | _, _ => s
        end
  | Rejects _ =>
      if (MAX_RETRIES <=? retryCount)%nat then
        giveUp "Unable to confirm transaction. Please check manually." s
      else s
  end.

Definition lookupPoll (poll : nat) (s : session) : option suspended :=
  snd <$> List.find (fun i => Nat.eqb (fst i) poll) (inflight s).

Definition dropPoll (poll : nat) (s : session) : session :=
  withInflight (List.filter (fun i => negb (Nat.eqb (fst i) poll)) (inflight s))
    (nextPoll s) s.

(** The status request of a suspended poll settles: [raw] is the way
    the request itself ended, which [checkTransactionStatus] turns into
    what the hook awaits. *)
Definition statusSettles (poll : nat) (raw : outcome CheckTransactionStatusResponse)
    (s : session) : session :=
  match lookupPoll poll s with
  | Some (AwaitingStatus h retryCount) =>
      resumeWithStatus poll h retryCount (checkTransactionStatus raw) (dropPoll poll s)
  | _ => s
  end.

(** [await fetchTokens(...)] settles; a failure is only logged. *)
Definition refreshSettles (poll : nat) (s : session) : session :=
  match lookupPoll poll s with
  | Some AwaitingRefresh => complete (dropPoll poll s)
  | _ => s
  end.

(** The interval callback:
    [pollTransactionStatus(transactionHash, retryCountRef.current);
     retryCountRef.current += 1]. *)
Definition intervalFires (handle : nat) (s : session) : session :=
  match List.find (fun i => Nat.eqb (fst i) handle) (intervals s) with
  | Some (_, h) =>
      let retryCount := retryCountRef (hook s) in
      let s := pollTransactionStatus h retryCount s in
      onHook (fun x => setRetryCountRef (S (retryCountRef x)) x) s
  | None => s
  end.

(** The timer of the countdown effect, which is set while the hook is
    pending with time left:
    [setTimeLeft((prev) => (prev > 0 ? prev - 1 : 0))]. *)
Definition countdownTick (s : session) : session :=
  if isPending (hook s) && (0 <? timeLeft (hook s))%Z then
    onHook (fun x => setTimeLeft (if (0 <? timeLeft x)%Z then timeLeft x - 1 else 0)%Z x) s
  else s.

(** The two effects as React applies them after a render.  The cleanups
    of the effects whose dependencies changed run first, then their
    bodies, in the order of declaration: the countdown effect,
    [useEffect(..., [isPending, timeLeft])], whose body clears the polling
    interval when the hook is not pending or no time is left; then the
    polling effect, [useEffect(..., [isPending, transactionHash,
    pollTransactionStatus])]. *)
Definition pollingCleanup (runs : bool) (s : session) : session :=
  if runs then
    match pollingDeps s with
    | Some _ => clearPolling s
    | None => s
    end
  else s.

Definition countdownBody (runs : bool) (s : session) : session :=
  if runs then
    if negb (isPending (hook s)) || (timeLeft (hook s) <=? 0)%Z
    then clearPolling s else s
  else s.

Definition pollingBody (runs : bool) (s : session) : session :=
  if runs then
    if isPending (hook s) && truthy (transactionHash (hook s)) then
      startPolling (default "" (transactionHash (hook s)))
        (onHook (setRetryCountRef 0) s)
    else s
  else s.

Definition effects (s : session) : session :=
  let countdownNow := (isPending (hook s), timeLeft (hook s)) in
  let pollingNow := (isPending (hook s), transactionHash (hook s)) in
  let countdownRuns := negb (bool_decide (countdownDeps s = Some countdownNow)) in
  let pollingRuns := negb (bool_decide (pollingDeps s = Some pollingNow)) in
  withDeps (Some countdownNow) (Some pollingNow)
    (pollingBody pollingRuns
       (countdownBody countdownRuns
          (pollingCleanup pollingRuns s))).

Definition cleanup (s : session) : session := clearPolling s.

Definition resetTransactionState (s : session) : session :=
  let s := onHook (fun x =>
             setRetryCountRef 0
               (setTimeLeft 0
                  (setTransactionHash None
                     (setIsPending false
                        (setIsApproving false
                           (setIsLoading false x)))))) s in
  clearPolling s.

End Poll.

(** *** The transaction *)

(** [s.toUpperCase()], on the ASCII letters. *)
Definition upperAscii (c : ascii) : ascii :=
  let n := nat_of_ascii c in
  if (97 <=? n)%nat && (n <=? 122)%nat then ascii_of_nat (n - 32) else c.

Fixpoint toUpperCase (s : string) : string :=
  match s with
  | EmptyString => EmptyString
  | String c rest => String (upperAscii c) (toUpperCase rest)
  end.

Section Submit.
Context `{Host}.
Variable p : props.
Variable d : deps.

Definition spenderAddress : string :=
  UseDepositTransaction.spenderAddress (allowanceAddress d).

(** [user.autodepo?.toUpperCase() !== "OFF"] *)
Definition isAutoDepositOn (u : DepositUser) : bool :=
  match du_autodepo u with
  | Some a => negb (String.eqb (toUpperCase a) "OFF")
  | None => true
  end.

(** [throw result.error || new Error(msg)] *)
Definition raiseOr {A} (e : option Error) (msg : string) : handler A :=
  raise (match e with Some e => e | None => newError msg end).

Definition transferOf (tk : Token) (destinationAddress : string)
  : TransactionService.ExecuteTokenTransferParams :=
  {| TransactionService.tt_tokenAddress := tk_address tk;
     TransactionService.tt_recipientAddress := destinationAddress;
     TransactionService.tt_amount := depositAmount p;
     TransactionService.tt_decimals := Some (decimals tk);
     TransactionService.tt_isNative := None |}.

(** The [try] block of [executeTransaction], for the token, the user,
    the chain and the network name that passed the first test.
    [approved] is [isApproved] as the callback closed over it. *)
Definition tryTransaction (tk : Token) (u : DepositUser) (chain : Z) (network : string)
    (approved : bool) : handler unit :=
  (if negb approved && negb (UseDepositTransaction.taggedNative tk) then
     set (setIsApproving true);;
     approveResult ← call (TransactionService.approveToken (service d)
                             {| TransactionService.ap_tokenAddress := tk_address tk;
                                TransactionService.ap_spenderAddress := spenderAddress;
                                TransactionService.ap_unlimited := None |});
     if negb (TransactionResult.success approveResult) then
       raiseOr (TransactionResult.error approveResult) "Approval failed"
     else
       set (setIsApproving false);;
       set (setIsApproved true)
   else (mret tt : handler unit));;
  destinationWalletResult ← call (getDestinationWallet (walletAgent d) chain);
  if negb (dw_success destinationWalletResult)
     || negb (truthy (dw_walletAddress destinationWalletResult)) then
    raiseOr (dw_error destinationWalletResult) "Could not get destination wallet."
  else
    let destinationAddress := default "" (dw_walletAddress destinationWalletResult) in
    outcome ←
      (if negb (isAutoDepositOn u) then
         txResult ← call (TransactionService.executeTokenTransfer (service d)
                            (transferOf tk destinationAddress));
         if negb (TransactionResult.success txResult)
            || negb (truthy (TransactionResult.txHash txResult)) then
           raiseOr (TransactionResult.error txResult) "Manual transfer failed"
         else
           call recordManualDeposit;;
           mret (txResult, true)
       else
         let isStablecoin :=
           arrayIncludes UseDepositTransaction.directSymbols (symbol tk) in
         if isStablecoin || match depositType p with direct => true | swap => false end
         then
           txResult ← call (TransactionService.executeTokenTransfer (service d)
                              (transferOf tk destinationAddress));
           mret (txResult, TransactionResult.success txResult)
         else
           match depositType p, dstSwapInfo p with
           | swap, Some info =>
               txResult ← call (TransactionService.executeSwap (service d)
                                  {| TransactionService.es_network := network;
                                     TransactionService.es_fromToken := tk_address tk;
                                     TransactionService.es_toToken := token_address info;
                                     TransactionService.es_amount := depositAmount p;
                                     TransactionService.es_walletAddress :=
                                       default "" (du_walletAddress u);
                                     TransactionService.es_receiver :=
                                       Some (wallet_address info);
                                     TransactionService.es_slippage := Some "1";
                                     TransactionService.es_username := du_username u;
                                     TransactionService.es_primaryWallet :=
                                       primaryWallet d |});
               mret (txResult, TransactionResult.success txResult)
           | _, _ => raise (newError "Invalid deposit path")
           end);
    let '(txResult, depositSuccess) := outcome in
    if negb depositSuccess || negb (truthy (TransactionResult.txHash txResult)) then
      raiseOr (TransactionResult.error txResult) "Transaction failed to return a hash."
    else
      let h := default "" (TransactionResult.txHash txResult) in
      set (setTransactionHash (Some h));;
      set (setIsPending true);;
      set (setTimeLeft 90);;
      let record :=
        {| nt_hash := h; nt_type := DEPOSIT; nt_amount := depositAmount p;
           nt_tokenSymbol := symbol tk; nt_network := Some (String_of chain);
           nt_fromToken := None; nt_toToken := None |} in
      addTransaction record.

(** The message that the [catch] block shows. *)
Definition shown (e : Error) : string :=
  match shortMessage e with
  | Some m => m
  | None => message e
  end.

(** [executeTransaction]: the first test, the pre-flight check, then
    the [try] block, its [catch] and its [finally]. *)
Definition executeTransaction : handler unit := fun s =>
  match selectedToken p, user d, chainId d, networkName d with
  | Some tk, Some u, Some chain, Some network =>
      if negb (truthyString (depositAmount p)) || (chain =? 0)%Z then (Ok tt, s)
      else if du_pendingDepo u then
        call (toast ToastWarning "A deposit is still processing.") s
      else
        (set (setIsLoading true);;
         finally
           (catching (tryTransaction tk u chain network (isApproved (hook s)))
              (fun error => call (toast ToastError (shown error))))
           (onHook (setIsLoading false))) s
  | _, _, _, _ => (Ok tt, s)
  end.

(** *** The hook as a transition system *)

Inductive action :=
| ExecuteTransaction
| IntervalFires (handle : nat)
| StatusSettles (poll : nat) (raw : outcome CheckTransactionStatusResponse)
| RefreshSettles (poll : nat)
| CountdownTick
| ResetTransactionState
| Unmount.

(** One handler runs to its end, then React renders and applies the
    effects.  Unmounting runs the cleanup alone. *)
Definition step (a : action) (s : session) : session :=
  match a with
  | ExecuteTransaction => effects (snd (executeTransaction s))
  | IntervalFires handle => effects (intervalFires handle s)
  | StatusSettles poll raw => effects (statusSettles p poll raw s)
  | RefreshSettles poll => effects (refreshSettles p poll s)
  | CountdownTick => effects (countdownTick s)
  | ResetTransactionState => effects (resetTransactionState s)
  | Unmount => cleanup s
  end.

Definition run (l : list action) (s : session) : session :=
  fold_left (fun s a => step a s) l s.

(** The first render of the hook. *)
Definition mount (w : world) (l : list Transaction) : session :=
  effects (idle w l).

(** A tick of the polling interval whose status request settles with
    [raw] before the next tick. *)
Definition pollOnce (handle : nat) (raw : outcome CheckTransactionStatusResponse)
    (s : session) : session :=
  let poll := nextPoll s in
  step (StatusSettles poll raw) (step (IntervalFires handle) s).

Definition pollAll (handle : nat) (raws : list (outcome CheckTransactionStatusResponse))
    (s : session) : session :=
  fold_left (fun s raw => pollOnce handle raw s) raws s.

End Submit.

End DepositTransaction.

(** ** Vocabulary of the deposit properties *)

(** The deposit tracker is polling for the hash [h] through the
    interval [handle], has made [n] attempts, none of them in flight, and
    the countdown has time left. *)
Record depositPolling (h : string) (handle n : nat) (s : DepositTransaction.session)
  : Prop := {
  dp_pending : DepositTransaction.isPending (DepositTransaction.hook s) = true;
  dp_hash : DepositTransaction.transactionHash (DepositTransaction.hook s) = Some h;
  dp_nonempty : truthyString h = true;
  dp_ref :
    DepositTransaction.pollingIntervalRef (DepositTransaction.hook s) = Some handle;
  dp_live : DepositTransaction.intervals s = [(handle, h)];
  dp_retry : DepositTransaction.retryCountRef (DepositTransaction.hook s) = n;
  dp_polling : DepositTransaction.pollingDeps s = Some (true, Some h);
  dp_countdown :
    DepositTransaction.countdownDeps s
    = Some (true, DepositTransaction.timeLeft (DepositTransaction.hook s));
  dp_time : (0 < DepositTransaction.timeLeft (DepositTransaction.hook s))%Z;
  dp_quiet : DepositTransaction.inflight s = [];
}.

(** The deposit tracker has stalled on the hash [h]: the hook is still
    pending, the countdown is at 0 and no interval is live. *)
Record stalled (h : string) (s : DepositTransaction.session) : Prop := {
  st_pending : DepositTransaction.isPending (DepositTransaction.hook s) = true;
  st_hash : DepositTransaction.transactionHash (DepositTransaction.hook s) = Some h;
  st_time : DepositTransaction.timeLeft (DepositTransaction.hook s) = 0%Z;
  st_intervals : DepositTransaction.intervals s = [];
  st_countdown : DepositTransaction.countdownDeps s = Some (true, 0%Z);
  st_polling : DepositTransaction.pollingDeps s = Some (true, Some h);
}.

(** The deposit tracker has stopped: the hook is not pending, no
    interval is live and the effects are up to date. *)
Record depositStopped (s : DepositTransaction.session) : Prop := {
  ds_pending : DepositTransaction.isPending (DepositTransaction.hook s) = false;
  ds_intervals : DepositTransaction.intervals s = [];
  ds_countdown :
    DepositTransaction.countdownDeps s
    = Some (false, DepositTransaction.timeLeft (DepositTransaction.hook s));
  ds_polling :
    DepositTransaction.pollingDeps s
    = Some (false, DepositTransaction.transactionHash (DepositTransaction.hook s));
}.

(** The status request that one attempt issues. *)
Definition statusRequest : event := Called "/dynamic/checkTransactionStatus".

(** An answer that flags an error, as the hook sees it: the backend
    said so, or the request failed. *)
Definition flagsError (raw : outcome DepositApi.CheckTransactionStatusResponse) : bool :=
  match raw with
  | Resolves r => DepositApi.cts_error r
  | Rejects _ => true
  end.

(** An answer confirms the hash [h] in the ledger [l]: it flags no
    error, its status is CONFIRMED and the ledger has an entry of the
    hash. *)
Definition confirms (raw : outcome DepositApi.CheckTransactionStatusResponse)
    (h : string) (l : list Transaction) : option Transaction :=
  match raw with
  | Resolves r =>
      if DepositApi.cts_error r then None
      else
        match DepositApi.cts_transaction_status r with
        | DepositApi.CONFIRMED_ => Ledger.findByHash h l
        | _ => None
        end
  | Rejects _ => None
  end.

(** The invocations of the completion callback at one completion. *)
Definition depositCompletions (p : DepositTransaction.props) : list event :=
  if DepositTransaction.onTransactionComplete p then [Completed] else [].

(** What a confirmation adds to the trace for the entry [tx], up to
    the refresh of the balances. *)
Definition confirmation (tx : Transaction) : list event :=
  [UpdatedTransaction (id tx) CONFIRMED; Toasted ToastSuccess "Deposit Confirmed!";
   Confetti; Called "refreshUserData"; FetchedTokens].

Definition depositTimeout : event :=
  Toasted ToastError
    "Transaction confirmation timeout. Please check your wallet or try again.".

(** The approval that the deposit hook requests for a token. *)
Definition depositApproval (d : DepositTransaction.deps) (tk : Token)
  : TransactionService.ApproveTokenParams :=
  {| TransactionService.ap_tokenAddress := tk_address tk;
     TransactionService.ap_spenderAddress := DepositTransaction.spenderAddress d;
     TransactionService.ap_unlimited := None |}.

(** The error that the hook throws for a failed result of the service. *)
Definition errorOr (e : option Error) (msg : string) : Error :=
  match e with
  | Some e => e
  | None => newError msg
  end.

(** The deposit gets past the first test and the pre-flight check, for
    the token [tk], the user [u], the chain [chain] and the network name
    [network]. *)
Record accepted (p : DepositTransaction.props) (d : DepositTransaction.deps)
    (tk : Token) (u : DepositTransaction.DepositUser) (chain : Z) (network : string)
  : Prop := {
  ac_token : DepositTransaction.selectedToken p = Some tk;
  ac_user : DepositTransaction.user d = Some u;
  ac_chain : DepositTransaction.chainId d = Some chain;
  ac_chain_set : chain <> 0%Z;
  ac_network : DepositTransaction.networkName d = Some network;
  ac_amount : truthyString (DepositTransaction.depositAmount p) = true;
  ac_free : DepositTransaction.du_pendingDepo u = false;
}.

(** The deposit is a plain transfer: automatic deposits are off, or the
    token is one of the direct symbols, or the deposit type is direct. *)
Definition plainTransfer (p : DepositTransaction.props)
    (tk : Token) (u : DepositTransaction.DepositUser) : Prop :=
  DepositTransaction.isAutoDepositOn u = false
  \/ arrayIncludes UseDepositTransaction.directSymbols (symbol tk) = true
  \/ DepositTransaction.depositType p = DepositTransaction.direct.

(** The destination that the backend names for a chain, if it does. *)
Definition destinationOf (d : DepositTransaction.deps) (chain : Z) : option string :=
  match DepositTransaction.walletAgent d chain with
  | Resolves r => if resp_error r then None else Some (resp_data r)
  | Rejects _ => None
  end.

(** The contract call of an ERC-20 transfer of [units] of [tk] to [dest]. *)
Definition transferCall (tk : Token) (dest : string) (units : Z) : WriteContractRequest :=
  {| wc_address := tk_address tk;
     wc_abi := "function transfer(address to, uint256 amount) returns (bool)";
     wc_functionName := "transfer";
     wc_args := [ArgAddress dest; ArgBigInt units] |}.

(** The ledger record of a deposit of [tk] on [chain] with the hash [h]. *)
Definition depositRecord (p : DepositTransaction.props) (tk : Token) (chain : Z)
    (h : string) : NewTransaction :=
  {| nt_hash := h; nt_type := DEPOSIT;
     nt_amount := DepositTransaction.depositAmount p;
     nt_tokenSymbol := symbol tk; nt_network := Some (String_of chain);
     nt_fromToken := None; nt_toToken := None |}.

(** A wallet call of the trace is the ERC-20 transfer of the deposit to
    the destination that the backend named. *)
Definition isDepositTransfer `{Host} (p : DepositTransaction.props)
    (d : DepositTransaction.deps) (tk : Token) (chain : Z) (e : event) : Prop :=
  exists dest units,
    destinationOf d chain = Some dest
    /\ truthyString dest = true
    /\ parseUnits (DepositTransaction.depositAmount p) (decimals tk) = Resolves units
    /\ e = WroteContract (transferCall tk dest units).

(** The hook after a handler that changed nothing but [isLoading],
    which it left false. *)
Definition onlyLoadingCleared (s s' : DepositTransaction.session) : Prop :=
  DepositTransaction.hook s'
  = DepositTransaction.setIsLoading false (DepositTransaction.hook s)
  /\ DepositTransaction.transactions s' = DepositTransaction.transactions s
  /\ DepositTransaction.intervals s' = DepositTransaction.intervals s
  /\ DepositTransaction.nextHandle s' = DepositTransaction.nextHandle s
  /\ DepositTransaction.inflight s' = DepositTransaction.inflight s
  /\ DepositTransaction.countdownDeps s' = DepositTransaction.countdownDeps s
  /\ DepositTransaction.pollingDeps s' = DepositTransaction.pollingDeps s.

(** The hook after a deposit that was submitted with the hash [h]. *)
Definition submittedDeposit (p : DepositTransaction.props) (tk : Token) (chain : Z)
    (h : string) (s s' : DepositTransaction.session) : Prop :=
  truthyString h = true
  /\ DepositTransaction.hook s'
     = DepositTransaction.setIsLoading false
         (DepositTransaction.setTimeLeft 90
            (DepositTransaction.setIsPending true
               (DepositTransaction.setTransactionHash (Some h) (DepositTransaction.hook s))))
  /\ DepositTransaction.transactions s'
     = Ledger.addTransaction (depositRecord p tk chain h) (DepositTransaction.transactions s)
  /\ DepositTransaction.intervals s' = DepositTransaction.intervals s
  /\ DepositTransaction.nextHandle s' = DepositTransaction.nextHandle s
  /\ DepositTransaction.inflight s' = DepositTransaction.inflight s
  /\ DepositTransaction.countdownDeps s' = DepositTransaction.countdownDeps s
  /\ DepositTransaction.pollingDeps s' = DepositTransaction.pollingDeps s.

(** The result of [getDestinationWallet] for the way its request ended. *)
Definition destinationResult (o : outcome (ApiResponse string))
  : DepositApi.GetDestinationWalletResult :=
  match o with
  | Resolves r =>
      if resp_error r
      then {| DepositApi.dw_success := false; DepositApi.dw_walletAddress := None;
              DepositApi.dw_error :=
                Some (newError (orElse (Some (resp_message r))
                                  "Failed to get destination wallet")) |}
      else {| DepositApi.dw_success := true;
              DepositApi.dw_walletAddress := Some (resp_data r);
              DepositApi.dw_error := None |}
  | Rejects e => {| DepositApi.dw_success := false; DepositApi.dw_walletAddress := None;
                    DepositApi.dw_error := Some e |}
  end.

(** ** Concrete deposits *)

Module Examples4.

Definition depositor : DepositTransaction.DepositUser :=
  {| DepositTransaction.du_username := "alice";
     DepositTransaction.du_walletAddress := Some "0xuser";
     DepositTransaction.du_pendingDepo := false;
     DepositTransaction.du_autodepo := None |}.

(** The direct deposit of an amount of a token. *)
Definition depositOf (tk : Token) (amount : string) : DepositTransaction.props :=
  {| DepositTransaction.selectedToken := Some tk;
     DepositTransaction.depositAmount := amount;
     DepositTransaction.depositType := DepositTransaction.direct;
     DepositTransaction.dstSwapInfo := None;
     DepositTransaction.onTransactionComplete := true |}.

(** A wallet client that rejects every call. *)
Definition refusing : WalletClient :=
  {| writeContract := fun _ => Rejects (newError "User rejected the request");
     sendTransaction := fun _ => Rejects (newError "User rejected the request") |}.

(** The dependencies of the hook on chain 1, with a backend that names
    the destination "0xdest". *)
Definition depsWith (service : TransactionService.t) : DepositTransaction.deps :=
  {| DepositTransaction.user := Some depositor;
     DepositTransaction.chainId := Some 1%Z;
     DepositTransaction.networkName := Some "Ethereum";
     DepositTransaction.primaryWallet :=
       Some (Demo.wallet (Some (Demo.client (Some "0xhash"))));
     DepositTransaction.service := service;
     DepositTransaction.walletAgent := fun _ => Demo.answer "0xdest";
     DepositTransaction.allowanceAddress := None |}.

(** The hook after its first render, with an empty ledger. *)
Definition fresh : DepositTransaction.session :=
  DepositTransaction.mount (Demo.emptyWorld 0) [].

(** The deposit of 1 ETH submitted from the fresh hook: the wallet
    returns the hash "0xhash" and the tracker starts on the interval 1. *)
Definition started : DepositTransaction.session :=
  @DepositTransaction.step Examples.host (depositOf Examples2.nativeToken "1")
    (depsWith Demo.connected) DepositTransaction.ExecuteTransaction fresh.

End Examples4.

(** The sessions that the deposit hook can be in: the first render
    followed by any actions. *)
Definition depositReachable `{Host} (p : DepositTransaction.props)
    (d : DepositTransaction.deps) (s : DepositTransaction.session) : Prop :=
  exists w l acts,
    s = DepositTransaction.run p d acts (DepositTransaction.mount w l).

(** The timers of the deposit hook are in order: the two effects are up
    to date; at most one interval is live, and then the hook is pending
    with time left, the interval polls the hash of the hook and the ref
    holds its handle; the countdown is within its range. *)
Record depositTidy (s : DepositTransaction.session) : Prop := {
  dt_countdown :
    DepositTransaction.countdownDeps s
    = Some (DepositTransaction.isPending (DepositTransaction.hook s),
            DepositTransaction.timeLeft (DepositTransaction.hook s));
  dt_polling :
    DepositTransaction.pollingDeps s
    = Some (DepositTransaction.isPending (DepositTransaction.hook s),
            DepositTransaction.transactionHash (DepositTransaction.hook s));
  dt_timers :
    DepositTransaction.intervals s = []
    \/ (DepositTransaction.isPending (DepositTransaction.hook s) = true
        /\ (0 < DepositTransaction.timeLeft (DepositTransaction.hook s))%Z
        /\ exists handle h,
             DepositTransaction.intervals s = [(handle, h)]
             /\ DepositTransaction.transactionHash (DepositTransaction.hook s) = Some h
             /\ DepositTransaction.pollingIntervalRef (DepositTransaction.hook s)
                = Some handle);
  dt_time :
    (0 <= DepositTransaction.timeLeft (DepositTransaction.hook s) <= 90)%Z;
}.

(** The pending flag, the hash and the countdown of a hook. *)
Definition display (s : DepositTransaction.session) : bool * option string * Z :=
  (DepositTransaction.isPending (DepositTransaction.hook s),
   DepositTransaction.transactionHash (DepositTransaction.hook s),
   DepositTransaction.timeLeft (DepositTransaction.hook s)).

(** What every handler of the deposit hook keeps of the timers: the ref
    and the dependencies of the two effects stay; the intervals stay or
    the one of the ref is cleared; the hook ends not pending, or pending
    with the countdown at 90, or with the pending flag and the hash it had
    and the countdown where it was or one lower; and the countdown moves
    down by one, to 0, to 90, or not at all. *)
Definition timersKept (s s' : DepositTransaction.session) : Prop :=
  DepositTransaction.pollingIntervalRef (DepositTransaction.hook s')
  = DepositTransaction.pollingIntervalRef (DepositTransaction.hook s)
  /\ DepositTransaction.countdownDeps s' = DepositTransaction.countdownDeps s
  /\ DepositTransaction.pollingDeps s' = DepositTransaction.pollingDeps s
  /\ (DepositTransaction.intervals s' = DepositTransaction.intervals s
      \/ DepositTransaction.intervals s'
         = DepositTransaction.intervals (DepositTransaction.clearPolling s))
  /\ (DepositTransaction.isPending (DepositTransaction.hook s') = false
      \/ (DepositTransaction.isPending (DepositTransaction.hook s') = true
          /\ DepositTransaction.timeLeft (DepositTransaction.hook s') = 90%Z)
      \/ (DepositTransaction.isPending (DepositTransaction.hook s')
          = DepositTransaction.isPending (DepositTransaction.hook s)
          /\ DepositTransaction.transactionHash (DepositTransaction.hook s')
             = DepositTransaction.transactionHash (DepositTransaction.hook s)))
  /\ (DepositTransaction.timeLeft (DepositTransaction.hook s')
      = DepositTransaction.timeLeft (DepositTransaction.hook s)
      \/ DepositTransaction.timeLeft (DepositTransaction.hook s') = 0%Z
      \/ DepositTransaction.timeLeft (DepositTransaction.hook s') = 90%Z
      \/ ((0 < DepositTransaction.timeLeft (DepositTransaction.hook s))%Z
          /\ DepositTransaction.timeLeft (DepositTransaction.hook s')
             = (DepositTransaction.timeLeft (DepositTransaction.hook s) - 1)%Z)).

(** What the code of [executeTransaction] keeps at each of its steps:
    the timers, and the display unless it ends pending with the countdown
    at 90. *)
Definition untouchedTimers (s s' : DepositTransaction.session) : Prop :=
  DepositTransaction.pollingIntervalRef (DepositTransaction.hook s')
  = DepositTransaction.pollingIntervalRef (DepositTransaction.hook s)
  /\ DepositTransaction.countdownDeps s' = DepositTransaction.countdownDeps s
  /\ DepositTransaction.pollingDeps s' = DepositTransaction.pollingDeps s
  /\ DepositTransaction.intervals s' = DepositTransaction.intervals s
  /\ (display s' = display s
      \/ (DepositTransaction.isPending (DepositTransaction.hook s') = true
          /\ DepositTransaction.timeLeft (DepositTransaction.hook s') = 90%Z)).

(** A piece of handler code keeps a relation between the session it
    starts from and the one it ends in. *)
Definition keeps {A} (R : DepositTransaction.session -> DepositTransaction.session -> Prop)
    (m : DepositTransaction.handler A) : Prop :=
  forall s, R s (snd (m s)).

(** * Properties *)

(** Unfolding of the monad's operations. *)
Ltac js_unfold :=
  unfold getItemText in *;
  unfold tryCatch, mbind, js_bind, mret, js_ret, throw, await, emit, toast,
    dateNow, getItem, setItem, removeItem in *.

(** ** Approval and transfer *)

Module ApprovalFacts.
Import TransactionService.

Section WithHost.
Context `{Host}.

Lemma UNLIMITED_value : decimalValue UNLIMITED = Some (2 ^ 256 - 1)%Z.
Proof. vm_compute. reflexivity. Qed.

(** C9: [approveToken] called without [unlimited] asks the wallet for
    one [approve] of the spender whose amount is [2^256 - 1], the
    largest unsigned 256-bit value. *)
Theorem approveToken_default_requests_max_uint256
    (this : t) (c : WalletClient) (tokenAddress spenderAddress : string) (w : world) :
  clientOf this c ->
  exists amount,
    trace (snd (approveToken this (defaultApproval tokenAddress spenderAddress) w))
    = (trace w ++ [WroteContract {| wc_address := tokenAddress;
                                    wc_abi := "abiErc20";
                                    wc_functionName := "approve";
                                    wc_args := [ArgAddress spenderAddress; amount] |}])%list
    /\ amountValue amount = Some (2 ^ 256 - 1)%Z
    /\ amountValue amount = Some (Z.ones 256).
Proof.
  intros (pw & Hpw & Hc).
  exists (ArgString UNLIMITED). split; [| split].
  - unfold approveToken, defaultApproval, optionalWalletClient, callWriteContract.
    js_unfold. cbn [default ap_unlimited ap_tokenAddress ap_spenderAddress].
    rewrite Hpw, Hc.
    cbn. destruct (writeContract c _); reflexivity.
  - apply UNLIMITED_value.
  - cbn [amountValue]. rewrite UNLIMITED_value. reflexivity.
Qed.

Lemma orElse_hashless (o : outcome (option string)) :
  hashless o ->
  exists h, o = Resolves h /\ orElse h "tempHash" = "tempHash".
Proof.
  intros (h & -> & Hh). exists h. split; [reflexivity |].
  destruct h as [s |]; cbn in *; [| reflexivity].
  now rewrite Hh.
Qed.

Lemma approveToken_unavailable this ap w :
  walletUnavailable this -> amountAvailable ap ->
  fst (approveToken this ap w) = Ok placeholder.
Proof.
  intros Hw Ha. unfold approveToken, optionalWalletClient. js_unfold.
  destruct Ha as [-> | (z & Hz)].
  - destruct Hw as [-> | (pw & -> & ->)]; reflexivity.
  - rewrite Hz.
    destruct (default true (ap_unlimited ap));
      destruct Hw as [-> | (pw & -> & ->)]; reflexivity.
Qed.

Lemma approveToken_hashless this ap c w :
  clientOf this c -> (forall r, hashless (writeContract c r)) -> amountAvailable ap ->
  fst (approveToken this ap w) = Ok placeholder.
Proof.
  intros (pw & Hpw & Hc) Hh Ha.
  unfold approveToken, optionalWalletClient, callWriteContract. js_unfold.
  rewrite Hpw, Hc.
  destruct Ha as [-> | (z & Hz)]; [| rewrite Hz; destruct (default true _)]; cbn;
    match goal with
    | |- context [writeContract c ?r] =>
        destruct (orElse_hashless _ (Hh r)) as (h & -> & Hor)
    end; cbn; unfold placeholder; now rewrite Hor.
Qed.

Lemma executeTokenTransfer_unavailable this tp w :
  walletUnavailable this ->
  fst (executeTokenTransfer this tp w) = Ok placeholder.
Proof.
  intros Hw. unfold executeTokenTransfer, optionalWalletClient. js_unfold.
  destruct (default false (tt_isNative tp));
    destruct Hw as [-> | (pw & -> & ->)]; reflexivity.
Qed.

Lemma executeTokenTransfer_hashless this tp c w :
  clientOf this c ->
  (forall r, hashless (writeContract c r)) ->
  (forall r, hashless (sendTransaction c r)) ->
  unitsAvailable tp ->
  fst (executeTokenTransfer this tp w) = Ok placeholder.
Proof.
  intros (pw & Hpw & Hc) Hwc Hst (z & Hz).
  unfold executeTokenTransfer, optionalWalletClient, callWriteContract,
    callSendTransaction. js_unfold.
  rewrite Hpw, Hc.
  destruct (default false (tt_isNative tp)); cbn; rewrite Hz; cbn.
  - match goal with
    | |- context [sendTransaction c ?r] =>
        destruct (orElse_hashless _ (Hst r)) as (h & -> & Hor)
    end; cbn; unfold placeholder; now rewrite Hor.
  - match goal with
    | |- context [writeContract c ?r] =>
        destruct (orElse_hashless _ (Hwc r)) as (h & -> & Hor)
    end; cbn; unfold placeholder; now rewrite Hor.
Qed.

(** C10: when the wallet client is unavailable, or its [writeContract]
    and [sendTransaction] resolve without a hash, [approveToken] and
    [executeTokenTransfer] resolve with [success: true] and the hash
    ["tempHash"], not with an error. *)
Theorem missing_hash_yields_tempHash
    (this : t) (ap : ApproveTokenParams) (tp : ExecuteTokenTransferParams) (w : world) :
  withoutHash this tp ->
  amountAvailable ap ->
  fst (approveToken this ap w) = Ok placeholder
  /\ fst (executeTokenTransfer this tp w) = Ok placeholder.
Proof.
  intros [Hw | (c & Hc & Hwc & Hst & Hu)] Ha; split.
  - now apply approveToken_unavailable.
  - now apply executeTokenTransfer_unavailable.
  - now apply approveToken_hashless with c.
  - now apply executeTokenTransfer_hashless with c.
Qed.

End WithHost.

(** The default approval at a connected wallet. *)
Lemma approveToken_default_witness :
  clientOf Demo.connected (Demo.client (Some "0xhash"))
  /\ exists amount,
      trace (snd (@approveToken (Demo.host (Demo.backend "0")) Demo.connected
                    (defaultApproval "0xaaa" "0xspender") (Demo.emptyWorld 0)))
      = (trace (Demo.emptyWorld 0)
           ++ [WroteContract {| wc_address := "0xaaa";
                                wc_abi := "abiErc20";
                                wc_functionName := "approve";
                                wc_args := [ArgAddress "0xspender"; amount] |}])%list
      /\ amountValue amount = Some (2 ^ 256 - 1)%Z
      /\ amountValue amount = Some (Z.ones 256).
Proof.
  assert (Hc : clientOf Demo.connected (Demo.client (Some "0xhash"))).
  { eexists. split; reflexivity. }
  split; [exact Hc |].
  exact (@approveToken_default_requests_max_uint256 (Demo.host (Demo.backend "0"))
           Demo.connected _ "0xaaa" "0xspender" (Demo.emptyWorld 0) Hc).
Defined.

(** A wallet whose calls resolve with [undefined]. *)
Lemma missing_hash_witness :
  @withoutHash (Demo.host (Demo.backend "0")) Demo.silent (Demo.transferOf "1.5" false)
  /\ @amountAvailable (Demo.host (Demo.backend "0")) (defaultApproval "0xaaa" "0xspender")
  /\ fst (@approveToken (Demo.host (Demo.backend "0")) Demo.silent
            (defaultApproval "0xaaa" "0xspender") (Demo.emptyWorld 0)) = Ok placeholder
  /\ fst (@executeTokenTransfer (Demo.host (Demo.backend "0")) Demo.silent
            (Demo.transferOf "1.5" false) (Demo.emptyWorld 0)) = Ok placeholder.
Proof.
  assert (Hw : @withoutHash (Demo.host (Demo.backend "0")) Demo.silent
                 (Demo.transferOf "1.5" false)).
  { right. exists (Demo.client None). repeat split.
    - eexists. split; reflexivity.
    - intros r. exists None. split; reflexivity.
    - intros r. exists None. split; reflexivity.
    - eexists. vm_compute. reflexivity. }
  assert (Ha : @amountAvailable (Demo.host (Demo.backend "0"))
                 (defaultApproval "0xaaa" "0xspender")).
  { left. reflexivity. }
  split; [exact Hw | split; [exact Ha |]].
  exact (@missing_hash_yields_tempHash (Demo.host (Demo.backend "0")) Demo.silent
           (defaultApproval "0xaaa" "0xspender") (Demo.transferOf "1.5" false)
           (Demo.emptyWorld 0) Hw Ha).
Defined.

End ApprovalFacts.

(** ** Conversion cache *)

Module CacheFacts.
Import TransactionService.

Section WithHost.
Context `{Host}.

(** The cache read never throws. *)
Lemma getCachedConversion_returns key w :
  exists r w', getCachedConversion key w = (Ok r, w').
Proof.
  unfold getCachedConversion, isCacheExpired. js_unfold.
  destruct (localStorage w !! key) as [[s | c] |]; cbn; eauto.
  - destruct (truthyString s); cbn; eauto.
  - destruct (timestamp c) as [ts |]; cbn; eauto.
    destruct (ts =? 0)%Z; cbn; eauto.
    destruct (clock w - ts >? expirationTimeMs)%Z; cbn; eauto.
Qed.

Lemma getCachedConversion_stale key w c :
  localStorage w !! key = Some (Document c) ->
  lacksTimestamp c \/ olderThan120s (clock w) c ->
  getCachedConversion key w
  = (Ok None, withStorage (delete key (localStorage w)) w).
Proof.
  intros Hk Hs. unfold getCachedConversion, isCacheExpired. js_unfold.
  rewrite Hk. cbn.
  destruct Hs as [[-> | ->] | (ts & -> & Hts & Hage)]; cbn; try reflexivity.
  destruct (Z.eqb_spec ts 0); [contradiction |]. cbn.
  unfold expirationTimeMs.
  destruct (Z.gtb_spec (clock w - ts) (2 * 60 * 1000)); [reflexivity | lia].
Qed.

Lemma getCachedConversion_fresh key w c :
  localStorage w !! key = Some (Document c) ->
  atMost120sOld (clock w) c ->
  getCachedConversion key w = (Ok (Some c), w).
Proof.
  intros Hk (ts & Hts & Hnz & Hage).
  unfold getCachedConversion, isCacheExpired. js_unfold.
  rewrite Hk. cbn. rewrite Hts.
  destruct (Z.eqb_spec ts 0); [contradiction |]. cbn.
  unfold expirationTimeMs.
  destruct (Z.gtb_spec (clock w - ts) (2 * 60 * 1000)); [lia | reflexivity].
Qed.


(** [getTokenConversion] on a miss: the backend is queried. *)
Lemma getTokenConversion_miss_queries this p w w1 :
  truthyNumber (gc_amount p) = true ->
  getCachedConversion (cacheKeyOf p) w = (Ok None, w1) ->
  exists rest,
    trace (snd (getTokenConversion this p w))
    = (trace w1 ++ Fetched "/apiSwap/getConvert" (conversionQuery this p) :: rest)%list.
Proof.
  intros Ha Hc. unfold getTokenConversion. rewrite Ha. cbn [negb].
  fold (cacheKeyOf p). fold (conversionQuery this p).
  unfold tryCatch at 1, mbind at 1, js_bind at 1.
  rewrite Hc. unfold makeRequest, setCachedConversion. js_unfold. cbn.
  destruct (fetch ConversionData apiSwap_getConvert (conversionQuery this p))
    as [r | e]; cbn.
  - destruct (resp_error r); cbn.
    + destruct (includes _ _); cbn; rewrite <- ?app_assoc; cbn; eauto.
    + destruct (storageRefuses _ _ _); exists []; reflexivity.
  - destruct (includes _ _); cbn; rewrite <- ?app_assoc; cbn; eauto.
Qed.



(** C7: an entry that lacks a timestamp or is older than 120 seconds
    is not returned by [getCachedConversion]; it is removed by the
    read, and [getTokenConversion] queries the backend.  An entry at
    most 120 seconds old is returned, and the cache is left as it
    was. *)
Theorem expired_entry_is_evicted_and_refetched
    (this : t) (p : GetTokenConversionParams) (w : world) (c : CachedConversionData) :
  localStorage w !! cacheKeyOf p = Some (Document c) ->
  (lacksTimestamp c \/ olderThan120s (clock w) c ->
   getCachedConversion (cacheKeyOf p) w
   = (Ok None, withStorage (delete (cacheKeyOf p) (localStorage w)) w)
   /\ (truthyNumber (gc_amount p) = true ->
       exists rest,
         trace (snd (getTokenConversion this p w))
         = (trace w ++ Fetched "/apiSwap/getConvert" (conversionQuery this p)
              :: rest)%list))
  /\ (atMost120sOld (clock w) c ->
      getCachedConversion (cacheKeyOf p) w = (Ok (Some c), w)).
Proof.
  intros Hk. split.
  - intros Hs. pose proof (getCachedConversion_stale _ w c Hk Hs) as Hg.
    split; [exact Hg |]. intros Ha.
    exact (getTokenConversion_miss_queries this p w _ Ha Hg).
  - intros Hf. exact (getCachedConversion_fresh _ w c Hk Hf).
Qed.

End WithHost.


(** An entry stamped 1000 read at 121001 is evicted and refetched; the
    same entry read at 121000 is returned. *)
Lemma expiry_witness :
  localStorage (Examples.cachedAt (Some 1000%Z) 121001) !! cacheKeyOf (Examples.request 8)
  = Some (Document (Examples.entry (Some 1000%Z)))
  /\ olderThan120s 121001 (Examples.entry (Some 1000%Z))
  /\ fst (@getCachedConversion (cacheKeyOf (Examples.request 8))
            (Examples.cachedAt (Some 1000%Z) 121001)) = Ok None
  /\ atMost120sOld 121000 (Examples.entry (Some 1000%Z))
  /\ fst (@getCachedConversion (cacheKeyOf (Examples.request 8))
            (Examples.cachedAt (Some 1000%Z) 121000))
     = Ok (Some (Examples.entry (Some 1000%Z))).
Proof.
  assert (Hk : forall now,
             localStorage (Examples.cachedAt (Some 1000%Z) now)
               !! cacheKeyOf (Examples.request 8)
             = Some (Document (Examples.entry (Some 1000%Z)))).
  { intros now. vm_compute. reflexivity. }
  assert (Hold : olderThan120s 121001 (Examples.entry (Some 1000%Z))).
  { exists 1000%Z. repeat split; lia. }
  assert (Hnew : atMost120sOld 121000 (Examples.entry (Some 1000%Z))).
  { exists 1000%Z. repeat split; lia. }
  split; [apply Hk | split; [exact Hold | split; [| split; [exact Hnew |]]]].
  - rewrite (proj1 (proj1 (@expired_entry_is_evicted_and_refetched Examples.host
                             Demo.connected (Examples.request 8)
                             (Examples.cachedAt (Some 1000%Z) 121001) _ (Hk _))
                      (or_intror Hold))).
    reflexivity.
  - rewrite (proj2 (@expired_entry_is_evicted_and_refetched Examples.host
                      Demo.connected (Examples.request 8)
                      (Examples.cachedAt (Some 1000%Z) 121000) _ (Hk _)) Hnew).
    reflexivity.
Defined.

End CacheFacts.


(** ** The allowance check of the deposit hook *)

Module AllowanceFacts.
Import TransactionService UseDepositTransaction.

Section WithHost.
Context `{Host}.

Lemma checkAllowance_queries this params w :
  checkAllowance this params w
  = (let q := AllowanceBody (apiKey this) (ca_network params) (ca_tokenAddress params)
                (ca_ownerAddress params)
                (if truthyString (ca_username params) then Some (ca_username params)
                 else match localStorage w !! "username" with
                      | Some (Text s) => Some s
                      | _ => None
                      end)
                (ca_spenderAddress params) in
     (Ok {| hasAllowance := positiveAllowance q;
            allowanceAmount :=
              match fetch _ apiSwap_getAllowance q with
              | Resolves r => if resp_error r then "0" else allowance (resp_data r)
              | Rejects _ => "0"
              end |},
      withTrace (trace w ++ [Fetched "/apiSwap/getAllowance" q]) w)).
Proof.
  unfold checkAllowance, makeRequest, positiveAllowance. js_unfold. cbn.
  destruct (fetch AllowanceData apiSwap_getAllowance _) as [r | e]; cbn;
    [destruct (resp_error r) |]; reflexivity.
Qed.

(** C8, as the code has it: a token tagged native or with a symbol of
    the direct-transfer set is approved without a backend query, and so
    is any token while the user has no wallet address.  Otherwise one
    allowance query is posted, and the token is approved exactly when
    the backend answers without error with an allowance strictly greater
    than zero. *)
Theorem allowance_check_bypass_or_query
    (this : t) (env : option string) (tk : Token) (u : option User)
    (chainId : Z) (networkName : option string) (w : world) :
  (exempt tk = true \/ truthy (ownerOf u) = false ->
   checkAllowanceEffect this env (Some tk) u chainId networkName w = (Ok true, w))
  /\ (forall usr,
         exempt tk = false -> u = Some usr -> truthy (walletAddress usr) = true ->
         let q := allowanceQuery this env tk usr chainId networkName w in
         checkAllowanceEffect this env (Some tk) u chainId networkName w
         = (Ok (positiveAllowance q),
            withTrace (trace w ++ [Fetched "/apiSwap/getAllowance" q]) w)).
Proof.
  unfold exempt, ownerOf. split.
  - intros Hx. unfold checkAllowanceEffect.
    destruct u as [usr |]; [| reflexivity]. cbn in Hx.
    destruct (truthy (walletAddress usr)); cbn; [| reflexivity].
    destruct Hx as [Hx | Hx]; [| discriminate].
    destruct (taggedNative tk); cbn in *; [reflexivity |].
    now rewrite Hx.
  - intros usr Hx -> Hw. unfold checkAllowanceEffect.
    apply orb_false_elim in Hx as [Hn Hd].
    rewrite Hw, Hn, Hd. cbn [negb orb].
    unfold mbind at 1, js_bind at 1. rewrite checkAllowance_queries. reflexivity.
Qed.

End WithHost.

(** C8, as stated, fails: token A is neither native nor in the
    direct-transfer set, the backend would report the allowance "0", and
    yet for a user without a wallet address the effect approves it
    without posting a query. *)
Lemma approved_without_query_when_no_wallet :
  exempt Demo.tokenA = false
  /\ @positiveAllowance Examples.host
       (allowanceQuery Demo.connected None Demo.tokenA Examples2.guest 1 None
          (Demo.emptyWorld 0)) = false
  /\ @checkAllowanceEffect Examples.host Demo.connected None (Some Demo.tokenA)
       (Some Examples2.guest) 1 None (Demo.emptyWorld 0)
     = (Ok true, Demo.emptyWorld 0).
Proof. repeat split; vm_compute; reflexivity. Qed.

(** The three cases at concrete tokens: a native token, a direct
    stablecoin, and token A for a user with a wallet, against backends
    that report "0" and "25". *)
Lemma allowance_check_witness :
  fst (@checkAllowanceEffect Examples.host Demo.connected None
         (Some Examples2.nativeToken) (Some Examples2.member) 1 None (Demo.emptyWorld 0))
  = Ok true
  /\ @checkAllowanceEffect Examples.host Demo.connected None
       (Some Examples2.stableToken) (Some Examples2.member) 1 None (Demo.emptyWorld 0)
     = (Ok true, Demo.emptyWorld 0)
  /\ fst (@checkAllowanceEffect (Demo.host (Demo.backend "0")) Demo.connected None
            (Some Demo.tokenA) (Some Examples2.member) 1 None (Demo.emptyWorld 0))
     = Ok false
  /\ fst (@checkAllowanceEffect (Demo.host (Demo.backend "25")) Demo.connected None
            (Some Demo.tokenA) (Some Examples2.member) 1 None (Demo.emptyWorld 0))
     = Ok true.
Proof.
  split; [| split; [| split]].
  - rewrite (proj1 (@allowance_check_bypass_or_query Examples.host Demo.connected None
                      Examples2.nativeToken (Some Examples2.member) 1 None
                      (Demo.emptyWorld 0)) (or_introl eq_refl)).
    reflexivity.
  - exact (proj1 (@allowance_check_bypass_or_query Examples.host Demo.connected None
                    Examples2.stableToken (Some Examples2.member) 1 None
                    (Demo.emptyWorld 0)) (or_introl eq_refl)).
  - rewrite (proj2 (@allowance_check_bypass_or_query (Demo.host (Demo.backend "0"))
                      Demo.connected None Demo.tokenA (Some Examples2.member) 1 None
                      (Demo.emptyWorld 0)) Examples2.member eq_refl eq_refl eq_refl).
    vm_compute. reflexivity.
  - rewrite (proj2 (@allowance_check_bypass_or_query (Demo.host (Demo.backend "25"))
                      Demo.connected None Demo.tokenA (Some Examples2.member) 1 None
                      (Demo.emptyWorld 0)) Examples2.member eq_refl eq_refl eq_refl).
    vm_compute. reflexivity.
Defined.

End AllowanceFacts.


(** ** Validation of a swap *)

Module ValidationFacts.
Import UseSwapTransaction.

(** *** Comparisons of binary64 numbers *)

Lemma SFcompare_Eq_sym (a b : spec_float) :
  SFcompare a b = Some Eq -> SFcompare b a = Some Eq.
Proof.
  destruct a as [sa | sa | | sa ma ea], b as [sb | sb | | sb mb eb]; cbn;
    repeat match goal with
           | s : bool |- _ => destruct s
           end; cbn; try discriminate; try reflexivity.
  all: destruct (Z.compare_spec ea eb) as [-> | |]; try discriminate;
    rewrite Z.compare_refl;
    destruct (Pos.compare_cont Eq ma mb) eqn:Hm; try discriminate;
    apply Pos.compare_eq in Hm; subst; rewrite Pos.compare_cont_refl; reflexivity.
Qed.

(** Two numbers that are equal do not exceed each other. *)
Lemma sameNumber_not_exceeds (x y : float) : sameNumber x y -> gt x y = false.
Proof.
  unfold sameNumber, gt. rewrite FloatAxioms.eqb_spec, FloatAxioms.ltb_spec. unfold SFeqb, SFltb.
  destruct (SFcompare (Prim2SF x) (Prim2SF y)) as [[] |] eqn:Hc; try discriminate.
  intros _. now rewrite (SFcompare_Eq_sym _ _ Hc).
Qed.

(** A positive number is not below or equal to zero. *)
Lemma positive_not_le_zero (x : float) : positive x -> le x 0%float = false.
Proof.
  unfold positive, le. rewrite FloatAxioms.ltb_spec, FloatAxioms.leb_spec. unfold SFltb, SFleb.
  change (Prim2SF 0%float) with (S754_zero false).
  destruct (Prim2SF x) as [s | s | | s m e]; cbn; try discriminate.
  - destruct s; [discriminate | reflexivity].
  - destruct s; [discriminate | reflexivity].
Qed.

Section WithHost.
Context `{Host}.

(** C5, as the code has it: amounts are compared as the binary64
    numbers that [parseFloat] reads from the strings, not as decimal
    strings.  [validateSwap] accepts an amount that reads as the same
    number as the balance (the tokens being present and distinct, and the
    amount reading as a number greater than zero), rejects an amount that
    reads as a greater number than the balance, rejects equal token
    addresses whatever the amount, and rejects a missing token, an empty
    amount and an amount that reads as zero or as a negative number. *)
Theorem validateSwap_boundary (p : props) :
  (forall f t,
      fromToken p = Some f -> toToken p = Some t ->
      tk_address f <> tk_address t ->
      exchangeAmount p <> "" ->
      positive (parseFloat (exchangeAmount p)) ->
      sameNumber (parseFloat (exchangeAmount p)) (parseFloat (balance f)) ->
      validateSwap p = true)
  /\ (forall f,
         fromToken p = Some f ->
         exceeds (parseFloat (exchangeAmount p)) (parseFloat (balance f)) ->
         validateSwap p = false)
  /\ (forall f t,
         fromToken p = Some f -> toToken p = Some t ->
         tk_address f = tk_address t ->
         validateSwap p = false)
  /\ (fromToken p = None \/ toToken p = None -> validateSwap p = false)
  /\ (exchangeAmount p = "" \/ nonPositive (parseFloat (exchangeAmount p)) ->
      validateSwap p = false).
Proof.
  unfold validateSwap. repeat split.
  - intros f t -> -> Hne Hamt Hpos Hsame.
    unfold truthyString. destruct (String.eqb_spec (exchangeAmount p) ""); [contradiction |].
    rewrite (positive_not_le_zero _ Hpos), (sameNumber_not_exceeds _ _ Hsame).
    destruct (String.eqb_spec (tk_address f) (tk_address t)); [contradiction |].
    reflexivity.
  - intros f -> Hex. unfold exceeds in Hex. unfold gt. rewrite Hex.
    destruct (toToken p); [| reflexivity].
    destruct (negb _ || _); reflexivity.
  - intros f t -> -> Heq. rewrite Heq, String.eqb_refl.
    destruct (negb _ || _); [reflexivity |]. destruct (gt _ _); reflexivity.
  - intros [-> | ->]; [reflexivity |]. destruct (fromToken p); reflexivity.
  - intros Hbad. destruct (fromToken p); [| reflexivity].
    destruct (toToken p); [| reflexivity].
    destruct Hbad as [-> | Hnp]; [reflexivity |].
    unfold nonPositive in Hnp. unfold le. rewrite Hnp, orb_true_r. reflexivity.
Qed.

End WithHost.

(** Token A has the balance 50: the amounts 50 and 50.0 pass, 50.5
    fails, and 10 fails when both sides are token A. *)
Lemma validateSwap_witness :
  @validateSwap Examples.host (Examples2.swapOf "50") = true
  /\ @validateSwap Examples.host (Examples2.swapOf "50.0") = true
  /\ @validateSwap Examples.host (Examples2.swapOf "50.5") = false
  /\ @validateSwap Examples.host (Examples2.selfSwap "10") = false
  /\ @validateSwap Examples.host (Examples2.swapOf "0") = false.
Proof.
  split; [| split; [| split; [| split]]].
  - refine (proj1 (@validateSwap_boundary Examples.host (Examples2.swapOf "50"))
              Demo.tokenA Demo.tokenB eq_refl eq_refl _ _ _ _);
      first [discriminate | vm_compute; reflexivity].
  - refine (proj1 (@validateSwap_boundary Examples.host (Examples2.swapOf "50.0"))
              Demo.tokenA Demo.tokenB eq_refl eq_refl _ _ _ _);
      first [discriminate | vm_compute; reflexivity].
  - refine (proj1 (proj2 (@validateSwap_boundary Examples.host (Examples2.swapOf "50.5")))
              Demo.tokenA eq_refl _).
    vm_compute. reflexivity.
  - exact (proj1 (proj2 (proj2 (@validateSwap_boundary Examples.host
                                  (Examples2.selfSwap "10"))))
             Demo.tokenA Demo.tokenA eq_refl eq_refl eq_refl).
  - refine (proj2 (proj2 (proj2 (proj2
              (@validateSwap_boundary Examples.host (Examples2.swapOf "0"))))) _).
    right. vm_compute. reflexivity.
Defined.

(** C5, as stated, fails.  Token A has the balance 50.  The amount
    50.000000000000000001 exceeds it, and [parseFloat] reads both strings
    as the number 50: the amount is accepted.  The amount "abc" is read as
    [NaN], which is neither below or equal to zero nor above the balance:
    it is accepted too. *)
Lemma excess_below_precision_is_accepted :
  balance Demo.tokenA = "50"
  /\ decimalExceeds "50.000000000000000001" (balance Demo.tokenA) = true
  /\ @parseFloat Examples.host "50.000000000000000001" = 50%float
  /\ @parseFloat Examples.host (balance Demo.tokenA) = 50%float
  /\ @validateSwap Examples.host (Examples2.swapOf "50.000000000000000001") = true
  /\ PrimFloat.is_nan (@parseFloat Examples.host "abc") = true
  /\ @validateSwap Examples.host (Examples2.swapOf "abc") = true.
Proof. repeat split; vm_compute; reflexivity. Qed.

End ValidationFacts.


(** ** The orchestrating [executeSwap] *)

Module OrchestratorFacts.
Import UseSwapTransaction.

Section WithHost.
Context `{Host}.


End WithHost.


End OrchestratorFacts.


(** ** The confirmation tracker *)

Module TrackerFacts.
Import UseSwapTransaction.

Lemma count_app f t1 t2 : count f (t1 ++ t2) = count f t1 + count f t2.
Proof. unfold count. now rewrite List.filter_app, length_app. Qed.

Section WithHost.
Context `{Host}.
Variable p : props.
Variable d : deps.

(** The polling effect does nothing while its dependencies are the
    ones it last ran with. *)
Lemma pollingEffect_unchanged s :
  effectDeps s = Some (isPending (hook s), txHash (hook s)) ->
  pollingEffect s = s.
Proof.
  intros Hd. unfold pollingEffect. now rewrite bool_decide_eq_true_2.
Qed.

#[local] Arguments pollingEffect : simpl never.

(** When the pending flag has dropped, the polling effect runs the
    cleanup of the interval and starts none. *)
Lemma pollingEffect_stops s b h :
  isPending (hook s) = false ->
  effectDeps s = Some (b, h) ->
  (b, h) <> (false, txHash (hook s)) ->
  pollingEffect s = withEffectDeps (Some (false, txHash (hook s))) (clearPolling s).
Proof.
  intros Hp Hd Hne. unfold pollingEffect. rewrite Hp, Hd.
  rewrite bool_decide_eq_false_2 by congruence.
  unfold cleanup.
  replace (isPending (hook (clearPolling s))) with false; [reflexivity |].
  unfold clearPolling. now destruct (pollingIntervalRef (hook s)).
Qed.

Ltac effect_stops :=
  match goal with
  | |- context [pollingEffect ?x] =>
      rewrite (pollingEffect_stops x true _ eq_refl eq_refl) by (intros [=])
  end.

(** Discharge one application of the polling effect that has nothing to do. *)
Ltac effect_idle :=
  match goal with
  | |- context [pollingEffect ?x] =>
      rewrite (pollingEffect_unchanged x) by reflexivity
  end.

(** An attempt below the retry limit that finds no receipt leaves the
    tracker polling, with one more attempt made. *)
Lemma pollOnce_keeps_polling h handle n r s :
  polling h handle n s -> noReceipt r -> n < MAX_RETRIES ->
  polling h handle (S n) (pollOnce p d handle r s)
  /\ transactions (pollOnce p d handle r s) = transactions s
  /\ trace (outside (pollOnce p d handle r s))
     = (trace (outside s) ++ requests d h)%list.
Proof.
  intros [Hp Hh Hne Href Hlive Hretry Hdeps Hq] Hr Hn.
  destruct s as [hk out txs ivs nh infl np ed]. cbn in *. subst.
  destruct hk; cbn in *. subst.
  assert (Hlt : (MAX_RETRIES <=? retryCountRef0)%nat = false) by (apply Nat.leb_gt; lia).
  unfold pollOnce, step, intervalFires, pollTransactionReceipt, requests.
  cbn. rewrite Nat.eqb_refl. cbn.
  destruct (publicClient d); cbn.
  - effect_idle.
    unfold receiptSettles, lookupPoll. cbn. rewrite Nat.eqb_refl. cbn.
    unfold dropPoll. cbn. rewrite Nat.eqb_refl. cbn.
    destruct Hr as [-> | ->]; cbn; unfold checkRetryLimit, caught; rewrite Hlt;
      effect_idle; (split; [constructor; cbn; auto | split; reflexivity]).
  - unfold checkRetryLimit. rewrite Hlt. effect_idle.
    unfold receiptSettles, lookupPoll. cbn. effect_idle.
    split; [constructor; cbn; auto | split; [reflexivity | now rewrite app_nil_r]].
Qed.

(** The polling effect of a session without live interval whose pending
    flag has dropped. *)
Lemma stops_explicit hk out txs nh infl np h :
  isPending hk = false ->
  pollingEffect {| hook := hk; outside := out; transactions := txs; intervals := [];
                   nextHandle := nh; inflight := infl; nextPoll := np;
                   effectDeps := Some (true, h) |}
  = {| hook := hk; outside := out; transactions := txs; intervals := [];
       nextHandle := nh; inflight := infl; nextPoll := np;
       effectDeps := Some (false, txHash hk) |}.
Proof.
  intros Hp. unfold pollingEffect. cbn. rewrite Hp.
  rewrite bool_decide_eq_false_2 by (intros [=]).
  unfold cleanup, clearPolling, clearInterval. cbn.
  destruct (pollingIntervalRef hk); cbn; rewrite Hp; reflexivity.
Qed.

(** Flatten the nested updates of a session into one record. *)
Ltac flat :=
  cbv beta iota zeta delta
    [onHook log onOutside onTransactions withIntervals withInflight withEffectDeps
     withTrace hook outside transactions intervals nextHandle inflight nextPoll
     effectDeps trace localStorage clock
     setIsLoading setCheckSuccess setTransactionSuccess setSuccessPop setTxHash
     setIsPending setTimeLeft setCompleted setPollingIntervalRef setRetryCountRef
     isLoading checkSuccess transactionSuccess successPop txHash isPending timeLeft
     completedExchangeAmount completedReceivedAmount completedFromToken
     completedToToken pollingIntervalRef retryCountRef fst snd].

(** An attempt at the retry limit that finds no receipt stops the
    tracker: the interval is cleared, the ledger is not touched, one
    notification is shown and the completion callback is invoked. *)
Lemma pollOnce_gives_up h handle n r s :
  polling h handle n s -> noReceipt r -> MAX_RETRIES <= n ->
  stopped (pollOnce p d handle r s)
  /\ inflight (pollOnce p d handle r s) = []
  /\ transactions (pollOnce p d handle r s) = transactions s
  /\ trace (outside (pollOnce p d handle r s))
     = (trace (outside s) ++ requests d h
          ++ [Toasted ToastError (timeoutMessage d r)] ++ completions p)%list.
Proof.
  intros [Hp Hh Hne Href Hlive Hretry Hdeps Hq] Hr Hn.
  destruct s as [hk out txs ivs nh infl np ed]. cbn in *. subst.
  destruct hk; cbn in *. subst.
  assert (Hge : (MAX_RETRIES <=? retryCountRef0)%nat = true) by (apply Nat.leb_le; lia).
  unfold pollOnce, step, intervalFires, pollTransactionReceipt, requests,
    timeoutMessage, completions.
  cbn. rewrite Nat.eqb_refl. cbn.
  destruct (publicClient d); cbn.
  - flat. effect_idle.
    unfold receiptSettles, lookupPoll. cbn. rewrite Nat.eqb_refl. cbn.
    unfold dropPoll. cbn. rewrite Nat.eqb_refl. cbn.
    destruct Hr as [-> | ->]; cbn; unfold checkRetryLimit, caught; rewrite Hge;
      unfold giveUp, complete, clearPolling, clearInterval; cbn;
      rewrite Nat.eqb_refl; cbn;
      destruct (onTransactionComplete p); flat;
      (rewrite stops_explicit by reflexivity); cbn; rewrite <- ?app_assoc;
      (split; [constructor; reflexivity | repeat split; reflexivity]).
  - unfold checkRetryLimit. rewrite Hge.
    unfold giveUp, complete, clearPolling, clearInterval. cbn.
    rewrite Nat.eqb_refl. cbn.
    destruct (onTransactionComplete p); flat;
      (rewrite stops_explicit by reflexivity); cbn;
      unfold receiptSettles, lookupPoll; cbn; flat; effect_idle;
      rewrite <- ?app_assoc;
      (split; [constructor; reflexivity | repeat split; reflexivity]).
Qed.

(** Once the tracker has stopped, a tick of any interval does nothing:
    no further poll is made. *)
Lemma stopped_ignores_ticks s handle :
  stopped s -> step p d (IntervalFires handle) s = s.
Proof.
  intros [Hp Hi Hd]. unfold step, intervalFires. rewrite Hi. cbn.
  apply pollingEffect_unchanged. now rewrite Hd, Hp.
Qed.

Lemma stopped_ignores_all_ticks s handles :
  stopped s -> run p d (map IntervalFires handles) s = s.
Proof.
  intros Hs. induction handles as [| handle rest IH]; [reflexivity |].
  unfold run in *. cbn [map fold_left].
  now rewrite stopped_ignores_ticks.
Qed.

(** The receipt queries of [k] attempts. *)
Lemma pollAll_keeps_polling h handle rs : forall n s,
  polling h handle n s -> Forall noReceipt rs -> n + length rs <= MAX_RETRIES ->
  polling h handle (n + length rs) (pollAll p d handle rs s)
  /\ transactions (pollAll p d handle rs s) = transactions s
  /\ trace (outside (pollAll p d handle rs s))
     = (trace (outside s) ++ concat (repeat (requests d h) (length rs)))%list.
Proof.
  induction rs as [| r rest IH]; intros n s Hpol Hrs Hlen.
  - cbn. rewrite Nat.add_0_r, app_nil_r. auto.
  - inversion Hrs as [| r' rest' Hr Hrest]; subst. cbn [length] in *.
    destruct (pollOnce_keeps_polling h handle n r s Hpol Hr) as (Hpol' & Htx & Htr);
      [lia |].
    destruct (IH (S n) (pollOnce p d handle r s) Hpol' Hrest) as (Hpol'' & Htx' & Htr');
      [lia |].
    unfold pollAll in *. cbn [fold_left].
    replace (n + S (length rest)) with (S n + length rest) by lia.
    split; [exact Hpol'' | split].
    + now rewrite Htx'.
    + rewrite Htr', Htr. cbn [repeat concat]. now rewrite <- app_assoc.
Qed.

(** *** Timers in every reachable session *)

Ltac break_matches :=
  repeat match goal with
         | |- context [match ?x with _ => _ end] => destruct x eqn:?; cbn
         | |- context [if ?x then _ else _] => destruct x eqn:?; cbn
         end.

Ltac timers_kept :=
  intros s; destruct s as [hk out txs ivs nh infl np ed]; destruct hk; cbn;
  break_matches;
  (split; [reflexivity | split; [reflexivity |]]);
  intros i Hi; try exact Hi; try (apply List.filter_In in Hi; tauto).

Lemma intervalFires_keepsTimers handle : keepsTimers (intervalFires p d handle).
Proof.
  unfold intervalFires, pollTransactionReceipt, checkRetryLimit, giveUp, complete,
    clearPolling, clearInterval, log.
  timers_kept.
Qed.

Lemma receiptSettles_keepsTimers poll r : keepsTimers (receiptSettles p poll r).
Proof.
  unfold receiptSettles, lookupPoll, resumeWithReceipt, dropPoll, markTransaction,
    checkRetryLimit, caught, giveUp, complete, clearPolling, clearInterval, log.
  timers_kept.
Qed.

Lemma refreshSettles_keepsTimers poll : keepsTimers (refreshSettles p poll).
Proof.
  unfold refreshSettles, lookupPoll, dropPoll, complete, log.
  timers_kept.
Qed.

Lemma countdownTick_keepsTimers : keepsTimers countdownTick.
Proof. unfold countdownTick. timers_kept. Qed.

Lemma resetSwapState_keepsTimers : keepsTimers resetSwapState.
Proof. unfold resetSwapState, clearPolling, clearInterval. timers_kept. Qed.

Lemma executeSwap_keepsTimers : keepsTimers (fun s => snd (executeSwap p d s)).
Proof.
  intros s. destruct s as [hk out txs ivs nh infl np ed]; destruct hk.
  unfold executeSwap, trySwap, log.
  destruct (validateSwap p); cbn; [| repeat split; auto].
  destruct (truthyString (orElse _ "")); cbn; [| repeat split; auto].
  destruct (fromToken p); cbn; [| repeat split; auto].
  destruct (toToken p); cbn; [| repeat split; auto].
  destruct (TransactionService.executeSwap _ _ _) as [[r | e] w]; cbn;
    [| repeat split; auto].
  destruct (TransactionResult.success r && truthy (TransactionResult.txHash r)); cbn;
    [repeat split; auto |].
  destruct (TransactionResult.error r); cbn; [destruct (includes _ _); cbn |];
    repeat split; auto.
Qed.

Lemma clearPolling_owned s :
  (forall i, In i (intervals s) -> pollingIntervalRef (hook s) = Some (fst i)) ->
  intervals (clearPolling s) = [].
Proof.
  intros Hown. unfold clearPolling.
  destruct (pollingIntervalRef (hook s)) as [handle |] eqn:Href.
  - unfold clearInterval. cbn.
    destruct (List.filter _ (intervals s)) as [| i rest] eqn:Hf; [reflexivity |].
    assert (Hi : In i (List.filter (fun i => negb (Nat.eqb (fst i) handle)) (intervals s))).
    { rewrite Hf. now left. }
    apply List.filter_In in Hi as [Hin Hne].
    apply Hown in Hin. injection Hin as ->.
    now rewrite Nat.eqb_refl in Hne.
  - destruct (intervals s) as [| i rest]; [reflexivity |].
    specialize (Hown i (or_introl eq_refl)). discriminate.
Qed.

Lemma pollingEffect_owned s :
  (forall i, In i (intervals s) -> pollingIntervalRef (hook s) = Some (fst i)) ->
  effectDeps s <> None ->
  owned (pollingEffect s).
Proof.
  intros Hown Hed. unfold pollingEffect.
  destruct (bool_decide _); [now split |].
  destruct (effectDeps s) as [deps |]; [| contradiction].
  unfold cleanup.
  pose proof (clearPolling_owned s Hown) as Hnil.
  assert (Hhook : hook (clearPolling s) = hook s).
  { unfold clearPolling. now destruct (pollingIntervalRef (hook s)). }
  assert (Hnh : nextHandle (clearPolling s) = nextHandle s).
  { unfold clearPolling. now destruct (pollingIntervalRef (hook s)). }
  rewrite Hhook.
  destruct (isPending (hook s) && truthyString (txHash (hook s))); split; cbn;
    try discriminate.
  - rewrite Hnil. cbn. intros i [<- | []]. reflexivity.
  - rewrite Hnil. intros i [].
Qed.

Lemma keepsTimers_owned f s :
  keepsTimers f -> owned s -> owned (pollingEffect (f s)).
Proof.
  intros Hf [Hown Hed]. destruct (Hf s) as (Href & Hdeps & Hsub).
  apply pollingEffect_owned.
  - intros i Hi. rewrite Href. apply Hown, Hsub, Hi.
  - now rewrite Hdeps.
Qed.

Lemma step_owned a s : owned s -> owned (step p d a s).
Proof.
  intros Hs. destruct a; unfold step.
  - apply (keepsTimers_owned (fun s => snd (executeSwap p d s)));
      [apply executeSwap_keepsTimers | exact Hs].
  - apply keepsTimers_owned; [apply intervalFires_keepsTimers | exact Hs].
  - apply keepsTimers_owned; [apply receiptSettles_keepsTimers | exact Hs].
  - apply keepsTimers_owned; [apply refreshSettles_keepsTimers | exact Hs].
  - apply keepsTimers_owned; [apply countdownTick_keepsTimers | exact Hs].
  - apply keepsTimers_owned; [apply resetSwapState_keepsTimers | exact Hs].
  - destruct Hs as [Hown Hed]. unfold cleanup. split.
    + rewrite (clearPolling_owned s Hown). intros i [].
    + unfold clearPolling. now destruct (pollingIntervalRef (hook s)).
Qed.

(** In every reachable session the only live interval is the one in the
    ref. *)
Lemma reachable_owned s : reachable p d s -> owned s.
Proof.
  intros (w & l & acts & ->). unfold run.
  assert (Hm : owned (mount w l)).
  { unfold mount, idle, pollingEffect. cbn.
    rewrite bool_decide_eq_false_2 by discriminate. cbn.
    split; [intros i [] | discriminate]. }
  revert Hm. generalize (mount w l). induction acts as [| a rest IH]; intros s0 Hs0.
  - exact Hs0.
  - cbn [fold_left]. apply IH, step_owned, Hs0.
Qed.

(** *** Teardown *)

Lemma clearPolling_frame s :
  hook (clearPolling s) = hook s /\ outside (clearPolling s) = outside s
  /\ transactions (clearPolling s) = transactions s
  /\ inflight (clearPolling s) = inflight s
  /\ effectDeps (clearPolling s) = effectDeps s.
Proof. unfold clearPolling. destruct (pollingIntervalRef (hook s)); cbn; auto. Qed.

(** The polling effect touches neither the world, nor the ledger, nor
    the polls in flight. *)
Lemma pollingEffect_frame s :
  outside (pollingEffect s) = outside s
  /\ transactions (pollingEffect s) = transactions s
  /\ inflight (pollingEffect s) = inflight s.
Proof.
  unfold pollingEffect. destruct (bool_decide _); [auto |].
  unfold cleanup.
  destruct (clearPolling_frame s) as (Hh & Ho & Ht & Hi & He).
  destruct (effectDeps s); [rewrite Hh |];
    destruct (isPending (hook s) && truthyString (txHash (hook s))); cbn; auto.
Qed.

Lemma pollingEffect_settles s :
  isPending (hook s) = false -> intervals s = [] -> effectDeps s <> None ->
  stopped (pollingEffect s).
Proof.
  intros Hp Hi Hed. unfold pollingEffect.
  destruct (bool_decide _) eqn:Hb.
  - apply bool_decide_eq_true_1 in Hb. constructor; [exact Hp | exact Hi |].
    now rewrite Hb, Hp.
  - destruct (effectDeps s); [| contradiction].
    unfold cleanup.
    destruct (clearPolling_frame s) as (Hh & _).
    assert (Hnil : intervals (clearPolling s) = []).
    { apply clearPolling_owned. rewrite Hi. intros i []. }
    rewrite Hh, Hp. cbn. constructor; cbn; rewrite ?Hh; auto.
Qed.

(** [resetSwapState] stops the tracker of a reachable session and leaves
    the world, the ledger and the polls in flight as they are. *)
Lemma reset_stops s :
  owned s ->
  stopped (step p d ResetSwapState s)
  /\ outside (step p d ResetSwapState s) = outside s
  /\ transactions (step p d ResetSwapState s) = transactions s
  /\ inflight (step p d ResetSwapState s) = inflight s.
Proof.
  intros [Hown Hed]. unfold step.
  destruct (pollingEffect_frame (resetSwapState s)) as (Ho & Ht & Hi).
  destruct (resetSwapState_keepsTimers s) as (Href & Hdeps & _).
  assert (Hnil : intervals (resetSwapState s) = []).
  { unfold resetSwapState. apply clearPolling_owned. exact Hown. }
  assert (Hp : isPending (hook (resetSwapState s)) = false).
  { unfold resetSwapState.
    destruct (clearPolling_frame
                (onHook (fun x =>
                   setRetryCountRef 0
                     (setIsLoading false
                        (setCompleted "" "" None None
                           (setTimeLeft 0
                              (setIsPending false
                                 (setTxHash ""
                                    (setSuccessPop false
                                       (setTransactionSuccess false
                                          (setCheckSuccess false x))))))))) s))
      as (Hh & _).
    rewrite Hh. reflexivity. }
  split; [apply pollingEffect_settles; [exact Hp | exact Hnil | now rewrite Hdeps] |].
  rewrite Ho, Ht, Hi. unfold resetSwapState.
  match goal with
  | |- context [clearPolling ?x] =>
      destruct (clearPolling_frame x) as (_ & Ho' & Ht' & Hi' & _)
  end.
  rewrite Ho', Ht', Hi'. auto.
Qed.

(** What a poll in flight does to the ledger when its receipt query
    settles, in any session: nothing when there is no receipt; with a
    receipt, one update of the entry that has its hash, if there is one.
    It never adds an entry. *)
Lemma late_receipt_updates_ledger s poll h rc r :
  lookupPoll poll s = Some (AwaitingReceipt h rc) ->
  exists new,
    trace (outside (step p d (ReceiptSettles poll r) s))
    = (trace (outside s) ++ new)%list
    /\ count isAdd new = 0
    /\ (noReceipt r ->
        count isLedgerWrite new = 0
        /\ transactions (step p d (ReceiptSettles poll r) s) = transactions s)
    /\ (forall st,
           r = WithReceipt st ->
           match Ledger.findByHash h (transactions s) with
           | Some tx =>
               List.filter isLedgerWrite new = [UpdatedTransaction (id tx) (statusOf st)]
               /\ transactions (step p d (ReceiptSettles poll r) s)
                  = Ledger._updateTransaction (id tx) (statusOf st) (transactions s)
           | None =>
               count isLedgerWrite new = 0
               /\ transactions (step p d (ReceiptSettles poll r) s) = transactions s
           end).
Proof.
  intros Hl. unfold step.
  destruct (pollingEffect_frame (receiptSettles p poll r s)) as (-> & -> & _).
  unfold receiptSettles. rewrite Hl.
  assert (Hdrop : outside (dropPoll poll s) = outside s
                  /\ transactions (dropPoll poll s) = transactions s).
  { split; reflexivity. }
  destruct Hdrop as [Hdo Hdt].
  generalize dependent (dropPoll poll s). intros s0 Ho Ht.
  destruct s0 as [hk out txs ivs nh infl np ed]. cbn in Ho, Ht. subst out txs.
  unfold resumeWithReceipt, markTransaction, checkRetryLimit, caught, giveUp, complete,
    clearPolling, clearInterval, log, Ledger.findByHash.
  destruct r as [[] | |]; [cbn | cbn | |].
  - destruct (pollingIntervalRef hk); cbn;
      destruct (List.find _ (transactions s)) as [tx |] eqn:Hfind; cbn;
      rewrite <- ?app_assoc; eexists; (split; [reflexivity |]); cbn;
      (split; [reflexivity |]);
      (split; [intros [[=] | [=]] |]); intros st [= <-]; cbn; auto.
  - destruct (pollingIntervalRef hk); cbn;
      destruct (List.find _ (transactions s)) as [tx |] eqn:Hfind; cbn;
      destruct (onTransactionComplete p); cbn;
      rewrite <- ?app_assoc; eexists; (split; [reflexivity |]); cbn;
      (split; [reflexivity |]);
      (split; [intros [[=] | [=]] |]); intros st [= <-]; cbn; auto.
  - destruct (MAX_RETRIES <=? rc)%nat.
    + cbn. destruct (pollingIntervalRef hk); cbn; destruct (onTransactionComplete p); cbn;
        rewrite <- ?app_assoc; eexists; (split; [reflexivity |]); cbn;
        (split; [reflexivity |]); (split; [auto |]); intros st [=].
    + exists []. rewrite app_nil_r. cbn.
      split; [reflexivity | split; [reflexivity | split; [auto | intros st [=]]]].
  - destruct (MAX_RETRIES <=? rc)%nat.
    + cbn. destruct (pollingIntervalRef hk); cbn; destruct (onTransactionComplete p); cbn;
        rewrite <- ?app_assoc; eexists; (split; [reflexivity |]); cbn;
        (split; [reflexivity |]); (split; [auto |]); intros st [=].
    + exists []. rewrite app_nil_r. cbn.
      split; [reflexivity | split; [reflexivity | split; [auto | intros st [=]]]].
Qed.

(** *** Submission starts the tracker *)

Lemma executeSwap_succeeds s :
  SwapTransactionResult.success (fst (executeSwap p d s)) = true ->
  exists h f t,
    truthyString h = true /\ fromToken p = Some f /\ toToken p = Some t
    /\ fst (executeSwap p d s)
       = {| SwapTransactionResult.success := true;
            SwapTransactionResult.txHash := Some h;
            SwapTransactionResult.error := None |}
    /\ isPending (hook (snd (executeSwap p d s))) = true
    /\ txHash (hook (snd (executeSwap p d s))) = h
    /\ pollingIntervalRef (hook (snd (executeSwap p d s))) = pollingIntervalRef (hook s)
    /\ transactions (snd (executeSwap p d s))
       = Ledger.addTransaction (swapRecord p d h f t) (transactions s)
    /\ intervals (snd (executeSwap p d s)) = intervals s
    /\ nextHandle (snd (executeSwap p d s)) = nextHandle s
    /\ inflight (snd (executeSwap p d s)) = inflight s
    /\ effectDeps (snd (executeSwap p d s)) = effectDeps s.
Proof.
  unfold executeSwap, trySwap.
  destruct (validateSwap p); cbn [negb]; [| intros [=]].
  destruct (truthyString (orElse _ "")); cbn [negb]; [| intros [=]].
  destruct (fromToken p) as [f |]; [| intros [=]].
  destruct (toToken p) as [t |]; [| intros [=]].
  destruct (TransactionService.executeSwap _ _ _) as [[r | e] w]; [| intros [=]].
  destruct (TransactionResult.success r); cbn [andb];
    [| destruct (TransactionResult.error r) as [e |];
       [destruct (includes _ _) |]; intros [=]].
  destruct (TransactionResult.txHash r) as [h |] eqn:Hh; cbn [truthy];
    [| destruct (TransactionResult.error r) as [e |];
       [destruct (includes _ _) |]; intros [=]].
  destruct (truthyString h) eqn:Hne;
    [| destruct (TransactionResult.error r) as [e |];
       [destruct (includes _ _) |]; intros [=]].
  intros _. exists h, f, t. cbn. repeat split; auto.
Qed.




(** *** The retry limit *)



(** C2, as the code has it: the attempts are numbered from retry count
    0, and the limit is tested by the attempt whose retry count is 30.
    After 30 results without a receipt the tracker is still pending; when
    the 31st attempt finds no receipt either, the tracker times out at
    that attempt: [isPending] is false, the timeout notification is
    shown, the polling interval is cleared, and no further tick makes a
    poll.  Every attempt settles before the next tick. *)
Theorem retry_cap_reached_at_31st_attempt
    (h : string) (handle : nat) (s : session) (rs : list settled) (r31 : settled) :
  polling h handle 0 s ->
  length rs = MAX_RETRIES -> Forall noReceipt rs -> noReceipt r31 ->
  polling h handle MAX_RETRIES (pollAll p d handle rs s)
  /\ stopped (pollOnce p d handle r31 (pollAll p d handle rs s))
  /\ trace (outside (pollOnce p d handle r31 (pollAll p d handle rs s)))
     = (trace (outside s) ++ concat (repeat (requests d h) 31)
          ++ [Toasted ToastError (timeoutMessage d r31)] ++ completions p)%list
  /\ forall handles,
      run p d (map IntervalFires handles)
        (pollOnce p d handle r31 (pollAll p d handle rs s))
      = pollOnce p d handle r31 (pollAll p d handle rs s).
Proof.
  intros Hpol Hlen Hrs Hr.
  destruct (pollAll_keeps_polling h handle rs 0 s Hpol Hrs) as (Hpol30 & Htx & Htr);
    [cbn; lia |].
  cbn [Nat.add] in Hpol30. rewrite Hlen in Hpol30, Htr.
  destruct (pollOnce_gives_up h handle MAX_RETRIES r31 _ Hpol30 Hr (le_n _))
    as (Hstop & Hq & Htx' & Htr').
  split; [exact Hpol30 | split; [exact Hstop | split]].
  - rewrite Htr', Htr. change 31 with (MAX_RETRIES + 1).
    rewrite repeat_app, concat_app. cbn [repeat concat].
    rewrite app_nil_r, <- !app_assoc. reflexivity.
  - intros handles. now apply stopped_ignores_all_ticks.
Qed.


(** C1, as the code has it: in every reachable session,
    [resetSwapState] stops the tracker (not pending, polling interval
    cleared), so that no tick makes a further poll, and it leaves the
    polls in flight as they are.  A poll in flight whose receipt query
    settles afterwards never adds a ledger entry; it makes no ledger
    write when it settles without a receipt; when it settles with a
    receipt, it updates the status of the ledger entry that has its hash,
    if there is one. *)
Theorem teardown_stops_polling_but_not_late_updates (s : session) :
  reachable p d s ->
  stopped (step p d ResetSwapState s)
  /\ (forall handles,
         run p d (map IntervalFires handles) (step p d ResetSwapState s)
         = step p d ResetSwapState s)
  /\ inflight (step p d ResetSwapState s) = inflight s
  /\ forall poll h rc r,
      lookupPoll poll (step p d ResetSwapState s) = Some (AwaitingReceipt h rc) ->
      exists new,
        trace (outside (step p d (ReceiptSettles poll r) (step p d ResetSwapState s)))
        = (trace (outside (step p d ResetSwapState s)) ++ new)%list
        /\ count isAdd new = 0
        /\ (noReceipt r ->
            count isLedgerWrite new = 0
            /\ transactions (step p d (ReceiptSettles poll r) (step p d ResetSwapState s))
               = transactions (step p d ResetSwapState s))
        /\ (forall st,
               r = WithReceipt st ->
               match Ledger.findByHash h (transactions (step p d ResetSwapState s)) with
               | Some tx =>
                   List.filter isLedgerWrite new
                   = [UpdatedTransaction (id tx) (statusOf st)]
                   /\ transactions
                        (step p d (ReceiptSettles poll r) (step p d ResetSwapState s))
                      = Ledger._updateTransaction (id tx) (statusOf st)
                          (transactions (step p d ResetSwapState s))
               | None =>
                   count isLedgerWrite new = 0
                   /\ transactions
                        (step p d (ReceiptSettles poll r) (step p d ResetSwapState s))
                      = transactions (step p d ResetSwapState s)
               end).
Proof.
  intros Hreach. pose proof (reachable_owned s Hreach) as Hown.
  destruct (reset_stops s Hown) as (Hstop & Ho & Ht & Hi).
  split; [exact Hstop | split; [| split; [exact Hi |]]].
  - intros handles. now apply stopped_ignores_all_ticks.
  - intros poll h rc r Hl. now apply late_receipt_updates_ledger with rc.
Qed.

End WithHost.

Lemma started_polling : polling "0xhash" 1 0 Examples2.started.
Proof. constructor; vm_compute; reflexivity. Qed.


Lemma repeat_noReceipt r k : noReceipt r -> Forall noReceipt (repeat r k).
Proof.
  intros Hr. induction k as [| k IH]; cbn; constructor; assumption.
Qed.

(** C2, as stated, fails.  From the submitted swap, 30 attempts in a row
    find no receipt and the tracker is still pending.  (a) When the 31st
    attempt then finds a successful receipt, the tracker does not time
    out: no timeout notification is shown and the ledger entry becomes
    CONFIRMED.  (b) When the query of the 31st attempt has not settled by
    the next tick, a 32nd receipt query is issued. *)
Lemma thirty_misses_do_not_time_out :
  let s30 := @pollAll Examples.host (Examples2.swapOf "10") (Examples2.depsOf true) 1
               (repeat Threw 30) Examples2.started in
  let s31 := @pollOnce Examples.host (Examples2.swapOf "10") (Examples2.depsOf true) 1
               (WithReceipt StatusSuccess) s30 in
  let late := @run Examples.host (Examples2.swapOf "10") (Examples2.depsOf true)
                [IntervalFires 1; IntervalFires 1] s30 in
  isPending (hook s30) = true
  /\ count isTimeoutToast (trace (outside s30)) = 0
  /\ isPending (hook s31) = false
  /\ count isTimeoutToast (trace (outside s31)) = 0
  /\ map status (transactions s31) = [CONFIRMED]
  /\ count isRequest (trace (outside s30)) = 30
  /\ count isRequest (trace (outside late)) = 32.
Proof. repeat split; vm_compute; reflexivity. Qed.


(** The submitted swap, 30 thrown queries and a 31st without receipt. *)
Lemma retry_cap_witness :
  polling "0xhash" 1 0 Examples2.started
  /\ stopped (@pollOnce Examples.host (Examples2.swapOf "10") (Examples2.depsOf true) 1
                WithoutReceipt
                (@pollAll Examples.host (Examples2.swapOf "10") (Examples2.depsOf true) 1
                   (repeat Threw 30) Examples2.started))
  /\ count isRequest
       (trace (outside
          (@pollOnce Examples.host (Examples2.swapOf "10") (Examples2.depsOf true) 1
             WithoutReceipt
             (@pollAll Examples.host (Examples2.swapOf "10") (Examples2.depsOf true) 1
                (repeat Threw 30) Examples2.started)))) = 31.
Proof.
  assert (Hrs : Forall noReceipt (repeat Threw 30)).
  { apply repeat_noReceipt. right. reflexivity. }
  assert (Hr : noReceipt WithoutReceipt).
  { left. reflexivity. }
  destruct (@retry_cap_reached_at_31st_attempt Examples.host (Examples2.swapOf "10")
              (Examples2.depsOf true) "0xhash" 1 Examples2.started (repeat Threw 30)
              WithoutReceipt started_polling eq_refl Hrs Hr)
    as (_ & Hstop & Htr & _).
  split; [exact started_polling | split; [exact Hstop |]].
  rewrite Htr. vm_compute. reflexivity.
Defined.


(** C1, as stated, fails.  The swap is submitted, the first tick issues
    the receipt query of poll 0, and [resetSwapState] runs while the
    query is in flight: the tracker is stopped and the ledger holds the
    PENDING entry.  The query then settles with a successful receipt, and
    the poll calls [_updateTransaction]: the entry becomes CONFIRMED. *)
Lemma late_receipt_writes_after_teardown :
  let torn := @step Examples.host (Examples2.swapOf "10") (Examples2.depsOf true)
                ResetSwapState Examples2.inFlight in
  let late := @step Examples.host (Examples2.swapOf "10") (Examples2.depsOf true)
                (ReceiptSettles 0 (WithReceipt StatusSuccess)) torn in
  isPending (hook torn) = false
  /\ intervals torn = []
  /\ inflight torn = [(0, AwaitingReceipt "0xhash" 0)]
  /\ map status (transactions torn) = [PENDING]
  /\ List.filter isLedgerWrite (trace (outside late))
     = (List.filter isLedgerWrite (trace (outside torn))
          ++ [UpdatedTransaction 1 CONFIRMED])%list
  /\ map status (transactions late) = [CONFIRMED].
Proof. repeat split; vm_compute; reflexivity. Qed.

(** The same teardown, with the query settling by a throw: no write. *)
Lemma teardown_witness :
  @reachable Examples.host (Examples2.swapOf "10") (Examples2.depsOf true)
    Examples2.inFlight
  /\ stopped (@step Examples.host (Examples2.swapOf "10") (Examples2.depsOf true)
                ResetSwapState Examples2.inFlight)
  /\ transactions
       (@step Examples.host (Examples2.swapOf "10") (Examples2.depsOf true)
          (ReceiptSettles 0 Threw)
          (@step Examples.host (Examples2.swapOf "10") (Examples2.depsOf true)
             ResetSwapState Examples2.inFlight))
     = transactions
         (@step Examples.host (Examples2.swapOf "10") (Examples2.depsOf true)
            ResetSwapState Examples2.inFlight).
Proof.
  assert (Hreach : @reachable Examples.host (Examples2.swapOf "10")
                     (Examples2.depsOf true) Examples2.inFlight).
  { exists (Demo.emptyWorld 0), [], [ExecuteSwap; IntervalFires 1]. reflexivity. }
  destruct (@teardown_stops_polling_but_not_late_updates Examples.host
              (Examples2.swapOf "10") (Examples2.depsOf true) Examples2.inFlight Hreach)
    as (Hstop & _ & _ & Hlate).
  assert (Hl : @lookupPoll 0
                 (@step Examples.host (Examples2.swapOf "10") (Examples2.depsOf true)
                    ResetSwapState Examples2.inFlight)
               = Some (AwaitingReceipt "0xhash" 0)).
  { vm_compute. reflexivity. }
  destruct (Hlate 0 "0xhash" 0 Threw Hl) as (new & _ & _ & Hno & _).
  split; [exact Hreach | split; [exact Hstop |]].
  exact (proj2 (Hno (or_intror eq_refl))).
Defined.

End TrackerFacts.
(** * Further properties of the code *)

(** ** [TransactionService] *)

Module ServiceFacts.
Import TransactionService CacheMaintenance.

Lemma getCachedConversion_world key w r w1 :
  getCachedConversion key w = (r, w1) ->
  clock w1 = clock w /\ trace w1 = trace w.
Proof.
  unfold getCachedConversion, isCacheExpired, JSON_parse. js_unfold.
  destruct (localStorage w !! key) as [[s | c] |]; cbn.
  - destruct (truthyString s); cbn; intros [= <- <-]; auto.
  - destruct (timestamp c) as [ts |]; cbn; [| intros [= <- <-]; auto].
    destruct (ts =? 0)%Z; cbn; [intros [= <- <-]; auto |].
    destruct (clock w - ts >? expirationTimeMs)%Z; cbn; intros [= <- <-]; auto.
  - intros [= <- <-]; auto.
Qed.

Lemma forEach_removeItem (keys : list string) : forall w,
  exists w',
    forEach removeItem keys w = (Ok tt, w')
    /\ trace w' = trace w /\ clock w' = clock w
    /\ forall k, localStorage w' !! k
                 = if existsb (String.eqb k) keys then None else localStorage w !! k.
Proof.
  induction keys as [| key rest IH]; intros w.
  - exists w. cbn. auto.
  - destruct (IH (withStorage (delete key (localStorage w)) w))
      as (w' & Hrun & Htr & Hcl & Hlook).
    exists w'. cbn [forEach]. unfold mbind, js_bind, removeItem at 1.
    rewrite Hrun. split; [reflexivity |]. split; [exact Htr |]. split; [exact Hcl |].
    intros k. rewrite Hlook. cbn.
    destruct (String.eqb_spec k key) as [-> | Hne]; cbn.
    + destruct (existsb _ rest); [reflexivity | apply lookup_delete_eq].
    + destruct (existsb _ rest); [reflexivity |]. apply lookup_delete_ne. congruence.
Qed.

Lemma existsb_filter_keys (m : gmap string item) (k : string) :
  existsb (String.eqb k) (List.filter isConversionKey (map fst (map_to_list m)))
  = isConversionKey k && bool_decide (is_Some (m !! k)).
Proof.
  apply eq_true_iff_eq. rewrite existsb_exists, andb_true_iff, bool_decide_eq_true.
  split.
  - intros (x & Hin & Heq). apply String.eqb_eq in Heq. subst x.
    apply List.filter_In in Hin as [Hin Hc]. split; [exact Hc |].
    apply in_map_iff in Hin as ([k' v] & Hk & Hin). cbn in Hk. subst k'.
    apply list_elem_of_In, elem_of_map_to_list in Hin. eauto.
  - intros [Hc [v Hv]]. exists k. split; [| apply String.eqb_refl].
    apply List.filter_In. split; [| exact Hc].
    apply in_map_iff. exists (k, v). split; [reflexivity |].
    apply list_elem_of_In, elem_of_map_to_list, Hv.
Qed.

Lemma prefix_empty (s : string) : String.prefix "" s = true.
Proof. destruct s; reflexivity. Qed.

Lemma cacheKey_isConversionKey p : isConversionKey (cacheKeyOf p) = true.
Proof.
  unfold isConversionKey, cacheKeyOf, generateCacheKey, String.append. cbn.
  apply prefix_empty.
Qed.

(** X2: [clearConversionCache()] never throws and removes exactly the
    entries whose key starts with "token_conversion_": every other entry
    of [localStorage] is left as it is, and afterwards no request finds a
    cached quote.  [clearConversionCache(key)] removes that one key. *)
Theorem clearConversionCache_removes_exactly_the_quotes (w : world) :
  (exists w',
      clearConversionCache None w = (Ok tt, w')
      /\ trace w' = trace w /\ clock w' = clock w
      /\ (forall k, localStorage w' !! k
                    = if isConversionKey k then None else localStorage w !! k)
      /\ (forall p, getCachedConversion (cacheKeyOf p) w' = (Ok None, w')))
  /\ (forall key,
         truthyString key = true ->
         clearConversionCache (Some key) w
         = (Ok tt, withStorage (delete key (localStorage w)) w)).
Proof.
  split.
  - unfold clearConversionCache, storageKeys, tryCatch, mbind, js_bind. cbn [truthy].
    destruct (forEach_removeItem
                (List.filter isConversionKey (map fst (map_to_list (localStorage w)))) w)
      as (w' & Hrun & Htr & Hcl & Hlook).
    rewrite Hrun. exists w'.
    assert (Hk : forall k, localStorage w' !! k
                           = if isConversionKey k then None else localStorage w !! k).
    { intros k. rewrite Hlook, existsb_filter_keys.
      destruct (isConversionKey k); cbn; [| reflexivity].
      case_bool_decide as Hs; [reflexivity |].
      destruct (localStorage w !! k) eqn:Hl; [| reflexivity].
      exfalso. apply Hs. eauto. }
    repeat split; auto.
    intros p. unfold getCachedConversion. js_unfold.
    rewrite Hk, cacheKey_isConversionKey. reflexivity.
  - intros key Hkey. unfold clearConversionCache. js_unfold. cbn. now rewrite Hkey.
Qed.

Section WithHost.
Context `{Host}.

(** A read of the cache that finds nothing finds nothing again, at
    whatever time. *)
Lemma getCachedConversion_none_again key w w1 :
  getCachedConversion key w = (Ok None, w1) ->
  forall w2, localStorage w2 = localStorage w1 ->
  getCachedConversion key w2 = (Ok None, w2).
Proof.
  unfold getCachedConversion, isCacheExpired, JSON_parse. js_unfold.
  destruct (localStorage w !! key) as [[s | c] |] eqn:Hk; cbn.
  - destruct (truthyString s) eqn:Hs; cbn; intros [= <-] w2 Hl;
      rewrite Hl, Hk; cbn; rewrite Hs; reflexivity.
  - destruct (timestamp c) as [ts |] eqn:Hts; cbn.
    + destruct (ts =? 0)%Z eqn:Hz; cbn.
      * intros [= <-] w2 Hl. rewrite Hl. cbn. now rewrite lookup_delete_eq.
      * destruct (clock w - ts >? expirationTimeMs)%Z eqn:Hage; cbn; [| intros [=]].
        intros [= <-] w2 Hl. rewrite Hl. cbn. now rewrite lookup_delete_eq.
    + intros [= <-] w2 Hl. rewrite Hl. cbn. now rewrite lookup_delete_eq.
  - intros [= <-] w2 Hl. now rewrite Hl, Hk.
Qed.


(** X3: [getTokenConversion] never throws, and a quote that could not
    be obtained is not cached.  Without an amount (0 or NaN) it fails at
    once and touches nothing.  When the cache has no quote and the request
    is rejected or the backend flags an error, it returns that error,
    leaves [localStorage] as the cache read left it, shows a notification
    exactly when the message contains "not supported", and the next call
    finds the cache empty again. *)
Theorem failed_quote_is_not_cached
    (this : t) (p : GetTokenConversionParams) (w : world) :
  (truthyNumber (gc_amount p) = false ->
   getTokenConversion this p w
   = (Ok (conversionFailure (newError "Amount is required for conversion")), w))
  /\ (forall w1 e,
         truthyNumber (gc_amount p) = true ->
         getCachedConversion (cacheKeyOf p) w = (Ok None, w1) ->
         quoteError (fetch _ apiSwap_getConvert (conversionQuery this p)) = Some e ->
         getTokenConversion this p w
         = (Ok (conversionFailure e),
            withTrace (trace w1 ++ Fetched "/apiSwap/getConvert" (conversionQuery this p)
                         :: unsupportedNotice e) w1)
         /\ getCachedConversion (cacheKeyOf p) (snd (getTokenConversion this p w))
            = (Ok None, snd (getTokenConversion this p w))).
Proof.
  split.
  - intros Ha. unfold getTokenConversion. rewrite Ha. reflexivity.
  - intros w1 e Ha Hc He.
    assert (Hrun : getTokenConversion this p w
                   = (Ok (conversionFailure e),
                      withTrace (trace w1 ++ Fetched "/apiSwap/getConvert"
                                                (conversionQuery this p)
                                   :: unsupportedNotice e) w1)).
    { unfold getTokenConversion. rewrite Ha. cbn [negb].
      fold (cacheKeyOf p). fold (conversionQuery this p).
      unfold makeRequest, setCachedConversion, unsupportedNotice. js_unfold.
      rewrite Hc. cbn.
      destruct (fetch ConversionData apiSwap_getConvert (conversionQuery this p))
        as [r | e0]; cbn in *.
      - destruct (resp_error r); [| discriminate]. injection He as <-. cbn.
        destruct (includes _ _); cbn; rewrite <- ?app_assoc; reflexivity.
      - injection He as <-.
        destruct (includes _ _); cbn; rewrite <- ?app_assoc; reflexivity. }
    split; [exact Hrun |]. rewrite Hrun. cbn [snd].
    destruct (getCachedConversion_world _ _ _ _ Hc) as [Hclock _].
    apply (getCachedConversion_none_again _ _ _ Hc). reflexivity.
Qed.

(** With a wallet, [executeSwap] of the service returns a well-formed
    result and adds to the trace only its request and at most one
    transaction sent through the wallet. *)
Lemma executeSwap_outcome (this : t) (params : ExecuteSwapParams) (w : world) wallet :
  chosenWallet this params = Some wallet ->
  exists r sent,
    executeSwap this params w = (Ok r, withTrace (trace w ++ sent) w)
    /\ wellFormed r
    /\ count isLedgerWrite sent = 0.
Proof.
  intros Hw. unfold executeSwap. fold (chosenWallet this params). rewrite Hw.
  unfold makeRequest, callSendTransaction. js_unfold. cbn.
  assert (Hfail : forall e sent,
             count isLedgerWrite sent = 0 ->
             exists r sent',
               (Ok (failed e), withTrace (trace w ++ sent) w)
               = (Ok r, withTrace (trace w ++ sent') w)
               /\ wellFormed r /\ count isLedgerWrite sent' = 0).
  { intros e sent Hs. exists (failed e), sent.
    split; [reflexivity | split; [split; [easy | discriminate] | exact Hs]]. }
  destruct (fetch SwapTransactionData apiSwap_swap _) as [resp | e]; cbn;
    [| now apply Hfail].
  destruct (resp_error resp); cbn; [now apply Hfail |].
  destruct (resp_data resp) as [to data value | description]; cbn;
    [| now apply Hfail].
  destruct (getWalletClient wallet) as [[c |] | e]; cbn; [| now apply Hfail ..].
  destruct (BigInt (orElse value "0")) as [v | e]; cbn; [| now apply Hfail].
  match goal with
  | |- context [sendTransaction ?c ?q] => destruct (sendTransaction c q); cbn
  end; rewrite <- app_assoc; [| now apply Hfail].
  eexists _, _. split; [reflexivity |]. split; reflexivity.
Qed.

(** [executeSwap] of the service only appends to the trace. *)
Lemma executeSwap_extends (this : t) (params : ExecuteSwapParams) (w : world) :
  exists sent, snd (executeSwap this params w) = withTrace (trace w ++ sent) w.
Proof.
  destruct (chosenWallet this params) as [wallet |] eqn:Hw.
  - destruct (executeSwap_outcome this params w wallet Hw) as (r & sent & -> & _).
    now exists sent.
  - unfold executeSwap. fold (chosenWallet this params). rewrite Hw.
    exists []. cbn. rewrite app_nil_r. now destruct w.
Qed.

(** A transfer that is not said to be native is a call of [transfer]
    on the contract of the token. *)
Lemma executeTokenTransfer_erc20 (this : t) (tp : ExecuteTokenTransferParams) (w : world) :
  tt_isNative tp = None ->
  exists r calls,
    executeTokenTransfer this tp w = (Ok r, withTrace (trace w ++ calls) w)
    /\ wellFormed r
    /\ (calls = []
        \/ exists units,
             parseUnits (tt_amount tp) (default 6%Z (tt_decimals tp)) = Resolves units
             /\ calls = [WroteContract
                           {| wc_address := tt_tokenAddress tp;
                              wc_abi := "function transfer(address to, uint256 amount) returns (bool)";
                              wc_functionName := "transfer";
                              wc_args := [ArgAddress (tt_recipientAddress tp);
                                          ArgBigInt units] |}]).
Proof.
  intros Hn.
  assert (Hnil : withTrace (trace w ++ []) w = w).
  { rewrite app_nil_r. now destruct w. }
  unfold executeTokenTransfer, optionalWalletClient, callWriteContract. js_unfold.
  rewrite Hn. cbn.
  destruct (primaryWallet this) as [pw |]; cbn.
  2: { eexists _, []. rewrite Hnil. split; [reflexivity |]. split; [reflexivity | now left]. }
  destruct (getWalletClient pw) as [[c |] | e]; cbn.
  2: { eexists _, []. rewrite Hnil. split; [reflexivity |]. split; [reflexivity | now left]. }
  2: { eexists _, []. rewrite Hnil. split; [reflexivity |].
       split; [split; [easy | discriminate] | now left]. }
  destruct (parseUnits (tt_amount tp) (default 6%Z (tt_decimals tp))) as [units | e] eqn:Hu;
    cbn.
  2: { eexists _, []. rewrite Hnil. split; [reflexivity |].
       split; [split; [easy | discriminate] | now left]. }
  match goal with
  | |- context [writeContract ?c ?q] => destruct (writeContract c q); cbn
  end; eexists _, _; (split; [reflexivity |]);
    (split; [first [reflexivity | split; [easy | discriminate]] |]);
    right; exists units; split; reflexivity.
Qed.

(** X4: [executeSwap] of the service rejects only when no wallet is
    set.  With a wallet it always returns a well-formed result, posts one
    swap preparation, and asks the wallet to send at most one transaction:
    the one whose [to], [data] and [value] the backend prepared, from the
    caller's address.  Nothing is sent when the preparation fails, and a
    rejection by the wallet is returned as the error of the result. *)
Theorem swap_is_sent_only_as_prepared
    (this : t) (params : ExecuteSwapParams) (w : world) :
  match chosenWallet this params with
  | None =>
      executeSwap this params w = (Thrown (newError "Primary wallet is not set"), w)
  | Some wallet =>
      exists r sent,
        executeSwap this params w
        = (Ok r,
           withTrace (trace w ++ Fetched "/apiSwap/swap" (swapQuery this params) :: sent) w)
        /\ wellFormed r
        /\ (sent = [] /\ TransactionResult.success r = false
            \/ exists resp to data value c v,
                fetch _ apiSwap_swap (swapQuery this params) = Resolves resp
                /\ resp_error resp = false
                /\ resp_data resp = TxDetails to data value
                /\ getWalletClient wallet = Resolves (Some c)
                /\ BigInt (orElse value "0") = Resolves v
                /\ sent = [SentTransaction (forwarded params to data v)]
                /\ r = match sendTransaction c (forwarded params to data v) with
                       | Resolves h =>
                           {| TransactionResult.success := true;
                              TransactionResult.txHash := h;
                              TransactionResult.error := None |}
                       | Rejects e => failed e
                       end)
  end.
Proof.
  unfold executeSwap. fold (chosenWallet this params). fold (swapQuery this params).
  destruct (chosenWallet this params) as [wallet |]; [| reflexivity].
  unfold makeRequest, callSendTransaction. js_unfold. cbn.
  destruct (fetch SwapTransactionData apiSwap_swap (swapQuery this params))
    as [resp | e] eqn:Hf; cbn.
  2: { eexists _, []. split; [reflexivity |]. split; [cbn; split; [easy | discriminate] |].
       left. auto. }
  destruct (resp_error resp) eqn:He; cbn.
  { eexists _, []. split; [reflexivity |]. split; [cbn; split; [easy | discriminate] |].
    left. auto. }
  destruct (resp_data resp) as [to data value | description] eqn:Hd; cbn.
  2: { eexists _, []. split; [reflexivity |]. split; [cbn; split; [easy | discriminate] |].
       left. auto. }
  destruct (getWalletClient wallet) as [[c |] | e] eqn:Hc; cbn.
  2, 3: eexists _, []; (split; [reflexivity |]);
        (split; [cbn; split; [easy | discriminate] |]); left; auto.
  destruct (BigInt (orElse value "0")) as [v | e] eqn:Hv; cbn.
  2: { eexists _, []. split; [reflexivity |]. split; [cbn; split; [easy | discriminate] |].
       left. auto. }
  fold (forwarded params to data v).
  destruct (sendTransaction c (forwarded params to data v)) as [h | e] eqn:Hs; cbn.
  - eexists _, [SentTransaction (forwarded params to data v)].
    rewrite <- app_assoc. split; [reflexivity |]. split; [reflexivity |].
    right. exists resp, to, data, value, c, v. rewrite Hs. auto 10.
  - eexists _, [SentTransaction (forwarded params to data v)].
    rewrite <- app_assoc. split; [reflexivity |].
    split; [cbn; split; [easy | discriminate] |].
    right. exists resp, to, data, value, c, v. rewrite Hs. auto 10.
Qed.

(** X5: [checkAllowance] never throws and fails closed: it posts one
    allowance query, and when the request fails or the backend flags an
    error it reports no allowance and the amount "0"; otherwise it
    reports the amount of the backend, with [hasAllowance] exactly when
    that amount reads as a number greater than zero. *)
Theorem checkAllowance_fails_closed (this : t) (params : CheckAllowanceParams) (w : world) :
  exists res q,
    checkAllowance this params w
    = (Ok res, withTrace (trace w ++ [Fetched "/apiSwap/getAllowance" q]) w)
    /\ res = match fetch _ apiSwap_getAllowance q with
             | Resolves r =>
                 if resp_error r
                 then {| hasAllowance := false; allowanceAmount := "0" |}
                 else {| hasAllowance := gt (Number (allowance (resp_data r))) 0%float;
                         allowanceAmount := allowance (resp_data r) |}
             | Rejects _ => {| hasAllowance := false; allowanceAmount := "0" |}
             end.
Proof.
  rewrite AllowanceFacts.checkAllowance_queries. cbv zeta.
  eexists _, _. split; [reflexivity |].
  unfold positiveAllowance.
  destruct (fetch AllowanceData apiSwap_getAllowance _) as [r | e]; [| reflexivity].
  destruct (resp_error r); reflexivity.
Qed.

(** X6: [approveToken] and [executeTokenTransfer] never throw.  Their
    result is well formed, a success always carries a hash, and the
    wallet is called at most once. *)
Theorem wallet_results_are_well_formed
    (this : t) (ap : ApproveTokenParams) (tp : ExecuteTokenTransferParams) (w : world) :
  (exists r calls,
      approveToken this ap w = (Ok r, withTrace (trace w ++ calls) w)
      /\ wellFormed r
      /\ (TransactionResult.success r = true -> TransactionResult.txHash r <> None)
      /\ length calls <= 1 /\ forallb isWalletCall calls = true)
  /\ (exists r calls,
         executeTokenTransfer this tp w = (Ok r, withTrace (trace w ++ calls) w)
         /\ wellFormed r
         /\ (TransactionResult.success r = true -> TransactionResult.txHash r <> None)
         /\ length calls <= 1 /\ forallb isWalletCall calls = true).
Proof.
  assert (Hnil : withTrace (trace w ++ []) w = w).
  { rewrite app_nil_r. now destruct w. }
  assert (Hfin : forall (res : TransactionResult.t) (w' : world),
             wellFormed res ->
             (TransactionResult.success res = true -> TransactionResult.txHash res <> None) ->
             (w' = w \/ exists e, isWalletCall e = true
                                  /\ w' = withTrace (trace w ++ [e]) w) ->
             exists r calls,
               (Ok res, w') = (Ok r, withTrace (trace w ++ calls) w)
               /\ wellFormed r
               /\ (TransactionResult.success r = true -> TransactionResult.txHash r <> None)
               /\ length calls <= 1 /\ forallb isWalletCall calls = true).
  { intros res w' Hwf Hh [-> | (e & He & ->)].
    - exists res, []. rewrite Hnil. cbn. repeat split; auto.
    - exists res, [e]. cbn. rewrite He. repeat split; auto. }
  split.
  - unfold approveToken, optionalWalletClient, callWriteContract. js_unfold.
    destruct (default true (ap_unlimited ap)); cbn;
      [| destruct (ethersParseUnits "1000000" 18) as [z | e]; cbn];
      try (destruct (primaryWallet this) as [pw |]; cbn;
           [destruct (getWalletClient pw) as [[c |] | e0]; cbn |]);
      try match goal with
          | |- context [writeContract ?c ?q] => destruct (writeContract c q); cbn
          end;
      apply Hfin; cbn; auto; try discriminate; try (split; [easy | discriminate]);
      right; eexists; (split; [| reflexivity]); reflexivity.
  - unfold executeTokenTransfer, optionalWalletClient, callWriteContract,
      callSendTransaction. js_unfold.
    destruct (primaryWallet this) as [pw |]; cbn;
      [destruct (getWalletClient pw) as [[c |] | e]; cbn |];
      destruct (default false (tt_isNative tp)); cbn;
      try (destruct (parseUnits (tt_amount tp) _) as [z | e']; cbn);
      try match goal with
          | |- context [writeContract ?c ?q] => destruct (writeContract c q); cbn
          | |- context [sendTransaction ?c ?q] => destruct (sendTransaction c q); cbn
          end;
      apply Hfin; cbn; auto; try discriminate; try (split; [easy | discriminate]);
      right; eexists; (split; [| reflexivity]); reflexivity.
Qed.

End WithHost.


(** Clearing one key of a world that holds a quote removes that entry. *)
Lemma clear_one_key_witness :
  truthyString (cacheKeyOf (Examples.request 8)) = true
  /\ localStorage
       (snd (clearConversionCache (Some (cacheKeyOf (Examples.request 8)))
               (Examples.cachedAt (Some 1000%Z) 2000)))
     !! cacheKeyOf (Examples.request 8) = None.
Proof.
  assert (Hk : truthyString (cacheKeyOf (Examples.request 8)) = true) by reflexivity.
  split; [exact Hk |].
  rewrite (proj2 (clearConversionCache_removes_exactly_the_quotes
                    (Examples.cachedAt (Some 1000%Z) 2000)) _ Hk).
  vm_compute. reflexivity.
Defined.

(** An unreachable backend: the request for 8 A fails and nothing is cached. *)
Lemma failed_quote_witness :
  truthyNumber 8 = true
  /\ localStorage
       (snd (@getTokenConversion Examples3.offlineHost Demo.connected (Examples.request 8)
               (Demo.emptyWorld 1000)))
     = localStorage (Demo.emptyWorld 1000).
Proof.
  assert (Ha : truthyNumber 8 = true) by reflexivity.
  split; [exact Ha |].
  rewrite (proj1 (proj2 (@failed_quote_is_not_cached Examples3.offlineHost Demo.connected
                           (Examples.request 8) (Demo.emptyWorld 1000))
                    (Demo.emptyWorld 1000) (newError "Failed to fetch")
                    Ha eq_refl eq_refl)).
  reflexivity.
Defined.

End ServiceFacts.

(** ** [useSwapTransaction] *)

Module HookFacts.
Import UseSwapTransaction.

#[local] Arguments pollingEffect : simpl never.

Ltac flat :=
  cbv beta iota zeta delta
    [onHook log onOutside onTransactions withIntervals withInflight withEffectDeps
     withTrace hook outside transactions intervals nextHandle inflight nextPoll
     effectDeps trace localStorage clock
     setIsLoading setCheckSuccess setTransactionSuccess setSuccessPop setTxHash
     setIsPending setTimeLeft setCompleted setPollingIntervalRef setRetryCountRef
     isLoading checkSuccess transactionSuccess successPop txHash isPending timeLeft
     completedExchangeAmount completedReceivedAmount completedFromToken
     completedToToken pollingIntervalRef retryCountRef fst snd].

Ltac effect_idle :=
  match goal with
  | |- context [pollingEffect ?x] =>
      rewrite (TrackerFacts.pollingEffect_unchanged x) by reflexivity
  end.

Section WithHost.
Context `{Host}.
Variable p : props.
Variable d : deps.

(** X7: with a public client, a poll that finds a receipt ends the
    tracking whatever the number of attempts made: the interval is
    cleared and the entry of the hash takes the status of the receipt.  On
    success the flags of success are set, the balances are refreshed, and
    the completion callback runs only when the refresh has settled; on a
    revert the callback runs at once and no flag of success is set. *)
Theorem receipt_ends_polling
    (h : string) (handle n : nat) (st : receiptStatus) (s : session) :
  polling h handle n s ->
  publicClient d = true ->
  stopped (pollOnce p d handle (WithReceipt st) s)
  /\ transactions (pollOnce p d handle (WithReceipt st) s)
     = ledgerAfter h st (transactions s)
  /\ match st with
     | StatusSuccess =>
         transactionSuccess (hook (pollOnce p d handle (WithReceipt st) s)) = true
         /\ checkSuccess (hook (pollOnce p d handle (WithReceipt st) s)) = true
         /\ successPop (hook (pollOnce p d handle (WithReceipt st) s)) = true
         /\ inflight (pollOnce p d handle (WithReceipt st) s)
            = [(nextPoll s, AwaitingRefresh)]
         /\ trace (outside (pollOnce p d handle (WithReceipt st) s))
            = (trace (outside s) ++ [RequestedReceipt h]
                 ++ ledgerUpdates h st (transactions s)
                 ++ [Toasted ToastSuccess "Swap Confirmed!"; Confetti; FetchedTokens])%list
         /\ inflight (step p d (RefreshSettles (nextPoll s))
                        (pollOnce p d handle (WithReceipt st) s)) = []
         /\ trace (outside (step p d (RefreshSettles (nextPoll s))
                              (pollOnce p d handle (WithReceipt st) s)))
            = (trace (outside (pollOnce p d handle (WithReceipt st) s))
                 ++ completions p)%list
     | StatusReverted =>
         transactionSuccess (hook (pollOnce p d handle (WithReceipt st) s))
         = transactionSuccess (hook s)
         /\ inflight (pollOnce p d handle (WithReceipt st) s) = []
         /\ trace (outside (pollOnce p d handle (WithReceipt st) s))
            = (trace (outside s) ++ [RequestedReceipt h]
                 ++ ledgerUpdates h st (transactions s)
                 ++ [Toasted ToastError
                       "Swap transaction reverted on-chain. Please try again."]
                 ++ completions p)%list
     end.
Proof.
  intros [Hp Hh Hne Href Hlive Hretry Hdeps Hq] Hc.
  destruct s as [hk out txs ivs nh infl np ed]. cbn in *. subst.
  destruct hk; cbn in *. subst.
  unfold pollOnce, step, intervalFires, pollTransactionReceipt, completions,
    ledgerAfter, ledgerUpdates, Ledger.findByHash.
  cbn. rewrite Nat.eqb_refl, Hc. cbn. flat. effect_idle.
  unfold receiptSettles, lookupPoll. cbn. rewrite Nat.eqb_refl. cbn.
  unfold dropPoll. cbn. rewrite Nat.eqb_refl. cbn.
  unfold clearPolling, clearInterval, markTransaction. cbn. rewrite Nat.eqb_refl. cbn.
  destruct st; cbn.
  - destruct (List.find _ txs) as [tx |]; flat;
      (rewrite TrackerFacts.stops_explicit by reflexivity); cbn;
      (split; [constructor; reflexivity |]); (split; [reflexivity |]);
      do 3 (split; [reflexivity |]); (split; [reflexivity |]);
      rewrite <- ?app_assoc; (split; [reflexivity |]);
      unfold refreshSettles, lookupPoll, dropPoll, complete; cbn;
      rewrite Nat.eqb_refl; cbn;
      destruct (onTransactionComplete p); flat; effect_idle; cbn;
      rewrite ?app_nil_r, <- ?app_assoc; split; reflexivity.
  - destruct (List.find _ txs) as [tx |]; unfold complete;
      destruct (onTransactionComplete p); flat;
      (rewrite TrackerFacts.stops_explicit by reflexivity); cbn;
      rewrite <- ?app_assoc;
      (split; [constructor; reflexivity |]); repeat split; reflexivity.
Qed.

(** One tick of the countdown while the tracker polls. *)
Lemma countdown_tick h handle n s :
  polling h handle n s ->
  polling h handle n (step p d CountdownTick s)
  /\ timeLeft (hook (step p d CountdownTick s))
     = (if (0 <? timeLeft (hook s))%Z then timeLeft (hook s) - 1 else timeLeft (hook s))%Z
  /\ outside (step p d CountdownTick s) = outside s
  /\ transactions (step p d CountdownTick s) = transactions s.
Proof.
  intros [Hp Hh Hne Href Hlive Hretry Hdeps Hq].
  destruct s as [hk out txs ivs nh infl np ed]. cbn in *. subst.
  destruct hk; cbn in *. subst.
  unfold step, countdownTick. cbn.
  destruct (0 <? timeLeft0)%Z eqn:Ht; flat; rewrite ?Ht; effect_idle;
    (split; [constructor; (exact Hne || reflexivity) | repeat split; reflexivity]).
Qed.

(** X8: the countdown is display only.  While the tracker polls, any
    number of countdown ticks leaves it polling the same hash on the same
    interval with the same retry count, notifies nothing and writes
    nothing; [timeLeft] goes down by one per tick and stops at 0. *)
Theorem countdown_never_stops_polling (h : string) (handle n k : nat) : forall s : session,
  polling h handle n s ->
  (0 <= timeLeft (hook s))%Z ->
  polling h handle n (run p d (repeat CountdownTick k) s)
  /\ timeLeft (hook (run p d (repeat CountdownTick k) s))
     = Z.max 0 (timeLeft (hook s) - Z.of_nat k)
  /\ outside (run p d (repeat CountdownTick k) s) = outside s
  /\ transactions (run p d (repeat CountdownTick k) s) = transactions s.
Proof.
  induction k as [| k IH]; intros s Hpol Ht.
  - cbn. split; [exact Hpol |]. split; [lia | auto].
  - destruct (countdown_tick h handle n s Hpol) as (Hpol1 & Ht1 & Ho1 & Htx1).
    assert (Hge : (0 <= timeLeft (hook (step p d CountdownTick s)))%Z).
    { rewrite Ht1. destruct (Z.ltb_spec 0 (timeLeft (hook s))); lia. }
    destruct (IH _ Hpol1 Hge) as (Hpol2 & Ht2 & Ho2 & Htx2).
    unfold run in *. cbn [repeat fold_left].
    split; [exact Hpol2 |]. split; [| split; congruence].
    rewrite Ht2, Ht1. destruct (Z.ltb_spec 0 (timeLeft (hook s))); lia.
Qed.

Lemma orElse_truthy a b : truthyString b = true -> truthyString (orElse a b) = true.
Proof.
  intros Hb. unfold orElse. destruct a as [x |]; [| exact Hb].
  destruct (truthyString x) eqn:Hx; [exact Hx | exact Hb].
Qed.


(** *** What holds in every reachable session *)

Ltac break_matches :=
  repeat match goal with
         | |- context [match ?x with _ => _ end] => destruct x eqn:?; cbn
         | |- context [if ?x then _ else _] => destruct x eqn:?; cbn
         end.

Ltac quiet_trace :=
  eexists; first [reflexivity
                 | rewrite <- ?app_assoc; reflexivity
                 | symmetry; apply app_nil_r].

Ltac is_quiet :=
  intros s; destruct s as [hk out txs ivs nh infl np ed]; destruct hk; cbn;
  break_matches;
  (split; [reflexivity |]); (split; [reflexivity |]);
  (split; [first [left; reflexivity | right; reflexivity] |]);
  (split; [quiet_trace |]);
  (split; [first [left; reflexivity | right; eexists _, _; reflexivity] |]);
  (split; [first [intros Hx; split; [exact Hx | reflexivity] | intros Hx; discriminate Hx] |]);
  first [left; reflexivity | right; left; reflexivity
        | right; right; split; [lia | reflexivity]].

Lemma intervalFires_quiet handle : quiet (intervalFires p d handle).
Proof.
  unfold quiet, intervalFires, pollTransactionReceipt, checkRetryLimit, giveUp, complete,
    clearPolling, clearInterval, log.
  is_quiet.
Qed.

Lemma receiptSettles_quiet poll r : quiet (receiptSettles p poll r).
Proof.
  unfold quiet, receiptSettles, lookupPoll, resumeWithReceipt, dropPoll, markTransaction,
    checkRetryLimit, caught, giveUp, complete, clearPolling, clearInterval, log.
  is_quiet.
Qed.

Lemma refreshSettles_quiet poll : quiet (refreshSettles p poll).
Proof.
  unfold quiet, refreshSettles, lookupPoll, dropPoll, complete, log.
  is_quiet.
Qed.

Lemma countdownTick_quiet : quiet countdownTick.
Proof. unfold quiet, countdownTick, clearPolling, clearInterval. is_quiet. Qed.

Lemma resetSwapState_quiet : quiet resetSwapState.
Proof. unfold quiet, resetSwapState, clearPolling, clearInterval. is_quiet. Qed.

Lemma pollingEffect_display s :
  isPending (hook (pollingEffect s)) = isPending (hook s)
  /\ txHash (hook (pollingEffect s)) = txHash (hook s)
  /\ timeLeft (hook (pollingEffect s)) = timeLeft (hook s).
Proof.
  unfold pollingEffect. destruct (bool_decide _); [auto |].
  unfold cleanup.
  destruct (TrackerFacts.clearPolling_frame s) as (Hh & _).
  destruct (effectDeps s); [rewrite Hh |];
    destruct (isPending (hook s) && truthyString (txHash (hook s))); cbn;
    rewrite ?Hh; auto.
Qed.

Lemma update_keeps_hash i st l tx :
  In tx l -> exists tx', In tx' (Ledger._updateTransaction i st l) /\ hash tx' = hash tx.
Proof.
  intros Hin. unfold Ledger._updateTransaction.
  eexists. split; [apply in_map, Hin |]. cbn.
  destruct (Nat.eqb (id tx) i); reflexivity.
Qed.

(** The polling effect puts the timers in order. *)
Lemma effect_tidy s :
  (forall i, In i (intervals s) -> pollingIntervalRef (hook s) = Some (fst i)) ->
  effectDeps s <> None ->
  (effectDeps s = Some (isPending (hook s), txHash (hook s)) ->
   intervals s = []
   \/ (isPending (hook s) = true
       /\ exists handle, intervals s = [(handle, txHash (hook s))]
                         /\ pollingIntervalRef (hook s) = Some handle)) ->
  (0 <= timeLeft (hook s) <= 90)%Z ->
  recorded s ->
  tidy (pollingEffect s).
Proof.
  intros Hown Hed Hsame Ht Hrec.
  destruct (pollingEffect_display s) as (Hp & Hh & Htl).
  destruct (TrackerFacts.pollingEffect_frame s) as (Ho & Htx & _).
  assert (Hrec' : recorded (pollingEffect s)).
  { unfold recorded. rewrite Hp, Hh, Ho, Htx. exact Hrec. }
  constructor; [| | now rewrite Htl | exact Hrec'].
  - rewrite Hp, Hh. unfold pollingEffect. destruct (bool_decide _) eqn:Hb.
    + now apply bool_decide_eq_true_1 in Hb.
    + unfold cleanup.
      destruct (TrackerFacts.clearPolling_frame s) as (Hhk & _).
      destruct (effectDeps s); [rewrite Hhk |];
        destruct (isPending (hook s) && truthyString (txHash (hook s))); reflexivity.
  - rewrite Hp, Hh. unfold pollingEffect. destruct (bool_decide _) eqn:Hb.
    + apply bool_decide_eq_true_1 in Hb. auto.
    + destruct (effectDeps s) as [deps |]; [| contradiction].
      unfold cleanup.
      pose proof (TrackerFacts.clearPolling_owned s Hown) as Hnil.
      destruct (TrackerFacts.clearPolling_frame s) as (Hhk & _).
      rewrite Hhk.
      destruct (isPending (hook s) && truthyString (txHash (hook s))) eqn:Hstart; cbn.
      * right. apply andb_true_iff in Hstart as [Hpend _].
        split; [exact Hpend |]. rewrite Hnil. cbn. eauto.
      * left. exact Hnil.
Qed.

(** A handler that does not submit keeps the timers in order. *)
Lemma quiet_tidy f s : quiet f -> tidy s -> tidy (pollingEffect (f s)).
Proof.
  intros Hf [Hd Htm Ht Hrec].
  destruct (Hf s) as (Href & Hdeps & Hiv & (new & Htr) & Htx & Hpend & Htl).
  assert (Hown : forall i, In i (intervals s) -> pollingIntervalRef (hook s) = Some (fst i)).
  { destruct Htm as [-> | (_ & handle & -> & ->)]; [intros i [] |].
    intros i [<- | []]. reflexivity. }
  assert (Hnil : intervals (clearPolling s) = []).
  { apply TrackerFacts.clearPolling_owned, Hown. }
  apply effect_tidy.
  - rewrite Href. destruct Hiv as [-> | ->]; [exact Hown | rewrite Hnil; intros i []].
  - rewrite Hdeps, Hd. discriminate.
  - rewrite Hdeps, Hd. intros [= Hp Hh].
    destruct Hiv as [-> | ->]; [| left; exact Hnil].
    rewrite Href, <- Hp, <- Hh. exact Htm.
  - destruct Htl as [-> | [-> | [Hpos ->]]]; lia.
  - intros Hp. destruct (Hpend Hp) as [Hp0 Hh]. rewrite Hh.
    destruct (Hrec Hp0) as (Hne & (tx & Hin & Hhash) & (r & Hr & Hrh)).
    split; [exact Hne |]. split.
    + destruct Htx as [-> | (i & st & ->)]; [eauto |].
      destruct (update_keeps_hash i st _ tx Hin) as (tx' & Hin' & Hh').
      exists tx'. split; [exact Hin' | congruence].
    + exists r. split; [| exact Hrh]. rewrite Htr. apply in_or_app. now left.
Qed.

(** What a submission does to the trace and, when it fails, to the
    tracker. *)
Lemma executeSwap_frame s :
  (exists new, trace (outside (snd (executeSwap p d s))) = (trace (outside s) ++ new)%list)
  /\ (SwapTransactionResult.success (fst (executeSwap p d s)) = false ->
      sameTracker s (snd (executeSwap p d s)))
  /\ (SwapTransactionResult.success (fst (executeSwap p d s)) = true ->
      timeLeft (hook (snd (executeSwap p d s))) = 90%Z
      /\ exists r, In (AddedTransaction r) (trace (outside (snd (executeSwap p d s))))
                   /\ nt_hash r = txHash (hook (snd (executeSwap p d s)))).
Proof.
  assert (Hsame : forall x : session, sameTracker x x).
  { intros x. unfold sameTracker. repeat split; reflexivity. }
  destruct s as [hk out txs ivs nh infl np ed]; destruct hk.
  unfold executeSwap, trySwap, log.
  destruct (validateSwap p); cbn.
  2: { split; [exists []; now rewrite app_nil_r | split; [intros _; apply Hsame | intros [=]]]. }
  destruct (truthyString (orElse _ "")); cbn.
  2: { split; [eexists; reflexivity |].
       split; [intros _; unfold sameTracker; cbn; repeat split; reflexivity | intros [=]]. }
  destruct (fromToken p) as [f |]; cbn.
  2: { split; [eexists; reflexivity |].
       split; [intros _; unfold sameTracker; cbn; repeat split; reflexivity | intros [=]]. }
  destruct (toToken p) as [t |]; cbn.
  2: { split; [eexists; reflexivity |].
       split; [intros _; unfold sameTracker; cbn; repeat split; reflexivity | intros [=]]. }
  match goal with
  | |- context [TransactionService.executeSwap ?a ?b ?c] =>
      destruct (ServiceFacts.executeSwap_extends a b c) as [sent Hsent];
      destruct (TransactionService.executeSwap a b c) as [[r | e] w]
  end; cbn in Hsent; subst w; cbn.
  2: { rewrite <- app_assoc. split; [eexists; reflexivity |].
       split; [intros _; unfold sameTracker; cbn; repeat split; reflexivity | intros [=]]. }
  destruct (TransactionResult.success r && truthy (TransactionResult.txHash r)); cbn.
  - rewrite <- app_assoc. split; [eexists; reflexivity |].
    split; [intros [=] |]. intros _. split; [reflexivity |].
    eexists. split; [apply in_or_app; right; apply in_or_app; right; left; reflexivity |].
    reflexivity.
  - destruct (TransactionResult.error r) as [e |]; cbn;
      [destruct (includes _ _); cbn |];
      rewrite <- app_assoc; (split; [eexists; reflexivity |]);
      (split; [intros _; unfold sameTracker; cbn; repeat split; reflexivity | intros [=]]).
Qed.

Lemma executeSwap_tidy s : tidy s -> tidy (step p d ExecuteSwap s).
Proof.
  intros [Hd Htm Ht Hrec]. unfold step.
  destruct (executeSwap_frame s) as ((new & Htr) & Hfail & Hok).
  assert (Hown : forall i, In i (intervals s) -> pollingIntervalRef (hook s) = Some (fst i)).
  { destruct Htm as [-> | (_ & handle & -> & ->)]; [intros i [] |].
    intros i [<- | []]. reflexivity. }
  destruct (SwapTransactionResult.success (fst (executeSwap p d s))) eqn:Hs.
  - destruct (TrackerFacts.executeSwap_succeeds p d s Hs)
      as (h & f & t & Hne & Hf & Hto & Hr & Hpend & Hhash & Href & Htx & Hiv & Hnh
          & Hin & Hed).
    destruct (Hok eq_refl) as (Htl & r & Hrin & Hrh).
    apply effect_tidy.
    + rewrite Hiv, Href. exact Hown.
    + rewrite Hed, Hd. discriminate.
    + rewrite Hed, Hd, Hpend, Hhash, Hiv, Href. intros [= Hp Hh].
      rewrite <- Hh. destruct Htm as [Hnil | (_ & Hlive)]; [now left | right; auto].
    + rewrite Htl. lia.
    + intros _. rewrite Hhash. split; [exact Hne |]. split.
      * rewrite Htx. eexists. split; [apply in_or_app; right; left; reflexivity |].
        reflexivity.
      * exists r. split; [exact Hrin | congruence].
  - destruct (Hfail eq_refl) as (Hp & Hh & Htl & Href & _ & Hiv & _ & Hed & Htx).
    apply effect_tidy.
    + rewrite Hiv, Href. exact Hown.
    + rewrite Hed, Hd. discriminate.
    + rewrite Hed, Hp, Hh, Hiv, Href. intros _. exact Htm.
    + now rewrite Htl.
    + unfold recorded. rewrite Hp, Hh, Htx, Htr. intros Hpend.
      destruct (Hrec Hpend) as (Hne & Hledger & (r & Hr & Hrh)).
      split; [exact Hne |]. split; [exact Hledger |].
      exists r. split; [apply in_or_app; now left | exact Hrh].
Qed.

Lemma cleanup_tidy s : tidy s -> tidy (cleanup s).
Proof.
  intros [Hd Htm Ht Hrec]. unfold cleanup.
  destruct (TrackerFacts.clearPolling_frame s) as (Hh & Ho & Htx & _ & Hed).
  constructor; unfold recorded; rewrite ?Hh, ?Ho, ?Htx, ?Hed; auto.
  left. apply TrackerFacts.clearPolling_owned.
  destruct Htm as [-> | (_ & handle & -> & ->)]; [intros i [] |].
  intros i [<- | []]. reflexivity.
Qed.

Lemma step_tidy a s : tidy s -> tidy (step p d a s).
Proof.
  intros Hs. destruct a.
  - apply executeSwap_tidy, Hs.
  - apply (quiet_tidy _ s (intervalFires_quiet handle) Hs).
  - apply (quiet_tidy _ s (receiptSettles_quiet poll r) Hs).
  - apply (quiet_tidy _ s (refreshSettles_quiet poll) Hs).
  - apply (quiet_tidy _ s countdownTick_quiet Hs).
  - apply (quiet_tidy _ s resetSwapState_quiet Hs).
  - apply cleanup_tidy, Hs.
Qed.

Lemma reachable_tidy s : reachable p d s -> tidy s.
Proof.
  intros (w & l & acts & ->). unfold run.
  assert (Hm : tidy (mount w l)).
  { unfold mount, idle, pollingEffect. cbn.
    rewrite bool_decide_eq_false_2 by discriminate. cbn.
    constructor; cbn; [reflexivity | now left | lia | intros [=]]. }
  revert Hm. generalize (mount w l). induction acts as [| a rest IH]; intros s0 Hs0.
  - exact Hs0.
  - cbn [fold_left]. apply IH, step_tidy, Hs0.
Qed.

(** X10: the hook leaks no timer.  In every session that the hook can
    reach, at most one polling interval is live; a live interval polls the
    hash that the hook shows and its handle is the one kept in the ref;
    none is live while the hook is not pending; and [timeLeft] stays
    between 0 and 90. *)
Theorem at_most_one_interval_and_only_while_pending (s : session) :
  reachable p d s ->
  length (intervals s) <= 1
  /\ (forall handle h, In (handle, h) (intervals s) ->
                       h = txHash (hook s)
                       /\ pollingIntervalRef (hook s) = Some handle
                       /\ isPending (hook s) = true)
  /\ (isPending (hook s) = false -> intervals s = [])
  /\ (0 <= timeLeft (hook s) <= 90)%Z.
Proof.
  intros Hr. destruct (reachable_tidy s Hr) as [_ Htm Ht _].
  split; [| split; [| split; [| exact Ht]]].
  - destruct Htm as [-> | (_ & handle & -> & _)]; cbn; lia.
  - intros handle h Hin.
    destruct Htm as [Hnil | (Hp & handle' & Hlive & Href)].
    + rewrite Hnil in Hin. destruct Hin.
    + rewrite Hlive in Hin. destruct Hin as [[= <- <-] | []]. auto.
  - intros Hp. destruct Htm as [Hnil | (Hp' & _)]; [exact Hnil | congruence].
Qed.

(** X11: the hook tracks only what it has recorded.  In every session
    that the hook can reach, while it is pending the hash it shows is not
    empty, the ledger has an entry with that hash, and the trace shows the
    [addTransaction] call that recorded it: a receipt for the tracked hash
    always finds an entry to update. *)
Theorem pending_hash_is_on_record (s : session) :
  reachable p d s ->
  isPending (hook s) = true ->
  truthyString (txHash (hook s)) = true
  /\ (exists tx, Ledger.findByHash (txHash (hook s)) (transactions s) = Some tx
                 /\ hash tx = txHash (hook s))
  /\ (exists r, In (AddedTransaction r) (trace (outside s))
                /\ nt_hash r = txHash (hook s)).
Proof.
  intros Hr Hp. destruct (reachable_tidy s Hr) as [_ _ _ Hrec].
  destruct (Hrec Hp) as (Hne & (tx & Hin & Hh) & Hadd).
  split; [exact Hne |]. split; [| exact Hadd].
  unfold Ledger.findByHash.
  destruct (List.find (fun tx0 => String.eqb (hash tx0) (txHash (hook s))) (transactions s))
    as [tx' |] eqn:Hfind.
  - exists tx'. split; [reflexivity |].
    apply List.find_some in Hfind as [_ Heq]. now apply String.eqb_eq in Heq.
  - exfalso. apply (List.find_none _ _ Hfind) in Hin.
    rewrite Hh, String.eqb_refl in Hin. discriminate.
Qed.

End WithHost.

Lemma started_reachable :
  @reachable Examples.host (Examples2.swapOf "10") (Examples2.depsOf true) Examples2.started.
Proof.
  exists (Demo.emptyWorld 0), [], [ExecuteSwap].
  unfold Examples2.started, Examples2.fresh, run. cbn [fold_left]. reflexivity.
Qed.

(** The first poll of the submitted swap finds a successful receipt. *)
Lemma receipt_witness :
  polling "0xhash" 1 0 Examples2.started
  /\ publicClient (Examples2.depsOf true) = true
  /\ stopped (@pollOnce Examples.host (Examples2.swapOf "10") (Examples2.depsOf true) 1
                (WithReceipt StatusSuccess) Examples2.started).
Proof.
  split; [exact TrackerFacts.started_polling |]. split; [reflexivity |].
  exact (proj1 (@receipt_ends_polling Examples.host (Examples2.swapOf "10")
                  (Examples2.depsOf true) "0xhash" 1 0 StatusSuccess Examples2.started
                  TrackerFacts.started_polling eq_refl)).
Defined.

(** Ninety ticks of the countdown after the submission: the countdown
    is at 0 and the tracker still polls. *)
Lemma countdown_witness :
  polling "0xhash" 1 0 Examples2.started
  /\ (0 <= timeLeft (hook Examples2.started))%Z
  /\ polling "0xhash" 1 0
       (@run Examples.host (Examples2.swapOf "10") (Examples2.depsOf true)
          (repeat CountdownTick 90) Examples2.started).
Proof.
  assert (Ht : (0 <= timeLeft (hook Examples2.started))%Z).
  { apply Z.leb_le. vm_compute. reflexivity. }
  split; [exact TrackerFacts.started_polling |]. split; [exact Ht |].
  exact (proj1 (@countdown_never_stops_polling Examples.host (Examples2.swapOf "10")
                  (Examples2.depsOf true) "0xhash" 1 0 90 Examples2.started
                  TrackerFacts.started_polling Ht)).
Defined.


Lemma one_interval_witness :
  @reachable Examples.host (Examples2.swapOf "10") (Examples2.depsOf true) Examples2.started
  /\ length (intervals Examples2.started) <= 1.
Proof.
  split; [exact started_reachable |].
  exact (proj1 (@at_most_one_interval_and_only_while_pending Examples.host
                  (Examples2.swapOf "10") (Examples2.depsOf true) Examples2.started
                  started_reachable)).
Defined.

Lemma on_record_witness :
  @reachable Examples.host (Examples2.swapOf "10") (Examples2.depsOf true) Examples2.started
  /\ isPending (hook Examples2.started) = true
  /\ truthyString (txHash (hook Examples2.started)) = true.
Proof.
  assert (Hp : isPending (hook Examples2.started) = true) by (vm_compute; reflexivity).
  split; [exact started_reachable |]. split; [exact Hp |].
  exact (proj1 (@pending_hash_is_on_record Examples.host
                  (Examples2.swapOf "10") (Examples2.depsOf true) Examples2.started
                  started_reachable Hp)).
Defined.

End HookFacts.

(** ** The swap panel *)

Module PanelFacts.
Import UseSwapTransaction.

Section WithHost.
Context `{Host}.
Variable p : props.
Variable d : deps.
Variable a : UseSwap.allowance.
Variable isFetching : bool.
Variable isApproveLoading : bool.

(** X12: a click on the swap button either approves or submits, never
    both.  With a token that is not allowed, native or not, the handler
    only runs the approval: the hook and the ledger stay as they are and
    no submission is made.  With an allowed token on an enabled button
    the approval is not called and neither validation refuses: the
    handler does exactly what the submission of [useSwapTransaction]
    does. *)
Theorem click_approves_or_submits (s : session) :
  (UseSwap.isTokenAllowed a = false ->
   snd (SwapPanel.handleSwapExecution p d a s)
   = onOutside (fun _ => snd (UseSwap.approveToken a (outside (log (Called "approveToken") s))))
       s)
  /\ (UseSwap.isTokenAllowed a = true ->
      SwapPanel.isSwapDisabled p isFetching isApproveLoading s = false ->
      validateSwap p = true
      /\ SwapPanel.handleSwapExecution p d a s
         = (Ok tt, snd (executeSwap p d (log (Called "executeSwapTransaction") s)))).
Proof.
  split.
  - intros Ha. unfold SwapPanel.handleSwapExecution. rewrite Ha. cbn [negb].
    destruct (UseSwap.approveToken a (outside (log (Called "approveToken") s)))
      as [[b | e] w]; destruct s; reflexivity.
  - intros Ha Hen. unfold SwapPanel.isSwapDisabled in Hen.
    repeat (apply orb_false_iff in Hen as [Hen ?]).
    assert (Hv : validateSwap p = true) by (now apply negb_false_iff).
    split; [exact Hv |].
    unfold SwapPanel.handleSwapExecution, UseSwap.executeSwap. rewrite Ha, Hv. cbn.
    destruct (executeSwap p d (log (Called "executeSwapTransaction") s)). reflexivity.
Qed.

End WithHost.

(** An enabled button with an allowed token. *)
Lemma click_witness :
  @SwapPanel.isSwapDisabled Examples.host (Examples2.swapOf "10") false false
    Examples2.fresh = false
  /\ @validateSwap Examples.host (Examples2.swapOf "10") = true.
Proof.
  assert (Hen : @SwapPanel.isSwapDisabled Examples.host (Examples2.swapOf "10") false false
                  Examples2.fresh = false) by (vm_compute; reflexivity).
  split; [exact Hen |].
  exact (proj1 (proj2 (@click_approves_or_submits Examples.host (Examples2.swapOf "10")
                         (Examples2.depsOf true)
                         {| UseSwap.isTokenAllowed := true; UseSwap.isNativeCurrency := false;
                            UseSwap.approveToken := mret true |}
                         false false Examples2.fresh) eq_refl Hen)).
Defined.

End PanelFacts.

(** ** [useSwap]: the helpers of the interface *)

Module ViewFacts.
Import UseSwapTransaction UseSwapView.

Section WithHost.
Context `{Host}.
Variable p : props.
Variable a : UseSwap.allowance.
Variable isFetching : bool.
Variable isApproveLoading : bool.

(** X13: the label of the swap button agrees with its state.  On an
    enabled button the label is "swap" for an allowed token and
    "approveAndSwap" otherwise; the label "swap" is shown on no disabled
    button.  The labels "insufficientBalance" and "sameToken" name the
    rule of the validation that fails: the amount exceeds the balance,
    or it does not and the two addresses are equal. *)
Theorem button_label_agrees_with_button_state (s : session) :
  (SwapPanel.isSwapDisabled p isFetching isApproveLoading s = false ->
   getSwapButtonText p a isFetching isApproveLoading s
   = if UseSwap.isTokenAllowed a then swap else approveAndSwap)
  /\ (getSwapButtonText p a isFetching isApproveLoading s = swap ->
      SwapPanel.isSwapDisabled p isFetching isApproveLoading s = false
      /\ UseSwap.isTokenAllowed a = true)
  /\ (getSwapButtonText p a isFetching isApproveLoading s = insufficientBalance ->
      exists f, fromToken p = Some f
                /\ gt (parseFloat (exchangeAmount p)) (parseFloat (balance f)) = true)
  /\ (getSwapButtonText p a isFetching isApproveLoading s = sameToken ->
      exists f t, fromToken p = Some f /\ toToken p = Some t
                  /\ tk_address f = tk_address t
                  /\ gt (parseFloat (exchangeAmount p)) (parseFloat (balance f)) = false).
Proof.
  unfold SwapPanel.isSwapDisabled, getSwapButtonText.
  destruct (fromToken p) as [f |] eqn:Hf; destruct (toToken p) as [t |] eqn:Ht;
    try (repeat split; cbn; intros; discriminate).
  rewrite !bool_decide_eq_true_2 by eauto. cbn [negb orb].
  destruct (negb (truthyString (exchangeAmount p)) && negb (truthyString (receivedAmount p)));
    cbn [orb]; [repeat split; intros; discriminate |].
  destruct isFetching; cbn [orb]; [repeat split; intros; discriminate |].
  destruct (isLoading (hook s)); cbn [orb]; [repeat split; intros; discriminate |].
  destruct isApproveLoading; cbn [orb]; [repeat split; intros; discriminate |].
  destruct (UseSwap.isTokenAllowed a); cbn [negb].
  - destruct (validateSwap p) eqn:Hv; cbn [negb].
    + repeat split; intros; (reflexivity || discriminate).
    + destruct (gt (parseFloat (exchangeAmount p)) (parseFloat (balance f))) eqn:Hgt.
      * repeat split; try (intros; discriminate). intros _. exists f. auto.
      * destruct (String.eqb_spec (tk_address f) (tk_address t)) as [Heq | Hne];
          repeat split; try (intros; discriminate).
        intros _. exists f, t. auto.
  - destruct (validateSwap p); cbn [negb]; repeat split; intros; (reflexivity || discriminate).
Qed.

End WithHost.

Section Selection.
Variable form : Type.
Variables fromTokenOf toTokenOf : form -> option Token.
Variables setFromToken setToToken : option Token -> form -> form.
Hypothesis Hcells : cells form fromTokenOf toTokenOf setFromToken setToToken.

(** X14: choosing a token never makes the two sides equal.  The chosen
    token ends on its side.  When it is the token on the other side, the
    two sides are exchanged: the other side takes the token that was on
    the chosen side; otherwise the other side is left as it is.  A
    selection whose two addresses differ keeps two different addresses. *)
Theorem choosing_a_token_keeps_the_sides_distinct (token : option Token) (f : form) :
  distinctTokens (fromTokenOf f) (toTokenOf f) ->
  (fromTokenOf (updateFromToken form setFromToken setToToken
                  (fromTokenOf f) (toTokenOf f) token f) = token
   /\ toTokenOf (updateFromToken form setFromToken setToToken
                   (fromTokenOf f) (toTokenOf f) token f)
      = (if onOtherSide (toTokenOf f) token then fromTokenOf f else toTokenOf f)
   /\ distinctTokens
        (fromTokenOf (updateFromToken form setFromToken setToToken
                        (fromTokenOf f) (toTokenOf f) token f))
        (toTokenOf (updateFromToken form setFromToken setToToken
                      (fromTokenOf f) (toTokenOf f) token f)))
  /\ (toTokenOf (updateToToken form setFromToken setToToken
                   (fromTokenOf f) (toTokenOf f) token f) = token
      /\ fromTokenOf (updateToToken form setFromToken setToToken
                        (fromTokenOf f) (toTokenOf f) token f)
         = (if onOtherSide (fromTokenOf f) token then toTokenOf f else fromTokenOf f)
      /\ distinctTokens
           (fromTokenOf (updateToToken form setFromToken setToToken
                           (fromTokenOf f) (toTokenOf f) token f))
           (toTokenOf (updateToToken form setFromToken setToToken
                         (fromTokenOf f) (toTokenOf f) token f))).
Proof.
  destruct Hcells as [Hfs Hfk Hts Htk].
  intros Hd. unfold updateFromToken, updateToToken, onOtherSide, distinctTokens in *.
  destruct (fromTokenOf f) as [x |] eqn:Hx; destruct (toTokenOf f) as [y |] eqn:Hy;
    destruct token as [tok |]; cbn;
    repeat match goal with
           | |- context [String.eqb ?u ?v] => destruct (String.eqb_spec u v)
           end;
    rewrite ?Hfs, ?Hfk, ?Hts, ?Htk, ?Hfs, ?Hts, ?Hx, ?Hy;
    repeat split; auto; congruence.
Qed.

Lemma sameAddress_refl sel : sameAddress sel sel.
Proof. destruct sel; cbn; auto. Qed.

(** What one side of the synchronisation does, for any form state: it
    leaves the form alone, or it sets the side to the refreshed token, on
    which it then has nothing more to do. *)
Lemma syncSide_cases (set : option Token -> form -> form) tokens sel :
  exists sel',
    sameAddress sel sel'
    /\ (forall g, syncSide form set tokens sel' g = g)
    /\ ((sel' = sel /\ forall g, syncSide form set tokens sel g = g)
        \/ (forall g, syncSide form set tokens sel g = set sel' g)).
Proof.
  unfold syncSide.
  destruct sel as [tk |]; [| exists None; cbn; auto].
  destruct (truthyString (tk_address tk)) eqn:Hne.
  2: { exists (Some tk). rewrite Hne. split; [apply sameAddress_refl | auto]. }
  destruct (refreshed tokens tk) as [updated |] eqn:Hr.
  2: { exists (Some tk). rewrite Hne, Hr. split; [apply sameAddress_refl | auto]. }
  destruct (String.eqb (balance updated) (balance tk)) eqn:Hb; cbn [negb].
  { exists (Some tk). rewrite Hne, Hr, Hb. split; [apply sameAddress_refl | auto]. }
  exists (Some updated).
  assert (Hlow : toLowerCase (tk_address updated) = toLowerCase (tk_address tk)).
  { unfold refreshed in Hr. apply List.find_some in Hr as [_ Heq].
    now apply String.eqb_eq in Heq. }
  split; [cbn; congruence |]. split; [| right; reflexivity].
  intros g. destruct (truthyString (tk_address updated)); [| reflexivity].
  assert (Hagain : refreshed tokens updated = Some updated).
  { unfold refreshed in *. rewrite Hlow. exact Hr. }
  rewrite Hagain, String.eqb_refl. reflexivity.
Qed.

(** X15: the synchronisation with the refreshed list of tokens settles
    in one pass.  It keeps each selected token on its side and keeps its
    address up to the case of the letters, and run again on its own result
    it changes nothing: the effect cannot loop. *)
Theorem synchronisation_settles_in_one_pass (tokens : list Token) (f : form) :
  sameAddress (fromTokenOf f)
    (fromTokenOf (syncTokens form setFromToken setToToken tokens
                    (fromTokenOf f) (toTokenOf f) f))
  /\ sameAddress (toTokenOf f)
       (toTokenOf (syncTokens form setFromToken setToToken tokens
                     (fromTokenOf f) (toTokenOf f) f))
  /\ syncTokens form setFromToken setToToken tokens
       (fromTokenOf (syncTokens form setFromToken setToToken tokens
                       (fromTokenOf f) (toTokenOf f) f))
       (toTokenOf (syncTokens form setFromToken setToToken tokens
                     (fromTokenOf f) (toTokenOf f) f))
       (syncTokens form setFromToken setToToken tokens (fromTokenOf f) (toTokenOf f) f)
     = syncTokens form setFromToken setToToken tokens (fromTokenOf f) (toTokenOf f) f.
Proof.
  destruct Hcells as [Hfs Hfk Hts Htk].
  destruct (syncSide_cases setFromToken tokens (fromTokenOf f))
    as (from' & Hsf & Hidf & Hf).
  destruct (syncSide_cases setToToken tokens (toTokenOf f))
    as (to' & Hst & Hidt & Ht).
  unfold syncTokens.
  assert (Hfrom : fromTokenOf (syncSide form setToToken tokens (toTokenOf f)
                                 (syncSide form setFromToken tokens (fromTokenOf f) f))
                  = from').
  { destruct Ht as [[_ Ht] | Ht]; rewrite Ht, ?Hfk;
      destruct Hf as [[-> Hf] | Hf]; rewrite Hf, ?Hfs; reflexivity. }
  assert (Hto : toTokenOf (syncSide form setToToken tokens (toTokenOf f)
                             (syncSide form setFromToken tokens (fromTokenOf f) f))
                = to').
  { destruct Ht as [[-> Ht] | Ht]; rewrite Ht, ?Hts; [| reflexivity].
    destruct Hf as [[_ Hf] | Hf]; rewrite Hf, ?Htk; reflexivity. }
  rewrite Hfrom, Hto. split; [exact Hsf |]. split; [exact Hst |].
  now rewrite Hidf, Hidt.
Qed.

End Selection.

(** Two cells that hold the two tokens. *)
Lemma pair_cells :
  cells (option Token * option Token) fst snd
    (fun t f => (t, snd f)) (fun t f => (fst f, t)).
Proof. constructor; reflexivity. Qed.

(** Choosing token B as source while it is the destination exchanges
    the two sides; choosing token A as destination while it is the source
    does too. *)
Lemma choosing_witness :
  distinctTokens (Some Demo.tokenA) (Some Demo.tokenB)
  /\ updateFromToken (option Token * option Token)
       (fun t f => (t, snd f)) (fun t f => (fst f, t))
       (Some Demo.tokenA) (Some Demo.tokenB) (Some Demo.tokenB)
       (Some Demo.tokenA, Some Demo.tokenB)
     = (Some Demo.tokenB, Some Demo.tokenA)
  /\ updateToToken (option Token * option Token)
       (fun t f => (t, snd f)) (fun t f => (fst f, t))
       (Some Demo.tokenA) (Some Demo.tokenB) (Some Demo.tokenA)
       (Some Demo.tokenA, Some Demo.tokenB)
     = (Some Demo.tokenB, Some Demo.tokenA).
Proof.
  assert (Hd : distinctTokens (Some Demo.tokenA) (Some Demo.tokenB)).
  { cbn. discriminate. }
  split; [exact Hd |].
  destruct (@choosing_a_token_keeps_the_sides_distinct
              (option Token * option Token) fst snd
              (fun t f => (t, snd f)) (fun t f => (fst f, t)) pair_cells
              (Some Demo.tokenB) (Some Demo.tokenA, Some Demo.tokenB) Hd)
    as [(Hf1 & Ht1 & _) _].
  destruct (@choosing_a_token_keeps_the_sides_distinct
              (option Token * option Token) fst snd
              (fun t f => (t, snd f)) (fun t f => (fst f, t)) pair_cells
              (Some Demo.tokenA) (Some Demo.tokenA, Some Demo.tokenB) Hd)
    as [_ (Ht2 & Hf2 & _)].
  split; apply injective_projections; cbn [fst snd] in *; assumption.
Defined.

(** A refreshed list in which token A has another balance. *)
Lemma synchronisation_witness :
  sameAddress (Some Demo.tokenA)
    (fst (syncTokens (option Token * option Token)
            (fun t f => (t, snd f)) (fun t f => (fst f, t))
            [Demo.tokenB;
             {| tk_address := "0xAAA"; symbol := "AAA"; decimals := 18; balance := "7";
                tags := None |}]
            (Some Demo.tokenA) (Some Demo.tokenB) (Some Demo.tokenA, Some Demo.tokenB))).
Proof.
  exact (proj1 (@synchronisation_settles_in_one_pass
                  (option Token * option Token) fst snd
                  (fun t f => (t, snd f)) (fun t f => (fst f, t)) pair_cells
                  [Demo.tokenB;
                   {| tk_address := "0xAAA"; symbol := "AAA"; decimals := 18; balance := "7";
                      tags := None |}]
                  (Some Demo.tokenA, Some Demo.tokenB))).
Defined.

End ViewFacts.

(** ** [useDepositTransaction] *)

Module DepositFacts.
Import DepositApi DepositTransaction.

#[local] Arguments effects : simpl never.

Ltac flat :=
  cbv beta iota zeta delta
    [onHook log onOutside onTransactions withIntervals withInflight withDeps
     withTrace hook outside transactions intervals nextHandle inflight nextPoll
     countdownDeps pollingDeps trace localStorage clock
     setIsLoading setIsApproving setIsApproved setIsPending setTransactionHash
     setTimeLeft setPollingIntervalRef setRetryCountRef
     isLoading isApproving isApproved isPending transactionHash timeLeft
     pollingIntervalRef retryCountRef fst snd].

(** The effects do nothing while their dependencies are the ones they
    last ran with. *)
Lemma effects_unchanged s :
  countdownDeps s = Some (isPending (hook s), timeLeft (hook s)) ->
  pollingDeps s = Some (isPending (hook s), transactionHash (hook s)) ->
  effects s = s.
Proof.
  intros Hc Hp. unfold effects, pollingBody, countdownBody, pollingCleanup.
  rewrite !bool_decide_eq_true_2 by assumption. cbn.
  destruct s; cbn in *. now rewrite Hc, Hp.
Qed.

(** The effects when only the countdown moved. *)
Lemma effects_countdown s :
  pollingDeps s = Some (isPending (hook s), transactionHash (hook s)) ->
  countdownDeps s <> Some (isPending (hook s), timeLeft (hook s)) ->
  effects s
  = withDeps (Some (isPending (hook s), timeLeft (hook s))) (pollingDeps s)
      (if negb (isPending (hook s)) || (timeLeft (hook s) <=? 0)%Z
       then clearPolling s else s).
Proof.
  intros Hp Hc. unfold effects, pollingBody, countdownBody, pollingCleanup.
  rewrite (bool_decide_eq_true_2 _ Hp), (bool_decide_eq_false_2 _ Hc). cbn.
  now rewrite Hp.
Qed.

(** The effects when the pending flag has dropped and no interval is
    live. *)
Lemma effects_stop hk out txs nh infl np cd pd :
  isPending hk = false ->
  cd <> (false, timeLeft hk) -> pd <> (false, transactionHash hk) ->
  effects {| hook := hk; outside := out; transactions := txs; intervals := [];
             nextHandle := nh; inflight := infl; nextPoll := np;
             countdownDeps := Some cd; pollingDeps := Some pd |}
  = {| hook := hk; outside := out; transactions := txs; intervals := [];
       nextHandle := nh; inflight := infl; nextPoll := np;
       countdownDeps := Some (false, timeLeft hk);
       pollingDeps := Some (false, transactionHash hk) |}.
Proof.
  intros Hp Hc Hd. unfold effects, pollingBody, countdownBody, pollingCleanup. cbn. rewrite Hp.
  rewrite !bool_decide_eq_false_2 by congruence. cbn.
  unfold clearPolling, clearInterval. cbn.
  destruct (pollingIntervalRef hk); cbn; rewrite ?Hp; cbn;
    try (destruct (pollingIntervalRef hk); cbn); rewrite ?Hp; reflexivity.
Qed.

(** The effects of the render after a submission from a hook at rest. *)
Lemma effects_starts hk out txs nh infl np t0 h0 h :
  isPending hk = true -> transactionHash hk = Some h -> truthyString h = true ->
  (0 < timeLeft hk)%Z ->
  effects {| hook := hk; outside := out; transactions := txs; intervals := [];
             nextHandle := nh; inflight := infl; nextPoll := np;
             countdownDeps := Some (false, t0); pollingDeps := Some (false, h0) |}
  = {| hook := setPollingIntervalRef (Some nh) (setRetryCountRef 0 hk);
       outside := out; transactions := txs; intervals := [(nh, h)];
       nextHandle := S nh; inflight := infl; nextPoll := np;
       countdownDeps := Some (true, timeLeft hk);
       pollingDeps := Some (true, Some h) |}.
Proof.
  intros Hp Hh Hne Ht. unfold effects, pollingBody, countdownBody, pollingCleanup. cbn. rewrite Hp, Hh.
  rewrite !bool_decide_eq_false_2 by (intros [=]). cbn.
  assert (Hle : (timeLeft hk <=? 0)%Z = false) by (apply Z.leb_gt; lia).
  unfold clearPolling, clearInterval, startPolling. cbn.
  destruct (pollingIntervalRef hk); cbn;
    do 3 (rewrite ?Hp, ?Hle, ?Hh, ?Hne; cbn); reflexivity.
Qed.

Ltac effects_idle :=
  match goal with
  | |- context [effects ?x] =>
      rewrite (effects_unchanged x) by reflexivity
  end.

Section WithHost.
Context `{Host}.
Variable p : props.
Variable d : deps.

(** A tick of the countdown with more than a second left. *)
Lemma tick_before_expiry h handle n s :
  depositPolling h handle n s -> (1 < timeLeft (hook s))%Z ->
  depositPolling h handle n (step p d CountdownTick s)
  /\ timeLeft (hook (step p d CountdownTick s)) = (timeLeft (hook s) - 1)%Z
  /\ outside (step p d CountdownTick s) = outside s
  /\ transactions (step p d CountdownTick s) = transactions s.
Proof.
  intros [Hp Hh Hne Href Hlive Hretry Hpd Hcd Ht Hq] Hgt.
  destruct s as [hk out txs ivs nh infl np cd pd]. cbn in *. subst.
  destruct hk; cbn in *. subst.
  unfold step, countdownTick. cbn.
  assert (Hpos : (0 <? timeLeft0)%Z = true) by (apply Z.ltb_lt; lia).
  rewrite Hpos. flat. rewrite Hpos.
  rewrite effects_countdown; [| reflexivity | cbn; intros [=]; lia]. cbn.
  assert (Hle : (timeLeft0 - 1 <=? 0)%Z = false) by (apply Z.leb_gt; lia).
  rewrite Hle. flat.
  split; [constructor; cbn; auto; lia | repeat split; reflexivity].
Qed.

(** The tick that brings the countdown to 0. *)
Lemma tick_at_expiry h handle n s :
  depositPolling h handle n s -> timeLeft (hook s) = 1%Z ->
  stalled h (step p d CountdownTick s)
  /\ outside (step p d CountdownTick s) = outside s
  /\ transactions (step p d CountdownTick s) = transactions s
  /\ inflight (step p d CountdownTick s) = [].
Proof.
  intros [Hp Hh Hne Href Hlive Hretry Hpd Hcd Ht Hq] Hone.
  destruct s as [hk out txs ivs nh infl np cd pd]. cbn in *. subst.
  destruct hk; cbn in *. subst.
  unfold step, countdownTick. cbn. flat.
  rewrite effects_countdown; [| reflexivity | cbn; intros [=]]. cbn.
  unfold clearPolling, clearInterval. cbn. rewrite Nat.eqb_refl. cbn.
  split; [constructor; reflexivity | repeat split; reflexivity].
Qed.

(** Once stalled, neither a tick of an interval nor a tick of the
    countdown does anything. *)
Lemma stalled_stays h s :
  stalled h s ->
  (forall handle, step p d (IntervalFires handle) s = s)
  /\ step p d CountdownTick s = s.
Proof.
  intros [Hp Hh Ht Hi Hc Hpd]. split.
  - intros handle. unfold step, intervalFires. rewrite Hi. cbn.
    apply effects_unchanged; [now rewrite Hc, Hp, Ht | now rewrite Hpd, Hp, Hh].
  - unfold step, countdownTick. rewrite Hp, Ht. cbn.
    apply effects_unchanged; [now rewrite Hc, Hp, Ht | now rewrite Hpd, Hp, Hh].
Qed.

(** X16: for a deposit the countdown is not display only.  When the
    countdown of a polling tracker reaches 0, the polling interval is
    cleared without a word: the hook stays pending with its hash, nothing
    is notified, the completion callback is not invoked and the ledger is
    not written; from then on neither a tick of the interval nor of the
    countdown does anything. *)
Theorem countdown_expiry_stalls_deposit (h : string) (handle n : nat) (t : nat) :
  forall s : session,
  depositPolling h handle n s ->
  timeLeft (hook s) = Z.of_nat t ->
  stalled h (run p d (repeat CountdownTick t) s)
  /\ outside (run p d (repeat CountdownTick t) s) = outside s
  /\ transactions (run p d (repeat CountdownTick t) s) = transactions s
  /\ (forall handle', step p d (IntervalFires handle') (run p d (repeat CountdownTick t) s)
                      = run p d (repeat CountdownTick t) s)
  /\ step p d CountdownTick (run p d (repeat CountdownTick t) s)
     = run p d (repeat CountdownTick t) s.
Proof.
  induction t as [| t IH]; intros s Hpol Ht.
  - destruct Hpol. lia.
  - change (run p d (repeat CountdownTick (S t)) s)
      with (run p d (repeat CountdownTick t) (step p d CountdownTick s)).
    destruct t as [| t'].
    + change (run p d (repeat CountdownTick 0) (step p d CountdownTick s))
        with (step p d CountdownTick s).
      destruct (tick_at_expiry h handle n s Hpol) as (Hst & Ho & Htx & _); [lia |].
      destruct (stalled_stays h _ Hst) as [Hi Hc].
      repeat split; auto; apply Hst.
    + destruct (tick_before_expiry h handle n s Hpol) as (Hpol1 & Ht1 & Ho1 & Htx1);
        [lia |].
      destruct (IH _ Hpol1) as (Hst & Ho & Htx & Hi & Hc); [lia |].
      split; [exact Hst |]. split; [congruence |]. split; [congruence |].
      split; [exact Hi | exact Hc].
Qed.

(** *** The attempts of the tracker *)

Ltac open_poll :=
  unfold pollOnce, step, intervalFires, pollTransactionStatus; cbn;
  rewrite Nat.eqb_refl; cbn; flat; effects_idle;
  unfold statusSettles, lookupPoll; cbn; rewrite Nat.eqb_refl; cbn;
  unfold dropPoll; cbn; rewrite Nat.eqb_refl; cbn.

(** An attempt whose answer flags no error and confirms nothing. *)
Lemma poll_unconfirmed h handle n raw s :
  depositPolling h handle n s ->
  flagsError raw = false -> confirms raw h (transactions s) = None ->
  depositPolling h handle (S n) (pollOnce p d handle raw s)
  /\ transactions (pollOnce p d handle raw s) = transactions s
  /\ trace (outside (pollOnce p d handle raw s))
     = (trace (outside s) ++ [statusRequest])%list.
Proof.
  intros [Hp Hh Hne Href Hlive Hretry Hpd Hcd Ht Hq] Hf Hc.
  destruct s as [hk out txs ivs nh infl np cd pd]. cbn in *. subst.
  destruct hk; cbn in *. subst.
  destruct raw as [r | e]; [| discriminate]. cbn in Hf, Hc.
  rewrite Hf in Hc. unfold Ledger.findByHash in Hc.
  open_poll. unfold resumeWithStatus, Ledger.findByHash. cbn. rewrite Hf.
  destruct (cts_transaction_status r); cbn in *; rewrite ?Hc;
    try (destruct (List.find _ txs)); effects_idle;
    (split; [constructor; cbn; auto | split; reflexivity]).
Qed.

(** An attempt below the retry limit whose answer flags an error. *)
Lemma poll_flagged_below h handle n raw s :
  depositPolling h handle n s -> flagsError raw = true -> n < MAX_RETRIES ->
  depositPolling h handle (S n) (pollOnce p d handle raw s)
  /\ transactions (pollOnce p d handle raw s) = transactions s
  /\ trace (outside (pollOnce p d handle raw s))
     = (trace (outside s) ++ [statusRequest])%list.
Proof.
  intros [Hp Hh Hne Href Hlive Hretry Hpd Hcd Ht Hq] Hf Hn.
  destruct s as [hk out txs ivs nh infl np cd pd]. cbn in *. subst.
  destruct hk; cbn in *. subst.
  assert (Hlt : (retryCountRef0 <? MAX_RETRIES)%nat = true) by (apply Nat.ltb_lt; lia).
  open_poll. unfold resumeWithStatus.
  destruct raw as [r | e]; cbn in *; rewrite ?Hf, Hlt; effects_idle;
    (split; [constructor; cbn; auto | split; reflexivity]).
Qed.

(** An attempt at the retry limit whose answer flags an error. *)
Lemma poll_flagged_at_cap h handle n raw s :
  depositPolling h handle n s -> flagsError raw = true -> MAX_RETRIES <= n ->
  depositStopped (pollOnce p d handle raw s)
  /\ inflight (pollOnce p d handle raw s) = []
  /\ transactions (pollOnce p d handle raw s) = transactions s
  /\ trace (outside (pollOnce p d handle raw s))
     = (trace (outside s) ++ [statusRequest; depositTimeout] ++ depositCompletions p)%list.
Proof.
  intros [Hp Hh Hne Href Hlive Hretry Hpd Hcd Ht Hq] Hf Hn.
  destruct s as [hk out txs ivs nh infl np cd pd]. cbn in *. subst.
  destruct hk; cbn in *. subst.
  assert (Hlt : (retryCountRef0 <? MAX_RETRIES)%nat = false) by (apply Nat.ltb_ge; lia).
  open_poll. unfold resumeWithStatus, depositCompletions.
  destruct raw as [r | e]; cbn in *; rewrite ?Hf, Hlt;
    unfold giveUp, complete, clearPolling, clearInterval; cbn;
    rewrite Nat.eqb_refl; cbn;
    destruct (onTransactionComplete p); flat;
    (rewrite effects_stop by (reflexivity || intros [=])); cbn;
    rewrite <- ?app_assoc;
    (split; [constructor; reflexivity | repeat split; reflexivity]).
Qed.

(** An attempt whose answer confirms the deposit. *)
Lemma poll_confirmed h handle n raw tx s :
  depositPolling h handle n s -> confirms raw h (transactions s) = Some tx ->
  depositStopped (pollOnce p d handle raw s)
  /\ inflight (pollOnce p d handle raw s) = [(nextPoll s, AwaitingRefresh)]
  /\ transactions (pollOnce p d handle raw s)
     = Ledger._updateTransaction (id tx) CONFIRMED (transactions s)
  /\ trace (outside (pollOnce p d handle raw s))
     = (trace (outside s) ++ statusRequest :: confirmation tx)%list
  /\ inflight (step p d (RefreshSettles (nextPoll s)) (pollOnce p d handle raw s)) = []
  /\ trace (outside (step p d (RefreshSettles (nextPoll s)) (pollOnce p d handle raw s)))
     = (trace (outside (pollOnce p d handle raw s)) ++ depositCompletions p)%list.
Proof.
  intros [Hp Hh Hne Href Hlive Hretry Hpd Hcd Ht Hq] Hc.
  destruct s as [hk out txs ivs nh infl np cd pd]. cbn in *. subst.
  destruct hk; cbn in *. subst.
  destruct raw as [r | e]; [| discriminate]. cbn in Hc.
  destruct (cts_error r) eqn:Hf; [discriminate |].
  destruct (cts_transaction_status r) eqn:Hst; try discriminate.
  unfold Ledger.findByHash in Hc.
  open_poll. unfold resumeWithStatus, depositCompletions, confirmation, Ledger.findByHash.
  cbn. rewrite Hf, Hst, Hc. cbn.
  unfold clearPolling, clearInterval. cbn. rewrite Nat.eqb_refl. cbn. flat.
  (rewrite effects_stop by (reflexivity || intros [=])). cbn.
  rewrite <- ?app_assoc.
  split; [constructor; reflexivity |]. do 3 (split; [reflexivity |]).
  unfold refreshSettles, lookupPoll, dropPoll, complete. cbn.
  rewrite Nat.eqb_refl. cbn.
  destruct (onTransactionComplete p); flat; effects_idle; cbn;
    rewrite ?app_nil_r, <- ?app_assoc; split; reflexivity.
Qed.

Lemma pollAll_unconfirmed h handle raws : forall n s,
  depositPolling h handle n s ->
  Forall (fun raw => flagsError raw = false /\ confirms raw h (transactions s) = None) raws ->
  depositPolling h handle (n + length raws) (pollAll p d handle raws s)
  /\ transactions (pollAll p d handle raws s) = transactions s
  /\ trace (outside (pollAll p d handle raws s))
     = (trace (outside s) ++ repeat statusRequest (length raws))%list.
Proof.
  induction raws as [| raw rest IH]; intros n s Hpol Hraws.
  - cbn. rewrite Nat.add_0_r, app_nil_r. auto.
  - inversion Hraws as [| raw' rest' [Hf Hc] Hrest]; subst. cbn [length].
    destruct (poll_unconfirmed h handle n raw s Hpol Hf Hc) as (Hpol' & Htx & Htr).
    destruct (IH (S n) (pollOnce p d handle raw s) Hpol') as (Hpol'' & Htx' & Htr').
    { rewrite Htx. exact Hrest. }
    unfold pollAll in *. cbn [fold_left].
    replace (n + S (length rest)) with (S n + length rest) by lia.
    split; [exact Hpol'' | split].
    + now rewrite Htx'.
    + rewrite Htr', Htr. cbn [repeat]. now rewrite <- app_assoc.
Qed.

(** X17: the retry limit of the deposit tracker counts only answers
    that flag an error.  Answers without error that confirm nothing
    (PENDING, REJECTED, FAILED, or CONFIRMED for a hash that the ledger
    does not have) never end the polling, however many there are: no
    notification, no callback, the ledger untouched.  An answer that flags
    an error, or a failed request, keeps the tracker polling while the
    retry count is below 30, and at 30 or more stops it with the timeout
    notification and the completion callback, the ledger still untouched. *)
Theorem retry_limit_counts_only_flagged_answers
    (h : string) (handle n : nat) (s : session) :
  depositPolling h handle n s ->
  (forall raws,
      Forall (fun raw => flagsError raw = false
                         /\ confirms raw h (transactions s) = None) raws ->
      depositPolling h handle (n + length raws) (pollAll p d handle raws s)
      /\ transactions (pollAll p d handle raws s) = transactions s
      /\ trace (outside (pollAll p d handle raws s))
         = (trace (outside s) ++ repeat statusRequest (length raws))%list)
  /\ (forall raw,
         flagsError raw = true ->
         transactions (pollOnce p d handle raw s) = transactions s
         /\ if (n <? MAX_RETRIES)%nat then
              depositPolling h handle (S n) (pollOnce p d handle raw s)
              /\ trace (outside (pollOnce p d handle raw s))
                 = (trace (outside s) ++ [statusRequest])%list
            else
              depositStopped (pollOnce p d handle raw s)
              /\ trace (outside (pollOnce p d handle raw s))
                 = (trace (outside s) ++ [statusRequest; depositTimeout]
                      ++ depositCompletions p)%list).
Proof.
  intros Hpol. split.
  - intros raws Hraws. apply pollAll_unconfirmed; assumption.
  - intros raw Hf. destruct (Nat.ltb_spec n MAX_RETRIES) as [Hlt | Hge].
    + destruct (poll_flagged_below h handle n raw s Hpol Hf Hlt) as (Hp1 & Htx & Htr).
      auto.
    + destruct (poll_flagged_at_cap h handle n raw s Hpol Hf Hge) as (Hst & _ & Htx & Htr).
      auto.
Qed.

(** X18: the deposit tracker writes the ledger only to confirm.  An
    answer without error whose status is CONFIRMED, for a hash that the
    ledger has, ends the tracking: the interval is cleared, the entry is
    set to CONFIRMED, the success is notified, the user data and the
    balances are refreshed, and the completion callback runs when the
    refresh has settled.  Any other answer leaves the ledger as it is: the
    tracker never marks a deposit failed. *)
Theorem deposit_is_only_ever_confirmed
    (h : string) (handle n : nat) (raw : outcome CheckTransactionStatusResponse)
    (s : session) :
  depositPolling h handle n s ->
  match confirms raw h (transactions s) with
  | Some tx =>
      depositStopped (pollOnce p d handle raw s)
      /\ inflight (pollOnce p d handle raw s) = [(nextPoll s, AwaitingRefresh)]
      /\ transactions (pollOnce p d handle raw s)
         = Ledger._updateTransaction (id tx) CONFIRMED (transactions s)
      /\ trace (outside (pollOnce p d handle raw s))
         = (trace (outside s) ++ statusRequest :: confirmation tx)%list
      /\ inflight (step p d (RefreshSettles (nextPoll s)) (pollOnce p d handle raw s)) = []
      /\ trace (outside (step p d (RefreshSettles (nextPoll s))
                           (pollOnce p d handle raw s)))
         = (trace (outside (pollOnce p d handle raw s)) ++ depositCompletions p)%list
  | None =>
      transactions (pollOnce p d handle raw s) = transactions s
      /\ count isLedgerWrite (trace (outside (pollOnce p d handle raw s)))
         = count isLedgerWrite (trace (outside s))
  end.
Proof.
  intros Hpol. destruct (confirms raw h (transactions s)) as [tx |] eqn:Hc.
  - apply (poll_confirmed h handle n raw tx s Hpol Hc).
  - destruct (flagsError raw) eqn:Hf.
    + destruct (Nat.ltb_spec n MAX_RETRIES) as [Hlt | Hge].
      * destruct (poll_flagged_below h handle n raw s Hpol Hf Hlt) as (_ & Htx & Htr).
        split; [exact Htx |]. rewrite Htr, TrackerFacts.count_app. cbn. lia.
      * destruct (poll_flagged_at_cap h handle n raw s Hpol Hf Hge)
          as (_ & _ & Htx & Htr).
        split; [exact Htx |]. rewrite Htr, !TrackerFacts.count_app.
        unfold depositCompletions. destruct (onTransactionComplete p); cbn; lia.
    + destruct (poll_unconfirmed h handle n raw s Hpol Hf Hc) as (_ & Htx & Htr).
      split; [exact Htx |]. rewrite Htr, TrackerFacts.count_app. cbn. lia.
Qed.

(** *** The transaction *)

Lemma getDestinationWallet_runs agent chain w :
  getDestinationWallet agent chain w
  = (Ok (destinationResult (agent chain)),
     withTrace (trace w ++ [Called "/api/getWalletAgent"]) w).
Proof.
  unfold getDestinationWallet, destinationResult. js_unfold. cbn.
  destruct (agent chain) as [r | e]; cbn; [destruct (resp_error r) |]; reflexivity.
Qed.

Lemma destination_named (d0 : deps) chain :
  dw_success (destinationResult (walletAgent d0 chain)) = true ->
  destinationOf d0 chain = dw_walletAddress (destinationResult (walletAgent d0 chain)).
Proof.
  unfold destinationOf, destinationResult.
  destruct (walletAgent d0 chain) as [r | e]; [destruct (resp_error r) |];
    cbn; intros; congruence.
Qed.

(** X19: in a deposit the approval comes first.  When the token needs
    an approval and the approval fails, the hook asks for no destination
    wallet, makes no transfer and records nothing: it shows the error of
    the approval and ends with [isLoading] false, while [isApproving]
    stays true and the tracker is left as it was. *)
Theorem failed_approval_stops_the_deposit
    (s : session) (tk : Token) (u : DepositUser) (chain : Z) (network : string)
    (r : TransactionResult.t) (w : world) :
  accepted p d tk u chain network ->
  isApproved (hook s) = false ->
  UseDepositTransaction.taggedNative tk = false ->
  TransactionService.approveToken (service d) (depositApproval d tk) (outside s) = (Ok r, w) ->
  TransactionResult.success r = false ->
  fst (executeTransaction p d s) = Ok tt
  /\ isApproving (hook (snd (executeTransaction p d s))) = true
  /\ isLoading (hook (snd (executeTransaction p d s))) = false
  /\ isApproved (hook (snd (executeTransaction p d s))) = false
  /\ isPending (hook (snd (executeTransaction p d s))) = isPending (hook s)
  /\ transactionHash (hook (snd (executeTransaction p d s))) = transactionHash (hook s)
  /\ transactions (snd (executeTransaction p d s)) = transactions s
  /\ trace (outside (snd (executeTransaction p d s)))
     = (trace w
          ++ [Toasted ToastError
                (shown (errorOr (TransactionResult.error r) "Approval failed"))])%list.
Proof.
  intros [Htk Hu Hc Hc0 Hn Ha Hf] Happ Hnat Hrun Hs.
  unfold executeTransaction. rewrite Htk, Hu, Hc, Hn, Ha, Hf.
  apply Z.eqb_neq in Hc0. rewrite Hc0. cbn [negb orb].
  unfold tryTransaction. rewrite Happ, Hnat. cbn [negb andb].
  fold (depositApproval d tk).
  unfold finally, catching, set, call, raiseOr, raise, mbind, handler_bind. cbn.
  rewrite Hrun. cbn. rewrite Hs. cbn. unfold toast, emit. cbn.
  repeat split; try reflexivity. exact Happ.
Qed.

(** What a plain transfer that needs no approval does. *)
Lemma plain_deposit_outcome
    (s : session) (tk : Token) (u : DepositUser) (chain : Z) (network : string) :
  accepted p d tk u chain network ->
  isApproved (hook s) = true \/ UseDepositTransaction.taggedNative tk = true ->
  plainTransfer p tk u ->
  exists new,
    fst (executeTransaction p d s) = Ok tt
    /\ trace (outside (snd (executeTransaction p d s)))
       = (trace (outside s) ++ Called "/api/getWalletAgent" :: new)%list
    /\ (forall e, In e new -> isWalletCall e = true -> isDepositTransfer p d tk chain e)
    /\ count isWalletCall new <= 1
    /\ ((exists msg before,
            new = (before ++ [Toasted ToastError msg])%list
            /\ count isLedgerWrite new = 0
            /\ onlyLoadingCleared s (snd (executeTransaction p d s)))
        \/ (exists h before,
               new = (before ++ [AddedTransaction (depositRecord p tk chain h)])%list
               /\ count isLedgerWrite before = 0
               /\ submittedDeposit p tk chain h s (snd (executeTransaction p d s)))).
Proof.
  intros [Htk Hu Hc Hc0 Hn Ha Hf] Happ Hplain.
  unfold executeTransaction. rewrite Htk, Hu, Hc, Hn, Ha, Hf.
  apply Z.eqb_neq in Hc0. rewrite Hc0. cbn [negb orb].
  unfold tryTransaction.
  replace (negb (isApproved (hook s)) && negb (UseDepositTransaction.taggedNative tk))
    with false by (destruct Happ as [-> | ->]; [reflexivity | now rewrite andb_false_r]).
  destruct s as [hk out txs ivs nh infl np cd pd].
  unfold finally, catching, set, call, raiseOr, raise, mbind, handler_bind, mret, handler_ret.
  cbn [outside onHook onOutside hook].
  rewrite getDestinationWallet_runs.
  pose proof (destination_named d chain) as Hdest.
  destruct (destinationResult (walletAgent d chain)) as [ok addr err].
  cbn [dw_success dw_walletAddress dw_error] in *.
  destruct ok; cbn [negb orb].
  2: { unfold toast, emit. cbn. rewrite <- ?app_assoc. cbn [app].
       eexists. split; [reflexivity |]. split; [reflexivity |].
       split; [intros e [<- | []]; discriminate |]. split; [cbn; lia |].
       left. exists (shown (errorOr err "Could not get destination wallet.")), [].
       split; [reflexivity |]. split; [reflexivity |].
       unfold onlyLoadingCleared. cbn. destruct hk. repeat split; reflexivity. }
  specialize (Hdest eq_refl).
  destruct (truthy addr) eqn:Haddr; cbn [negb].
  2: { unfold toast, emit. cbn. rewrite <- ?app_assoc. cbn [app].
       eexists. split; [reflexivity |]. split; [reflexivity |].
       split; [intros e [<- | []]; discriminate |]. split; [cbn; lia |].
       left. exists (shown (errorOr err "Could not get destination wallet.")), [].
       split; [reflexivity |]. split; [reflexivity |].
       unfold onlyLoadingCleared. cbn. destruct hk. repeat split; reflexivity. }
  destruct addr as [dest |]; [| discriminate]. cbn [default truthy] in *.
  change (Datatypes.id dest) with dest.
  assert (Hpath : isAutoDepositOn u = true ->
                  arrayIncludes UseDepositTransaction.directSymbols (symbol tk)
                  || match depositType p with direct => true | swap => false end = true).
  { intros Hon. destruct Hplain as [Hx | [Hx | Hx]];
      [congruence | now rewrite Hx | rewrite Hx; apply orb_true_r]. }
  destruct (ServiceFacts.executeTokenTransfer_erc20 (service d) (transferOf p tk dest)
              (withTrace (trace out ++ [Called "/api/getWalletAgent"]) out) eq_refl)
    as (r & calls & Hrun & Hwf & Hcalls).
  assert (Hchar : forall e, In e calls -> isDepositTransfer p d tk chain e).
  { destruct Hcalls as [-> | (units & Hunits & ->)]; [intros e [] |].
    intros e [<- | []]. exists dest, units. repeat split; assumption. }
  assert (Hcw : count isWalletCall calls <= 1).
  { destruct Hcalls as [-> | (units & _ & ->)]; cbn; lia. }
  assert (Hcl : count isLedgerWrite calls = 0).
  { destruct Hcalls as [-> | (units & _ & ->)]; reflexivity. }
  clear Hcalls.
  assert (Hin_new : forall e x, In e (calls ++ [x])%list -> isWalletCall x = false ->
                                isWalletCall e = true -> isDepositTransfer p d tk chain e).
  { intros e x Hin Hx Hw. apply in_app_or in Hin as [Hin | [<- | []]];
      [now apply Hchar | congruence]. }
  destruct r as [succ hash error].
  destruct (isAutoDepositOn u) eqn:Hauto; cbn [negb];
    [rewrite (Hpath eq_refl) |];
    cbn [outside onOutside onHook]; rewrite Hrun; cbn;
    (destruct succ; cbn;
     [destruct hash as [h |]; cbn; [destruct (truthyString h) eqn:Hh; cbn |] |]);
    unfold recordManualDeposit, tryCatch, mret, js_ret; cbn; rewrite ?Hh; cbn;
    unfold toast, emit, addTransaction, log; cbn; rewrite <- ?app_assoc; cbn [app].
  all: eexists; (split; [reflexivity |]); (split; [reflexivity |]).
  all: split; [intros e Hin; apply (Hin_new e _ Hin); reflexivity |].
  all: split; [rewrite TrackerFacts.count_app; cbn; lia |].
  all: first
         [ left; eexists _, calls; (split; [reflexivity |]);
           (split; [rewrite TrackerFacts.count_app, Hcl; reflexivity |]);
           unfold onlyLoadingCleared; cbn; destruct hk; repeat split; reflexivity
         | right; exists h, calls; (split; [reflexivity |]); (split; [exact Hcl |]);
           unfold submittedDeposit; cbn; destruct hk; repeat split; (reflexivity || exact Hh) ].
Qed.

(** X20: a deposit that is a plain transfer never throws and asks the
    wallet for nothing but an ERC-20 transfer.  After the request for the
    destination wallet, the only call of the wallet that it can make is
    one [transfer] on the contract of the selected token, of the deposit
    amount in the decimals of the token, to the address that the backend
    named; no transaction is sent directly, whatever the tags of the
    token.  It ends with [isLoading] false. *)
Theorem plain_deposit_is_a_token_transfer
    (s : session) (tk : Token) (u : DepositUser) (chain : Z) (network : string) :
  accepted p d tk u chain network ->
  isApproved (hook s) = true \/ UseDepositTransaction.taggedNative tk = true ->
  plainTransfer p tk u ->
  fst (executeTransaction p d s) = Ok tt
  /\ isLoading (hook (snd (executeTransaction p d s))) = false
  /\ exists new,
       trace (outside (snd (executeTransaction p d s)))
       = (trace (outside s) ++ Called "/api/getWalletAgent" :: new)%list
       /\ count isWalletCall new <= 1
       /\ (forall q, ~ In (SentTransaction q) new)
       /\ (forall q, In (WroteContract q) new ->
                     exists dest units,
                       destinationOf d chain = Some dest
                       /\ truthyString dest = true
                       /\ parseUnits (depositAmount p) (decimals tk) = Resolves units
                       /\ q = transferCall tk dest units).
Proof.
  intros Hacc Happ Hplain.
  destruct (plain_deposit_outcome s tk u chain network Hacc Happ Hplain)
    as (new & Hr & Htr & Hchar & Hcw & Hend).
  split; [exact Hr |]. split.
  - destruct Hend as [(msg & before & _ & _ & Hhook & _)
                     | (h & before & _ & _ & _ & Hhook & _)];
      rewrite Hhook; reflexivity.
  - exists new. split; [exact Htr |]. split; [exact Hcw |]. split.
    + intros q Hin. destruct (Hchar _ Hin eq_refl) as (dest & units & _ & _ & _ & [=]).
    + intros q Hin.
      destruct (Hchar _ Hin eq_refl) as (dest & units & Hd & Ht & Hu & [= ->]).
      exists dest, units. auto.
Qed.

(** X21: a deposit that was submitted is recorded and tracked.  When a
    plain transfer from a hook at rest leaves the hook pending, the
    ledger has a new DEPOSIT entry for the hash, the countdown is at 90,
    and after the render the tracker polls for that hash on a new
    interval, with retry count 0. *)
Theorem submitted_deposit_is_tracked
    (s : session) (tk : Token) (u : DepositUser) (chain : Z) (network : string) :
  accepted p d tk u chain network ->
  isApproved (hook s) = true \/ UseDepositTransaction.taggedNative tk = true ->
  plainTransfer p tk u ->
  depositStopped s -> inflight s = [] ->
  isPending (hook (snd (executeTransaction p d s))) = true ->
  exists h,
    depositPolling h (nextHandle s) 0 (step p d ExecuteTransaction s)
    /\ timeLeft (hook (step p d ExecuteTransaction s)) = 90%Z
    /\ isLoading (hook (step p d ExecuteTransaction s)) = false
    /\ transactions (step p d ExecuteTransaction s)
       = Ledger.addTransaction (depositRecord p tk chain h) (transactions s)
    /\ In (AddedTransaction (depositRecord p tk chain h))
         (trace (outside (step p d ExecuteTransaction s))).
Proof.
  intros Hacc Happ Hplain [Hp Hi Hcd Hpd] Hq Hpend.
  destruct (plain_deposit_outcome s tk u chain network Hacc Happ Hplain)
    as (new & Hr & Htr & Hchar & Hcw & Hend).
  destruct Hend as [(msg & before & _ & _ & Hhook & _)
                   | (h & before & Hnew & _ & Hne & Hhook & Htx & Hiv & Hnh & Hin & Hcd'
                      & Hpd')].
  { rewrite Hhook in Hpend. cbn in Hpend. congruence. }
  exists h. unfold step.
  destruct (snd (executeTransaction p d s)) as [hk' out' txs' ivs' nh' infl' np' cd' pd'].
  clear Hr Hpend Hchar Hcw.
  destruct s as [hk out txs ivs nh infl np cd pd].
  cbn in Hp, Hi, Hcd, Hpd, Hq, Htr, Hhook, Htx, Hiv, Hnh, Hin, Hcd', Hpd'. subst.
  rewrite (effects_starts _ _ _ _ _ _ _ _ h);
    [| reflexivity | reflexivity | exact Hne | cbn; lia].
  cbn. split; [constructor; cbn; auto; lia |]. repeat split; try reflexivity.
  rewrite Htr. apply in_or_app. right. right. apply in_or_app. right. left. reflexivity.
Qed.

(** *** The timers in every reachable session *)

Lemma untouchedTimers_refl s : untouchedTimers s s.
Proof. unfold untouchedTimers. auto 10. Qed.

Lemma untouchedTimers_trans s1 s2 s3 :
  untouchedTimers s1 s2 -> untouchedTimers s2 s3 -> untouchedTimers s1 s3.
Proof.
  unfold untouchedTimers.
  intros (Hr & Hc & Hp & Hi & Ht) (Hr' & Hc' & Hp' & Hi' & Ht').
  repeat split; try congruence.
  destruct Ht' as [Ht' | Ht']; [| now right].
  destruct Ht as [Ht | [Hpend Ht]]; [left; congruence |].
  right. unfold display in Ht'. injection Ht' as -> _ ->. auto.
Qed.

(** The end of a submission: the hash, the pending flag and the
    countdown are set, and the entry is added. *)
Lemma submission_keeps h r :
  keeps untouchedTimers
    (set (setTransactionHash (Some h));;
     set (setIsPending true);;
     set (setTimeLeft 90);;
     addTransaction r).
Proof.
  intros s. unfold untouchedTimers. destruct s as [hk ? ? ? ? ? ? ? ?]. destruct hk.
  cbn. repeat split; auto.
Qed.

Lemma keeps_bind {A B} (m : handler A) (f : A -> handler B) :
  keeps untouchedTimers m -> (forall a, keeps untouchedTimers (f a)) ->
  keeps untouchedTimers (m ≫= f).
Proof.
  intros Hm Hf s. unfold mbind, handler_bind. specialize (Hm s).
  destruct (m s) as [[a | e] s1]; cbn in *; [| exact Hm].
  eapply untouchedTimers_trans; [exact Hm | apply Hf].
Qed.

Lemma keeps_catching {A} (m : handler A) (h : Error -> handler A) :
  keeps untouchedTimers m -> (forall e, keeps untouchedTimers (h e)) ->
  keeps untouchedTimers (catching m h).
Proof.
  intros Hm Hh s. unfold catching. specialize (Hm s).
  destruct (m s) as [[a | e] s1]; cbn in *; [exact Hm |].
  eapply untouchedTimers_trans; [exact Hm | apply Hh].
Qed.

Lemma keeps_finally {A} (m : handler A) (f : session -> session) :
  keeps untouchedTimers m -> (forall s, untouchedTimers s (f s)) ->
  keeps untouchedTimers (finally m f).
Proof.
  intros Hm Hf s. unfold finally. specialize (Hm s).
  destruct (m s) as [r s1]; cbn in *.
  eapply untouchedTimers_trans; [exact Hm | apply Hf].
Qed.

Lemma keeps_call {A} (m : js A) : keeps untouchedTimers (call m).
Proof.
  intros s. unfold call. destruct (m (outside s)) as [r w].
  unfold untouchedTimers. cbn. auto 10.
Qed.

Lemma keeps_raise {A} (e : Error) : keeps untouchedTimers (raise e : handler A).
Proof. intros s. apply untouchedTimers_refl. Qed.

Lemma keeps_ret {A} (a : A) : keeps untouchedTimers (mret a : handler A).
Proof. intros s. apply untouchedTimers_refl. Qed.

Lemma keeps_addTransaction r : keeps untouchedTimers (addTransaction r).
Proof. intros s. unfold untouchedTimers. cbn. auto 10. Qed.

Ltac keeps_set :=
  let s0 := fresh "s" in
  let hk := fresh "hk" in
  intros s0; unfold untouchedTimers; destruct s0 as [hk ? ? ? ? ? ? ? ?]; destruct hk;
  cbn; auto 10.

Lemma tryTransaction_keeps tk u chain network approved :
  keeps untouchedTimers (tryTransaction p d tk u chain network approved).
Proof.
  unfold tryTransaction, raiseOr.
  repeat first
    [ apply submission_keeps
    | apply keeps_bind; [| intros ?]
    | apply keeps_call
    | apply keeps_raise
    | apply keeps_ret
    | apply keeps_addTransaction
    | match goal with
      | |- keeps _ (set _) => keeps_set
      | |- keeps _ (if ?b then _ else _) => destruct b
      | |- keeps _ (match ?x with _ => _ end) => destruct x
      | |- keeps _ (let '(_, _) := ?x in _) => destruct x
      end ].
Qed.

Lemma executeTransaction_keeps : keeps untouchedTimers (executeTransaction p d).
Proof.
  intros s. unfold executeTransaction.
  destruct (selectedToken p) as [tk |]; [| apply untouchedTimers_refl].
  destruct (user d) as [u |]; [| apply untouchedTimers_refl].
  destruct (chainId d) as [chain |]; [| apply untouchedTimers_refl].
  destruct (networkName d) as [network |]; [| apply untouchedTimers_refl].
  destruct (negb (truthyString (depositAmount p)) || (chain =? 0)%Z);
    [apply untouchedTimers_refl |].
  destruct (du_pendingDepo u); [apply keeps_call |].
  apply (keeps_bind (set (setIsLoading true))); [keeps_set |].
  intros _. apply keeps_finally.
  - apply keeps_catching; [apply tryTransaction_keeps | intros e; apply keeps_call].
  - keeps_set.
Qed.

Ltac break_matches :=
  repeat match goal with
         | |- context [match ?x with _ => _ end] => destruct x eqn:?; cbn
         | |- context [if ?x then _ else _] => destruct x eqn:?; cbn
         end.

Ltac timers_kept :=
  let s0 := fresh "s" in
  let hk := fresh "hk" in
  intros s0; unfold timersKept; destruct s0 as [hk ? ? ? ? ? ? ? ?]; destruct hk; cbn;
  break_matches;
  (split; [reflexivity |]); (split; [reflexivity |]); (split; [reflexivity |]);
  (split; [first [left; reflexivity | right; reflexivity] |]);
  (split; [first [left; reflexivity | right; right; split; reflexivity] |]);
  first [left; reflexivity | right; left; reflexivity
        | right; right; right; split; [lia | reflexivity]].

Lemma intervalFires_kept handle : forall s, timersKept s (intervalFires handle s).
Proof. unfold intervalFires, pollTransactionStatus, log. timers_kept. Qed.

Lemma statusSettles_kept poll raw : forall s, timersKept s (statusSettles p poll raw s).
Proof.
  unfold statusSettles, lookupPoll, resumeWithStatus, checkTransactionStatus, dropPoll,
    giveUp, complete, clearPolling, clearInterval, log.
  timers_kept.
Qed.

Lemma refreshSettles_kept poll : forall s, timersKept s (refreshSettles p poll s).
Proof. unfold refreshSettles, lookupPoll, dropPoll, complete, log. timers_kept. Qed.

Lemma countdownTick_kept : forall s, timersKept s (countdownTick s).
Proof. unfold countdownTick. timers_kept. Qed.

Lemma resetTransactionState_kept : forall s, timersKept s (resetTransactionState s).
Proof. unfold resetTransactionState, clearPolling, clearInterval. timers_kept. Qed.

Lemma executeTransaction_kept : forall s, timersKept s (snd (executeTransaction p d s)).
Proof.
  intros s. destruct (executeTransaction_keeps s) as (Hr & Hc & Hp & Hi & Hd).
  unfold timersKept. repeat split; auto.
  - destruct Hd as [Hd | Hd]; [| auto].
    unfold display in Hd. injection Hd as Hp1 Hh1 Ht1. right. right. auto.
  - destruct Hd as [Hd | [_ Hd]]; [| auto].
    unfold display in Hd. injection Hd as Hp1 Hh1 Ht1. auto.
Qed.

Lemma effects_hook s :
  isPending (hook (effects s)) = isPending (hook s)
  /\ transactionHash (hook (effects s)) = transactionHash (hook s)
  /\ timeLeft (hook (effects s)) = timeLeft (hook s).
Proof.
  unfold effects, pollingBody, countdownBody, pollingCleanup, clearPolling, clearInterval,
    startPolling.
  destruct s as [hk ? ? ? ? ? ? ? ?]. destruct hk. cbn.
  break_matches; auto.
Qed.

Lemma clearPolling_clears s :
  (forall i, In i (intervals s) -> pollingIntervalRef (hook s) = Some (fst i)) ->
  intervals (clearPolling s) = [].
Proof.
  intros Hown. unfold clearPolling.
  destruct (pollingIntervalRef (hook s)) as [handle |] eqn:Href.
  - unfold clearInterval. cbn.
    destruct (List.filter _ (intervals s)) as [| i rest] eqn:Hf; [reflexivity |].
    assert (Hi : In i (List.filter (fun i => negb (Nat.eqb (fst i) handle)) (intervals s))).
    { rewrite Hf. now left. }
    apply List.filter_In in Hi as [Hin Hne].
    apply Hown in Hin. injection Hin as ->.
    now rewrite Nat.eqb_refl in Hne.
  - destruct (intervals s) as [| i rest]; [reflexivity |].
    specialize (Hown i (or_introl eq_refl)). discriminate.
Qed.

Lemma clearPolling_same s :
  hook (clearPolling s) = hook s /\ nextHandle (clearPolling s) = nextHandle s
  /\ countdownDeps (clearPolling s) = countdownDeps s
  /\ pollingDeps (clearPolling s) = pollingDeps s.
Proof. unfold clearPolling. destruct (pollingIntervalRef (hook s)); cbn; auto. Qed.

(** What the three stages of the effects do to the intervals. *)
Lemma pollingCleanup_clears s :
  (forall i, In i (intervals s) -> pollingIntervalRef (hook s) = Some (fst i)) ->
  pollingDeps s <> None ->
  intervals (pollingCleanup true s) = []
  /\ hook (pollingCleanup true s) = hook s
  /\ nextHandle (pollingCleanup true s) = nextHandle s.
Proof.
  intros Hown Hpd. unfold pollingCleanup.
  destruct (pollingDeps s); [| contradiction].
  destruct (clearPolling_same s) as (Hhk & Hnh & _).
  split; [apply clearPolling_clears, Hown | auto].
Qed.

Lemma countdownBody_empty runs s :
  intervals s = [] ->
  intervals (countdownBody runs s) = []
  /\ hook (countdownBody runs s) = hook s
  /\ nextHandle (countdownBody runs s) = nextHandle s.
Proof.
  intros Hnil. unfold countdownBody.
  destruct (clearPolling_same s) as (Hhk & Hnh & _).
  destruct runs; [| auto].
  destruct (negb (isPending (hook s)) || (timeLeft (hook s) <=? 0)%Z); [| auto].
  split; [| auto]. apply clearPolling_clears. rewrite Hnil. intros i [].
Qed.

Lemma pollingBody_starts s :
  intervals s = [] ->
  (isPending (hook s) = true
   /\ (exists h, transactionHash (hook s) = Some h
                 /\ intervals (pollingBody true s) = [(nextHandle s, h)])
   /\ pollingIntervalRef (hook (pollingBody true s)) = Some (nextHandle s))
  \/ intervals (pollingBody true s) = [].
Proof.
  intros Hnil. unfold pollingBody.
  destruct (isPending (hook s)) eqn:Hpend; cbn [andb]; [| now right].
  destruct (transactionHash (hook s)) as [h |] eqn:Hhash; cbn [truthy]; [| now right].
  destruct (truthyString h); [| now right].
  left. split; [reflexivity |]. split; [| reflexivity].
  exists h. split; [reflexivity |]. cbn. now rewrite Hnil.
Qed.

(** The intervals after the effects: a new one, none, or the ones
    there were. *)
Lemma effects_intervals s :
  (forall i, In i (intervals s) -> pollingIntervalRef (hook s) = Some (fst i)) ->
  pollingDeps s <> None ->
  (pollingDeps s <> Some (isPending (hook s), transactionHash (hook s))
   /\ isPending (hook s) = true
   /\ (exists h, transactionHash (hook s) = Some h
                 /\ intervals (effects s) = [(nextHandle s, h)])
   /\ pollingIntervalRef (hook (effects s)) = Some (nextHandle s))
  \/ intervals (effects s) = []
  \/ (pollingDeps s = Some (isPending (hook s), transactionHash (hook s))
      /\ (countdownDeps s = Some (isPending (hook s), timeLeft (hook s))
          \/ (isPending (hook s) = true /\ (0 < timeLeft (hook s))%Z))
      /\ intervals (effects s) = intervals s
      /\ pollingIntervalRef (hook (effects s)) = pollingIntervalRef (hook s)).
Proof.
  intros Hown Hpd. unfold effects.
  destruct (bool_decide (pollingDeps s = Some (isPending (hook s), transactionHash (hook s))))
    eqn:Hp; cbn [negb].
  - apply bool_decide_eq_true_1 in Hp.
    unfold pollingBody, pollingCleanup, countdownBody.
    destruct (bool_decide (countdownDeps s = Some (isPending (hook s), timeLeft (hook s))))
      eqn:Hc; cbn [negb].
    + apply bool_decide_eq_true_1 in Hc. right. right. cbn. auto.
    + destruct (negb (isPending (hook s)) || (timeLeft (hook s) <=? 0)%Z) eqn:Hstop.
      * right. left. cbn. apply clearPolling_clears, Hown.
      * apply orb_false_iff in Hstop as [Hpend Htime].
        apply negb_false_iff in Hpend. apply Z.leb_gt in Htime.
        right. right. cbn. auto.
  - apply bool_decide_eq_false_1 in Hp.
    destruct (pollingCleanup_clears s Hown Hpd) as (Hi1 & Hh1 & Hn1).
    destruct (countdownBody_empty
                (negb (bool_decide (countdownDeps s
                                    = Some (isPending (hook s), timeLeft (hook s)))))
                _ Hi1) as (Hi2 & Hh2 & Hn2).
    destruct (pollingBody_starts _ Hi2) as [(Hpend & (h & Hhash & Hlive) & Href) | Hnone].
    + left. rewrite Hh2, Hh1 in Hpend, Hhash. rewrite Hn2, Hn1 in Hlive, Href.
      split; [exact Hp |]. split; [exact Hpend |]. split; [| exact Href].
      exists h. split; [exact Hhash | exact Hlive].
    + right. left. exact Hnone.
Qed.

Lemma effects_deps s :
  countdownDeps (effects s) = Some (isPending (hook s), timeLeft (hook s))
  /\ pollingDeps (effects s) = Some (isPending (hook s), transactionHash (hook s)).
Proof. unfold effects. cbn. auto. Qed.

(** The effects put the timers in order after a handler that kept
    them. *)
Lemma kept_tidy s0 s1 : depositTidy s0 -> timersKept s0 s1 -> depositTidy (effects s1).
Proof.
  intros [Hcd Hpd Htm Ht] (Href & Hcd1 & Hpd1 & Hiv & Hdisp & Htl).
  assert (Hown0 : forall i, In i (intervals s0) ->
                            pollingIntervalRef (hook s0) = Some (fst i)).
  { destruct Htm as [-> | (_ & _ & handle & h & -> & _ & ->)]; [intros i [] |].
    intros i [<- | []]. reflexivity. }
  assert (Hnil0 : intervals (clearPolling s0) = []).
  { apply clearPolling_clears, Hown0. }
  assert (Hown1 : forall i, In i (intervals s1) ->
                            pollingIntervalRef (hook s1) = Some (fst i)).
  { rewrite Href. destruct Hiv as [-> | ->]; [exact Hown0 | rewrite Hnil0; intros i []]. }
  assert (Hrange : (0 <= timeLeft (hook s1) <= 90)%Z).
  { destruct Htl as [-> | [-> | [-> | [Hpos ->]]]]; lia. }
  destruct (effects_hook s1) as (Hp & Hh & Htime).
  destruct (effects_deps s1) as (Hc' & Hp').
  constructor.
  - now rewrite Hp, Htime.
  - now rewrite Hp, Hh.
  - rewrite Hp, Hh, Htime.
    destruct (effects_intervals s1 Hown1) as [(Hne & Hpend & (h & Hhash & Hlive) & Hr)
                                             | [Hnone | (Hsame & Hcount & Hlive & Hr)]].
    + rewrite Hpd1, Hpd. discriminate.
    + right. split; [exact Hpend |]. split.
      * destruct Hdisp as [Hx | [[_ Hx] | [Hx Hy]]]; [congruence | lia |].
        exfalso. apply Hne. rewrite Hpd1, Hpd. congruence.
      * exists (nextHandle s1), h. auto.
    + now left.
    + rewrite Hpd1, Hpd in Hsame. injection Hsame as Hsp Hsh.
      destruct Hiv as [Hiv | Hiv]; [| left; rewrite Hlive, Hiv; exact Hnil0].
      destruct Htm as [Hnil | (Hpend0 & Htime0 & handle & h & Hl0 & Hh0 & Hr0)];
        [left; rewrite Hlive, Hiv; exact Hnil |].
      right. split; [congruence |]. split.
      * destruct Hcount as [Hcount | [_ Hpos]]; [| exact Hpos].
        rewrite Hcd1, Hcd in Hcount. injection Hcount as _ Heq. lia.
      * exists handle, h. rewrite Hlive, Hiv, Hr, Href. split; [exact Hl0 |].
        split; [congruence | exact Hr0].
  - now rewrite Htime.
Qed.

Lemma deposit_cleanup_tidy s : depositTidy s -> depositTidy (cleanup s).
Proof.
  intros [Hcd Hpd Htm Ht]. unfold cleanup.
  destruct (clearPolling_same s) as (Hh & _ & Hc & Hp).
  constructor; rewrite ?Hh, ?Hc, ?Hp; auto.
  left. apply clearPolling_clears.
  destruct Htm as [-> | (_ & _ & handle & h & -> & _ & ->)]; [intros i [] |].
  intros i [<- | []]. reflexivity.
Qed.

Lemma deposit_step_tidy a s : depositTidy s -> depositTidy (step p d a s).
Proof.
  intros Hs. destruct a; unfold step.
  - apply (kept_tidy s _ Hs), executeTransaction_kept.
  - apply (kept_tidy s _ Hs), intervalFires_kept.
  - apply (kept_tidy s _ Hs), statusSettles_kept.
  - apply (kept_tidy s _ Hs), refreshSettles_kept.
  - apply (kept_tidy s _ Hs), countdownTick_kept.
  - apply (kept_tidy s _ Hs), resetTransactionState_kept.
  - apply deposit_cleanup_tidy, Hs.
Qed.

Lemma depositReachable_tidy s : depositReachable p d s -> depositTidy s.
Proof.
  intros (w & l & acts & ->). unfold run.
  assert (Hm : depositTidy (mount w l)).
  { unfold mount, idle, effects, pollingBody, countdownBody, pollingCleanup. cbn.
    rewrite !bool_decide_eq_false_2 by discriminate. cbn.
    constructor; cbn; [reflexivity | reflexivity | now left | lia]. }
  revert Hm. generalize (mount w l). induction acts as [| a rest IH]; intros s0 Hs0.
  - exact Hs0.
  - cbn [fold_left]. apply IH, deposit_step_tidy, Hs0.
Qed.

(** X22: the deposit hook leaks no timer.  In every session that the
    hook can reach, at most one polling interval is live; a live interval
    polls the hash that the hook shows and its handle is the one kept in
    the ref; none is live while the hook is not pending or the countdown
    is at 0; and [timeLeft] stays between 0 and 90. *)
Theorem deposit_polls_only_while_pending_with_time_left (s : session) :
  depositReachable p d s ->
  length (intervals s) <= 1
  /\ (forall handle h, In (handle, h) (intervals s) ->
                       transactionHash (hook s) = Some h
                       /\ pollingIntervalRef (hook s) = Some handle
                       /\ isPending (hook s) = true
                       /\ (0 < timeLeft (hook s))%Z)
  /\ (isPending (hook s) = false \/ timeLeft (hook s) = 0%Z -> intervals s = [])
  /\ (0 <= timeLeft (hook s) <= 90)%Z.
Proof.
  intros Hr. destruct (depositReachable_tidy s Hr) as [_ _ Htm Ht].
  split; [| split; [| split; [| exact Ht]]].
  - destruct Htm as [-> | (_ & _ & handle & h & -> & _)]; cbn; lia.
  - intros handle h Hin.
    destruct Htm as [Hnil | (Hp & Htime & handle' & h' & Hlive & Hhash & Href)].
    + rewrite Hnil in Hin. destruct Hin.
    + rewrite Hlive in Hin. destruct Hin as [[= <- <-] | []]. auto.
  - intros Hstop. destruct Htm as [Hnil | (Hp & Htime & _)]; [exact Hnil |].
    destruct Hstop as [Hx | Hx]; [congruence | lia].
Qed.

End WithHost.

Lemma deposit_started_polling : depositPolling "0xhash" 1 0 Examples4.started.
Proof. constructor; vm_compute; reflexivity. Qed.

Lemma native_deposit_accepted service :
  accepted (Examples4.depositOf Examples2.nativeToken "1") (Examples4.depsWith service)
    Examples2.nativeToken Examples4.depositor 1 "Ethereum".
Proof. constructor; (reflexivity || discriminate). Qed.

Lemma tokenA_deposit_accepted service :
  accepted (Examples4.depositOf Demo.tokenA "1") (Examples4.depsWith service)
    Demo.tokenA Examples4.depositor 1 "Ethereum".
Proof. constructor; (reflexivity || discriminate). Qed.

(** Ninety ticks of the countdown after the submission: the tracker
    has stalled. *)
Lemma expiry_stalls_witness :
  timeLeft (hook Examples4.started) = Z.of_nat 90
  /\ stalled "0xhash"
       (@run Examples.host (Examples4.depositOf Examples2.nativeToken "1")
          (Examples4.depsWith Demo.connected) (repeat CountdownTick 90) Examples4.started).
Proof.
  assert (Ht : timeLeft (hook Examples4.started) = Z.of_nat 90)
    by (vm_compute; reflexivity).
  split; [exact Ht |].
  exact (proj1 (@countdown_expiry_stalls_deposit Examples.host
                  (Examples4.depositOf Examples2.nativeToken "1")
                  (Examples4.depsWith Demo.connected) "0xhash" 1 0 90 Examples4.started
                  deposit_started_polling Ht)).
Defined.

(** Forty answers "REJECTED" in a row leave the tracker polling. *)
Lemma unflagged_answers_witness :
  depositPolling "0xhash" 1 40
    (@pollAll Examples.host (Examples4.depositOf Examples2.nativeToken "1")
       (Examples4.depsWith Demo.connected) 1
       (repeat (Resolves {| cts_error := false; cts_transaction_status := REJECTED_ |}) 40)
       Examples4.started).
Proof.
  refine (proj1 (proj1 (@retry_limit_counts_only_flagged_answers Examples.host
                          (Examples4.depositOf Examples2.nativeToken "1")
                          (Examples4.depsWith Demo.connected) "0xhash" 1 0
                          Examples4.started deposit_started_polling)
                   (repeat (Resolves {| cts_error := false;
                                        cts_transaction_status := REJECTED_ |}) 40) _)).
  generalize 40. intros k. induction k as [| k IH]; cbn; constructor; auto.
Defined.

(** The first answer confirms the deposit. *)
Lemma confirmation_witness :
  depositStopped
    (@pollOnce Examples.host (Examples4.depositOf Examples2.nativeToken "1")
       (Examples4.depsWith Demo.connected) 1
       (Resolves {| cts_error := false; cts_transaction_status := CONFIRMED_ |})
       Examples4.started).
Proof.
  pose proof (@deposit_is_only_ever_confirmed Examples.host
                (Examples4.depositOf Examples2.nativeToken "1")
                (Examples4.depsWith Demo.connected) "0xhash" 1 0
                (Resolves {| cts_error := false; cts_transaction_status := CONFIRMED_ |})
                Examples4.started deposit_started_polling) as Hc.
  assert (Hl : exists tx,
             confirms (Resolves {| cts_error := false;
                                   cts_transaction_status := CONFIRMED_ |})
               "0xhash" (transactions Examples4.started) = Some tx).
  { eexists. vm_compute. reflexivity. }
  destruct Hl as [tx Hl]. rewrite Hl in Hc. exact (proj1 Hc).
Defined.

(** The approval of token A is rejected in the wallet. *)
Lemma failed_approval_witness :
  isApproved (hook Examples4.fresh) = false
  /\ isApproving
       (hook (snd (@executeTransaction Examples.host (Examples4.depositOf Demo.tokenA "1")
                     (Examples4.depsWith
                        (Demo.serviceWith (Some (Demo.wallet (Some Examples4.refusing)))))
                     Examples4.fresh))) = true.
Proof.
  split; [reflexivity |].
  refine (proj1 (proj2 (@failed_approval_stops_the_deposit Examples.host
                          (Examples4.depositOf Demo.tokenA "1")
                          (Examples4.depsWith
                             (Demo.serviceWith (Some (Demo.wallet (Some Examples4.refusing)))))
                          Examples4.fresh Demo.tokenA Examples4.depositor 1 "Ethereum"
                          (TransactionService.failed (newError "User rejected the request"))
                          _ (tokenA_deposit_accepted _) eq_refl eq_refl _ eq_refl))).
  vm_compute. reflexivity.
Defined.

(** The direct deposit of 1 ETH, a token tagged native. *)
Lemma plain_deposit_witness :
  plainTransfer (Examples4.depositOf Examples2.nativeToken "1") Examples2.nativeToken
    Examples4.depositor
  /\ fst (@executeTransaction Examples.host (Examples4.depositOf Examples2.nativeToken "1")
            (Examples4.depsWith Demo.connected) Examples4.fresh) = Ok tt.
Proof.
  assert (Hplain : plainTransfer (Examples4.depositOf Examples2.nativeToken "1")
                     Examples2.nativeToken Examples4.depositor).
  { right. right. reflexivity. }
  split; [exact Hplain |].
  exact (proj1 (@plain_deposit_is_a_token_transfer Examples.host
                  (Examples4.depositOf Examples2.nativeToken "1")
                  (Examples4.depsWith Demo.connected) Examples4.fresh
                  Examples2.nativeToken Examples4.depositor 1 "Ethereum"
                  (native_deposit_accepted _) (or_intror eq_refl) Hplain)).
Defined.

Lemma tracked_deposit_witness :
  depositStopped Examples4.fresh
  /\ exists h, depositPolling h (nextHandle Examples4.fresh) 0 Examples4.started.
Proof.
  assert (Hrest : depositStopped Examples4.fresh).
  { constructor; vm_compute; reflexivity. }
  split; [exact Hrest |].
  destruct (@submitted_deposit_is_tracked Examples.host
              (Examples4.depositOf Examples2.nativeToken "1")
              (Examples4.depsWith Demo.connected) Examples4.fresh
              Examples2.nativeToken Examples4.depositor 1 "Ethereum"
              (native_deposit_accepted _) (or_intror eq_refl)
              (or_intror (or_intror eq_refl)) Hrest eq_refl)
    as (h & Hpol & _).
  { vm_compute. reflexivity. }
  exists h. exact Hpol.
Defined.

Lemma deposit_started_reachable :
  @depositReachable Examples.host (Examples4.depositOf Examples2.nativeToken "1")
    (Examples4.depsWith Demo.connected) Examples4.started.
Proof.
  exists (Demo.emptyWorld 0), [], [ExecuteTransaction].
  unfold Examples4.started, Examples4.fresh, run. cbn [fold_left]. reflexivity.
Qed.

Lemma deposit_timers_witness :
  @depositReachable Examples.host (Examples4.depositOf Examples2.nativeToken "1")
    (Examples4.depsWith Demo.connected) Examples4.started
  /\ length (intervals Examples4.started) <= 1.
Proof.
  split; [exact deposit_started_reachable |].
  exact (proj1 (@deposit_polls_only_while_pending_with_time_left Examples.host
                  (Examples4.depositOf Examples2.nativeToken "1")
                  (Examples4.depsWith Demo.connected) Examples4.started
                  deposit_started_reachable)).
Defined.

End DepositFacts.
